(** * jenkins-to-graphite: a shallow embedding of [jenkins-to-graphite.py]

    The script polls a Jenkins server, derives a flat batch of counters and
    writes it to a Graphite collector.  The embedding follows the three
    parts of the script:

    - [JenkinsServer]: the fetch layer ([get_raw_data], [get_data],
      [build_info_min], [build_info_hour]);
    - [GraphiteServer]: the batch and its sender ([add_data],
      [_data_as_msg], [send]);
    - [gather_and_send_stats]: the derivation of the counters.

    The script is Python 2 (it uses [except Exception, e]); values,
    exceptions and the built-ins it relies on are modelled first. *)

From Stdlib Require Import ZArith String Ascii SpecFloat.
From stdpp Require Import gmap strings list pretty.

Open Scope string_scope.
Open Scope Z_scope.

(** ** Python values *)

(** The values [ast.literal_eval] delivers for a Jenkins [api/python]
    answer, and the values [docopt] hands over in [opts]: [None], booleans,
    integers, strings, lists and dictionaries with string keys.  A
    dictionary is kept as the list of its entries in iteration order; keys
    are unique in a dictionary built by Python, and [dict_get] returns the
    first entry of a key.  Integers are unbounded (Python 2 promotes [int]
    to [long] silently); [str] and [unicode] are not told apart.  Float
    and tuple literals, which Jenkins does not produce for the fields read
    here, are left out; floats appear only as clock readings. *)
#[warnings="-register-all"]
Inductive PyValue : Type :=
  | PyNone
  | PyBool (b : bool)
  | PyInt (z : Z)
  | PyStr (s : string)
  | PyList (l : list PyValue)
  | PyDict (d : list (string * PyValue)).

(** The exceptions that the modelled operations can raise. *)
Inductive PyExc : Type :=
  | AttributeError
  | TypeError
  | ValueError
  | SyntaxError
  | KeyError
  | OverflowError
  | ConnectionError   (* requests.exceptions.ConnectionError and relatives *)
  | SocketError.      (* socket.error and relatives *)

(** A computation either delivers a value or raises. *)
Inductive result (A : Type) : Type :=
  | Ok (a : A)
  | Raise (e : PyExc).
Arguments Ok {A} a.
Arguments Raise {A} e.

Definition is_dict (v : PyValue) : bool :=
  match v with PyDict _ => true | _ => false end.

(** ** Built-ins *)

Fixpoint dict_get (d : list (string * PyValue)) (key : string)
    (default : PyValue) : PyValue :=
  match d with
  | [] => default
  | (k, v) :: d' => if String.eqb k key then v else dict_get d' key default
  end.

(** [obj.get(key, default)]: only a dictionary has the method. *)
Definition py_get (obj : PyValue) (key : string) (default : PyValue)
    : result PyValue :=
  match obj with
  | PyDict d => Ok (dict_get d key default)
  | _ => Raise AttributeError
  end.

(** [opts[key]] on the options dictionary. *)
Fixpoint py_getitem (d : list (string * PyValue)) (key : string)
    : result PyValue :=
  match d with
  | [] => Raise KeyError
  | (k, v) :: d' => if String.eqb k key then Ok v else py_getitem d' key
  end.

(** Truth value of an object, as [if obj:] takes it. *)
Definition py_bool (v : PyValue) : bool :=
  match v with
  | PyNone => false
  | PyBool b => b
  | PyInt z => negb (z =? 0)
  | PyStr s => negb (String.eqb s EmptyString)
  | PyList l => match l with [] => false | _ => true end
  | PyDict d => match d with [] => false | _ => true end
  end.

(** [len(obj)]. *)
Definition py_len (v : PyValue) : result Z :=
  match v with
  | PyStr s => Ok (Z.of_nat (String.length s))
  | PyList l => Ok (Z.of_nat (length l))
  | PyDict d => Ok (Z.of_nat (length d))
  | _ => Raise TypeError
  end.

Fixpoint chars (s : string) : list PyValue :=
  match s with
  | EmptyString => []
  | String c s' => PyStr (String c EmptyString) :: chars s'
  end.

(** The elements [for j in obj] runs through. *)
Definition py_iter (v : PyValue) : result (list PyValue) :=
  match v with
  | PyStr s => Ok (chars s)
  | PyList l => Ok l
  | PyDict d => Ok (map (fun kv => PyStr (fst kv)) d)
  | _ => Raise TypeError
  end.

(** The integer a number stands for in arithmetic ([bool] is a subclass of
    [int]). *)
Definition as_int (v : PyValue) : option Z :=
  match v with
  | PyInt z => Some z
  | PyBool b => Some (if b then 1 else 0)
  | _ => None
  end.

(** [a - b]. *)
Definition py_sub (a b : PyValue) : result PyValue :=
  match as_int a, as_int b with
  | Some x, Some y => Ok (PyInt (x - y))
  | _, _ => Raise TypeError
  end.

(** [obj == 'literal']. *)
Definition py_eq_str (v : PyValue) (s : string) : bool :=
  match v with
  | PyStr s' => String.eqb s' s
  | _ => false
  end.

(** *** [repr] and [str] *)

Definition hex_digit (n : N) : ascii :=
  match n with
  | 0%N => "0" | 1%N => "1" | 2%N => "2" | 3%N => "3" | 4%N => "4"
  | 5%N => "5" | 6%N => "6" | 7%N => "7" | 8%N => "8" | 9%N => "9"
  | 10%N => "a" | 11%N => "b" | 12%N => "c" | 13%N => "d" | 14%N => "e"
  | _ => "f"
  end%char.

Fixpoint contains_char (c : ascii) (s : string) : bool :=
  match s with
  | EmptyString => false
  | String c' s' => Ascii.eqb c c' || contains_char c s'
  end.

Definition backslash : ascii := Ascii.ascii_of_N 92.
Definition squote : ascii := Ascii.ascii_of_N 39.
Definition dquote : ascii := Ascii.ascii_of_N 34.

(** One character of [repr] of a [str], for the chosen quote. *)
Definition repr_char (quote c : ascii) : string :=
  let n := Ascii.N_of_ascii c in
  if Ascii.eqb c quote || Ascii.eqb c backslash then
    String backslash (String c EmptyString)
  else if (n =? 9)%N then String backslash "t"
  else if (n =? 10)%N then String backslash "n"
  else if (n =? 13)%N then String backslash "r"
  else if (n <? 32)%N || (127 <=? n)%N then
    String backslash
      (String "x" (String (hex_digit (n / 16)) (String (hex_digit (n mod 16))
         EmptyString)))
  else String c EmptyString.

Fixpoint repr_chars (quote : ascii) (s : string) : string :=
  match s with
  | EmptyString => EmptyString
  | String c s' => repr_char quote c +:+ repr_chars quote s'
  end.

(** [repr] of a [str]: single quotes, unless the text has a single quote
    and no double quote. *)
Definition repr_str (s : string) : string :=
  let quote :=
    if contains_char squote s && negb (contains_char dquote s)
    then dquote else squote in
  String quote (repr_chars quote s) +:+ String quote EmptyString.

(** [repr] of an integer; beyond the machine word (64 bits) the value is a
    [long], which [repr] marks with [L]. *)
Definition repr_int (z : Z) : string :=
  if (z <? - 2 ^ 63) || (2 ^ 63 <=? z) then pretty z +:+ "L" else pretty z.

Fixpoint py_repr (v : PyValue) : string :=
  match v with
  | PyNone => "None"
  | PyBool b => if b then "True" else "False"
  | PyInt z => repr_int z
  | PyStr s => repr_str s
  | PyList l => "[" +:+ String.concat ", " (map py_repr l) +:+ "]"
  | PyDict d =>
      "{" +:+ String.concat ", "
                (map (fun kv => let '(k, x) := kv in
                                repr_str k +:+ ": " +:+ py_repr x) d)
          +:+ "}"
  end.

(** [str(obj)], which is what [%s] renders. *)
Definition py_str (v : PyValue) : string :=
  match v with
  | PyStr s => s
  | PyInt z => pretty z
  | _ => py_repr v
  end.

(** *** Floats: [time.time()] and its rendering *)

(** A Python float is an IEEE 754 binary64 number; the Standard Library's
    [spec_float] with precision 53 and maximal exponent 1024 is used for
    it, with its correctly rounded operations. *)
Definition float_of_Z (z : Z) : spec_float := binary_normalize 53 1024 z 0 false.
Definition float_sub (x y : spec_float) : spec_float := SFsub 53 1024 x y.
Definition float_mul (x y : spec_float) : spec_float := SFmul 53 1024 x y.

(** [int(x)] of a float: truncation towards zero. *)
Definition float_to_int (x : spec_float) : result Z :=
  match x with
  | S754_zero _ => Ok 0
  | S754_infinity _ => Raise OverflowError
  | S754_nan => Raise ValueError
  | S754_finite s m e =>
      let a := if 0 <=? e then Z.pos m * 2 ^ e else Z.pos m / 2 ^ (- e) in
      Ok (if s then - a else a)
  end.

(** [%d] applied to a float: the decimal digits of [int(x)]; when the
    conversion fails, the formatting operator reports a [TypeError]. *)
Definition format_d (x : spec_float) : result string :=
  match float_to_int x with
  | Ok z => Ok (pretty z)
  | Raise _ => Raise TypeError
  end.

(** Largest [k] with [den * 10 ^ k <= num], for [den <= num]. *)
Fixpoint exp10_up (fuel : nat) (num den k : Z) : Z :=
  match fuel with
  | O => k
  | S fuel' =>
      if den * 10 <=? num then exp10_up fuel' num (den * 10) (k + 1) else k
  end.

(** Largest [k] (negative) with [den * 10 ^ k <= num], for [num < den]. *)
Fixpoint exp10_down (fuel : nat) (num den k : Z) : Z :=
  match fuel with
  | O => k
  | S fuel' =>
      if num <? den then exp10_down fuel' (num * 10) den (k - 1) else k
  end.

(** The decimal exponent of the positive rational [num / den]:
    [10 ^ X <= num / den < 10 ^ (X + 1)].  Every step gains more than three
    bits, so the fuel suffices. *)
Definition decimal_exponent (num den : Z) : Z :=
  let fuel := S (Z.to_nat (Z.log2 num + Z.log2 den)) in
  if den <=? num then exp10_up fuel num den 0 else exp10_down fuel num den 0.

(** Nearest integer to [num / den], ties to even. *)
Definition round_half_even (num den : Z) : Z :=
  let q := num / den in
  match (2 * (num mod den)) ?= den with
  | Lt => q
  | Gt => q + 1
  | Eq => if Z.even q then q else q + 1
  end.

Fixpoint drop_leading_zeros (s : string) : string :=
  match s with
  | String c s' => if Ascii.eqb c "0" then drop_leading_zeros s' else s
  | EmptyString => EmptyString
  end.

Definition strip_trailing_zeros (s : string) : string :=
  String.rev (drop_leading_zeros (String.rev s)).

Fixpoint zeros (n : nat) : string :=
  match n with O => EmptyString | S n' => String "0" (zeros n') end.

Definition substring_from (n : nat) (s : string) : string :=
  String.substring n (String.length s - n) s.

(** The exponent part of the [e] notation: a sign and at least two digits. *)
Definition exponent_str (x : Z) : string :=
  let a := pretty (Z.abs x) in
  (if x <? 0 then "e-" else "e+")
    +:+ (if (String.length a <? 2)%nat then "0" +:+ a else a).

(** The digits [ds] (no trailing zero) with the decimal point after
    position [decpt], as the ['g'] format with 12 significant digits lays
    them out, a [.0] being added where no point and no exponent appears. *)
Definition layout_g12 (ds : string) (decpt : Z) : string :=
  let n := Z.of_nat (String.length ds) in
  if (decpt <=? -4) || (12 <? decpt) then
    String.substring 0 1 ds
      +:+ (if 1 <? n then "." +:+ substring_from 1 ds else EmptyString)
      +:+ exponent_str (decpt - 1)
  else if decpt <=? 0 then "0." +:+ zeros (Z.to_nat (- decpt)) +:+ ds
  else if n <=? decpt then ds +:+ zeros (Z.to_nat (decpt - n)) +:+ ".0"
  else String.substring 0 (Z.to_nat decpt) ds
         +:+ "." +:+ substring_from (Z.to_nat decpt) ds.

(** [m * 2 ^ e], with [m] positive, rounded to 12 significant decimal
    digits (nearest, ties to even) and laid out. *)
Definition format_g12 (m e : Z) : string :=
  let num := if 0 <=? e then m * 2 ^ e else m in
  let den := if 0 <=? e then 1 else 2 ^ (- e) in
  let X := decimal_exponent num den in
  let q :=
    if 0 <=? 11 - X then round_half_even (num * 10 ^ (11 - X)) den
    else round_half_even num (den * 10 ^ (X - 11)) in
  let X' := if q =? 10 ^ 12 then X + 1 else X in
  let q' := if q =? 10 ^ 12 then 10 ^ 11 else q in
  layout_g12 (strip_trailing_zeros (pretty q')) (X' + 1).

(** [str(x)] of a float in Python 2: the format [%.12g], with [.0] added
    to a result that would read as an integer. *)
Definition float_str (x : spec_float) : string :=
  match x with
  | S754_zero s => if s then "-0.0" else "0.0"
  | S754_infinity s => if s then "-inf" else "inf"
  | S754_nan => "nan"
  | S754_finite s m e => (if s then "-" else EmptyString) +:+ format_g12 (Z.pos m) e
  end.

(** *** Strings *)

(** [s.rstrip('.')]: the trailing dots are removed. *)
Fixpoint rstrip_dot (s : string) : string :=
  match s with
  | EmptyString => EmptyString
  | String c s' =>
      match rstrip_dot s' with
      | EmptyString => if Ascii.eqb c "." then EmptyString
                       else String c EmptyString
      | r => String c r
      end
  end.

Definition is_space (c : ascii) : bool :=
  let n := Ascii.N_of_ascii c in
  (n =? 32)%N || ((9 <=? n)%N && (n <=? 13)%N).

Definition is_digit (c : ascii) : bool :=
  let n := Ascii.N_of_ascii c in (48 <=? n)%N && (n <=? 57)%N.

Fixpoint skip_spaces (s : string) : string :=
  match s with
  | String c s' => if is_space c then skip_spaces s' else s
  | EmptyString => EmptyString
  end.

(** The digits at the head of [s], read in base 10 after the value [acc],
    with the number of digits read and the rest of the text. *)
Fixpoint read_digits (s : string) (acc : Z) (n : nat) : Z * nat * string :=
  match s with
  | String c s' =>
      if is_digit c
      then read_digits s' (10 * acc + (Z.of_N (Ascii.N_of_ascii c) - 48)) (S n)
      else (acc, n, s)
  | EmptyString => (acc, n, s)
  end.

(** [int(text)] in Python 2: blanks, an optional sign, blanks again, at
    least one digit, blanks, and nothing else. *)
Definition int_of_str (s : string) : result Z :=
  let s1 := skip_spaces s in
  let '(neg, s2) :=
    match s1 with
    | String c s' =>
        if Ascii.eqb c "-" then (true, s')
        else if Ascii.eqb c "+" then (false, s')
        else (false, s1)
    | EmptyString => (false, s1)
    end in
  let '(v, n, rest) := read_digits (skip_spaces s2) 0 O in
  match n, skip_spaces rest with
  | S _, EmptyString => Ok (if neg then - v else v)
  | _, _ => Raise ValueError
  end.

(** [int(obj)]. *)
Definition py_int (v : PyValue) : result Z :=
  match v with
  | PyInt z => Ok z
  | PyBool b => Ok (if b then 1 else 0)
  | PyStr s => int_of_str s
  | _ => Raise TypeError
  end.

(** ** The two servers and the world around them *)

(** [JenkinsServer]: the base address and the keyword arguments of every
    request (the credentials, when a user name is given). *)
Record JenkinsServer : Type := mkJenkinsServer {
  base_url : string;
  _request_args : option (PyValue * PyValue)
}.

(** [GraphiteServer]: destination, prefix and the batch [data]. *)
Record GraphiteServer : Type := mkGraphiteServer {
  server : string;
  port : Z;
  prefix : string;
  data : gmap string PyValue
}.

(** The body of an HTTP answer is kept as what [ast.literal_eval] makes of
    it: the value of a well-formed literal, or the exception the parser
    raises on anything else. *)
Inductive ResponseText : Type :=
  | Literal (v : PyValue)
  | NotLiteral (e : PyExc).

Definition literal_eval (t : ResponseText) : result PyValue :=
  match t with
  | Literal v => Ok v
  | NotLiteral e => Raise e
  end.

Record Response : Type := mkResponse {
  status_code : Z;
  text : ResponseText
}.

(** [requests.get] either raises (no route, refused connection, ...) or
    delivers a response. *)
Inductive HttpOutcome : Type :=
  | TransportError (e : PyExc)
  | Answer (r : Response).

(** What the script cannot control: the answers of the Jenkins server (by
    the number of requests made before, address and credentials), the
    clock (by the number of readings made before) and the socket calls
    ([None] stands for a call that returns normally). *)
Record Env : Type := mkEnv {
  requests_get : nat -> string -> option (PyValue * PyValue) -> HttpOutcome;
  time_time : nat -> spec_float;
  socket_socket : option PyExc;
  socket_connect : string -> Z -> option PyExc;
  socket_sendall : string -> Z -> string -> option PyExc;
  socket_close : option PyExc
}.

(** What a run changes outside the sink: the requests and clock readings
    made so far, and the payloads written to the collector. *)
Record World : Type := mkWorld {
  http_calls : nat;
  clock_calls : nat;
  wire : list (string * Z * string)
}.

(** The state of a run: the sink object and the world. *)
Record Sys : Type := mkSys {
  graphite : GraphiteServer;
  world : World
}.

(** ** The monad of the script: environment, state and exceptions *)

Definition M (A : Type) : Type := Env -> Sys -> result A * Sys.

Definition ret {A : Type} (a : A) : M A := fun _ s => (Ok a, s).

Definition raise {A : Type} (e : PyExc) : M A := fun _ s => (Raise e, s).

Definition bind {A B : Type} (m : M A) (f : A -> M B) : M B :=
  fun env s =>
    match m env s with
    | (Ok a, s') => f a env s'
    | (Raise e, s') => (Raise e, s')
    end.

#[global] Instance M_ret : MRet M := @ret.
#[global] Instance M_bind : MBind M := fun A B f m => bind m f.

(** A pure computation that may raise. *)
Definition lift {A : Type} (r : result A) : M A := fun _ s => (r, s).

(** [try: m except Exception, e: handler]. *)
Definition try_except {A : Type} (m : M A) (handler : PyExc -> M A) : M A :=
  fun env s =>
    match m env s with
    | (Ok a, s') => (Ok a, s')
    | (Raise e, s') => handler e env s'
    end.

(** [for x in l: body]. *)
Fixpoint for_each {A : Type} (l : list A) (body : A -> M unit) : M unit :=
  match l with
  | [] => ret tt
  | x :: l' => body x;; for_each l' body
  end.

(** A call that returns nothing, or raises. *)
Definition call (o : option PyExc) : M unit :=
  match o with
  | None => ret tt
  | Some e => raise e
  end.

(** [time.time()]. *)
Definition now : M spec_float :=
  fun env s =>
    let w := world s in
    (Ok (time_time env (clock_calls w)),
     mkSys (graphite s)
           (mkWorld (http_calls w) (S (clock_calls w)) (wire w))).

(** [requests.get(full_url, **args)]. *)
Definition http_get (full_url : string) (args : option (PyValue * PyValue))
    : M Response :=
  fun env s =>
    let w := world s in
    let s' := mkSys (graphite s)
                    (mkWorld (S (http_calls w)) (clock_calls w) (wire w)) in
    match requests_get env (http_calls w) full_url args with
    | TransportError e => (Raise e, s')
    | Answer r => (Ok r, s')
    end.

(** [socket.socket(AF_INET, SOCK_STREAM)], [s.connect((host, port))] and
    [s.close()]. *)
Definition new_socket : M unit := fun env => call (socket_socket env) env.

Definition connect (host : string) (p : Z) : M unit :=
  fun env => call (socket_connect env host p) env.

Definition close : M unit := fun env => call (socket_close env) env.

(** [s.sendall(payload)] on a socket connected to [host], [port]. *)
Definition sendall (host : string) (p : Z) (payload : string) : M unit :=
  fun env s =>
    match socket_sendall env host p payload with
    | Some e => (Raise e, s)
    | None =>
        let w := world s in
        (Ok tt,
         mkSys (graphite s)
               (mkWorld (http_calls w) (clock_calls w)
                        (wire w ++ [(host, p, payload)])))
    end.

(** The sink object of the run. *)
Definition self_graphite : M GraphiteServer := fun _ s => (Ok (graphite s), s).

#[global] Instance result_ret : MRet result := @Ok.
#[global] Instance result_bind : MBind result := fun A B f r =>
  match r with
  | Ok a => f a
  | Raise e => Raise e
  end.

(** [[j for j in l if cond(j)]], where the condition may raise. *)
Fixpoint py_filter (cond : PyValue -> result bool) (l : list PyValue)
    : result (list PyValue) :=
  match l with
  | [] => Ok []
  | j :: l' =>
      b ← cond j;
      r ← py_filter cond l';
      Ok (if b : bool then j :: r else r)
  end.

(** ** JenkinsServer *)

Definition JenkinsServer_init (base : string) (username password : PyValue)
    : JenkinsServer :=
  mkJenkinsServer base
    (if py_bool username then Some (username, password) else None).

(** [get_raw_data]: the answer of [base_url/url] as a value; an empty
    dictionary when the status is not 200. *)
Definition get_raw_data (self : JenkinsServer) (url : string) : M PyValue :=
  let full_url := base_url self +:+ "/" +:+ url in
  response ← http_get full_url (_request_args self);
  if negb (status_code response =? 200)
  then ret (PyDict [])
  else lift (literal_eval (text response)).

Definition get_data (self : JenkinsServer) (url : string) : M PyValue :=
  get_raw_data self (url +:+ "/api/python").

(** The timeline address for the last [window] seconds; both bounds are
    clock readings in milliseconds, rendered by [%d]. *)
Definition timeline_url (window : Z) : M string :=
  t1 ← now;
  t2 ← now;
  lo ← lift (format_d
               (float_mul (float_sub t1 (float_of_Z window)) (float_of_Z 1000)));
  hi ← lift (format_d (float_mul t2 (float_of_Z 1000)));
  ret ("view/All/timeline/data?min=" +:+ lo +:+ "&max=" +:+ hi).

Definition build_info_min (self : JenkinsServer) : M PyValue :=
  url ← timeline_url 60;
  get_raw_data self url.

Definition build_info_hour (self : JenkinsServer) : M PyValue :=
  url ← timeline_url 3600;
  get_raw_data self url.

(** ** GraphiteServer *)

Definition GraphiteServer_init (host : string) (p : PyValue) (pre : string)
    : result GraphiteServer :=
  n ← py_int p;
  Ok (mkGraphiteServer host n (rstrip_dot pre) ∅).

(** The sink with [value] stored under the qualified name of [key]:
    [self.data["%s.%s" % (self.prefix, key)] = value]. *)
Definition put (key : string) (value : PyValue) (g : GraphiteServer)
    : GraphiteServer :=
  mkGraphiteServer (server g) (port g) (prefix g)
    (<[prefix g +:+ "." +:+ key := value]> (data g)).

Definition add_data (key : string) (value : PyValue) : M unit :=
  fun _ s => (Ok tt, mkSys (put key value (graphite s)) (world s)).

Definition newline : string := String (Ascii.ascii_of_N 10) EmptyString.

(** One line of the payload: ["%s %s %s\n" % (key, val, now)]. *)
Definition line (key : string) (val : PyValue) (t : spec_float) : string :=
  key +:+ " " +:+ py_str val +:+ " " +:+ float_str t +:+ newline.

(** The entries of the batch, in the order [items()] yields them.  Python 2
    leaves that order unspecified; the order of [map_to_list] stands for
    it. *)
Definition items (g : GraphiteServer) : list (string * PyValue) :=
  map_to_list (data g).

Definition _data_as_msg : M string :=
  g ← self_graphite;
  t ← now;
  ret (foldl (fun msg kv => msg +:+ line (fst kv) (snd kv) t) EmptyString (items g)).

(** [send]: everything between [try] and [except] may raise; the handler
    answers [False], the normal end [True]. *)
Definition send : M bool :=
  try_except
    (formatted_data ← _data_as_msg;
     g ← self_graphite;
     new_socket;;
     connect (server g) (port g);;
     sendall (server g) (port g) formatted_data;;
     close;;
     ret true)
    (fun e => ret false).

(** ** The gathering pass *)

(** [graphite.add_data('queue.size', len(queue_info.get('items', [])))]. *)
Definition stats_queue (queue_info : PyValue) : M unit :=
  n ← lift (py_get queue_info "items" (PyList []) ≫= py_len);
  add_data "queue.size" (PyInt n).

(** The two counters of recently started builds. *)
Definition stats_builds (build_info_min build_info_hour : PyValue) : M unit :=
  n ← lift (py_get build_info_min "events" (PyList []) ≫= py_len);
  add_data "builds.started_builds_last_minute" (PyInt n);;
  n ← lift (py_get build_info_hour "events" (PyList []) ≫= py_len);
  add_data "builds.started_builds_last_hour" (PyInt n).

(** Total, busy and free executors of a record; [key] builds the metric
    name: ['executors.%s'] for the whole server, ['labels.<label>.executors.%s']
    for a label. *)
Definition stats_executors (key : string -> string) (info : PyValue) : M unit :=
  total ← lift (py_get info "totalExecutors" (PyInt 0));
  add_data (key "total") total;;
  busy ← lift (py_get info "busyExecutors" (PyInt 0));
  add_data (key "busy") busy;;
  free ← lift (total ← py_get info "totalExecutors" (PyInt 0);
               busy ← py_get info "busyExecutors" (PyInt 0);
               py_sub total busy);
  add_data (key "free") free.

(** [j.get('offline')], taken as a condition. *)
Definition is_offline (j : PyValue) : result bool :=
  v ← py_get j "offline" PyNone;
  Ok (py_bool v).

(** Total, offline and online nodes. *)
Definition stats_nodes (executor_info : PyValue) : M unit :=
  nodes_total ← lift (py_get executor_info "computer" (PyList []));
  nodes_offline ← lift (py_iter nodes_total ≫= py_filter is_offline);
  n ← lift (py_len nodes_total);
  add_data "nodes.total" (PyInt n);;
  add_data "nodes.offline" (PyInt (Z.of_nat (length nodes_offline)));;
  n ← lift (py_len nodes_total);
  add_data "nodes.online" (PyInt (n - Z.of_nat (length nodes_offline))).

(** The body of the loop over the labels. *)
Definition stats_label (jenkins : JenkinsServer) (label : PyValue) : M unit :=
  label_info ← get_data jenkins ("label/" +:+ py_str label);
  n ← lift (py_get label_info "tiedJobs" (PyList []) ≫= py_len);
  add_data ("labels." +:+ py_str label +:+ ".jobs.tiedJobs") (PyInt n);;
  n ← lift (py_get label_info "nodes" (PyList []) ≫= py_len);
  add_data ("labels." +:+ py_str label +:+ ".nodes.total") (PyInt n);;
  stats_executors
    (fun k => "labels." +:+ py_str label +:+ ".executors." +:+ k) label_info.

(** [j.get('color', 0) == colour]. *)
Definition has_color (colour : string) (j : PyValue) : result bool :=
  v ← py_get j "color" (PyInt 0);
  Ok (py_eq_str v colour).

(** The job counters of the view [view]. *)
Definition stats_view (jenkins : JenkinsServer) (view : PyValue) : M unit :=
  builds_info ← get_data jenkins ("/view/" +:+ py_str view);
  jobs ← lift (py_get builds_info "jobs" (PyList []));
  ok ← lift (py_iter jobs ≫= py_filter (has_color "blue"));
  fail ← lift (py_iter jobs ≫= py_filter (has_color "red"));
  warn ← lift (py_iter jobs ≫= py_filter (has_color "yellow"));
  n ← lift (py_len jobs);
  add_data "jobs.total" (PyInt n);;
  add_data "jobs.ok" (PyInt (Z.of_nat (length ok)));;
  add_data "jobs.fail" (PyInt (Z.of_nat (length fail)));;
  add_data "jobs.warn" (PyInt (Z.of_nat (length warn))).

(** [if opts['--labels']: for label in opts['--labels']: ...]. *)
Definition stats_labels (opts : list (string * PyValue))
    (jenkins : JenkinsServer) : M unit :=
  labels ← lift (py_getitem opts "--labels");
  if py_bool labels then
    labels ← lift (py_getitem opts "--labels" ≫= py_iter);
    for_each labels (stats_label jenkins)
  else mret tt.

(** [if opts['--jobs']: ...]. *)
Definition stats_jobs (opts : list (string * PyValue))
    (jenkins : JenkinsServer) : M unit :=
  jobs ← lift (py_getitem opts "--jobs");
  if py_bool jobs then
    view ← lift (py_getitem opts "--jobs");
    stats_view jenkins view
  else mret tt.

(** The pass: the four fetches, the counters in the order the script
    writes them, and one [send], whose answer is dropped. *)
Definition gather_and_send_stats (opts : list (string * PyValue))
    (jenkins : JenkinsServer) : M unit :=
  executor_info ← get_data jenkins "computer";
  queue_info ← get_data jenkins "queue";
  build_info_min ← build_info_min jenkins;
  build_info_hour ← build_info_hour jenkins;
  stats_queue queue_info;;
  stats_builds build_info_min build_info_hour;;
  stats_executors (fun k => "executors." +:+ k) executor_info;;
  stats_nodes executor_info;;
  stats_labels opts jenkins;;
  stats_jobs opts jenkins;;
  send;;
  mret tt.
(** * Vocabulary of the properties *)

(** The fully qualified name of a metric: ["%s.%s" % (prefix, key)]. *)
Definition metric (g : GraphiteServer) (key : string) : string :=
  prefix g +:+ "." +:+ key.

(** The sink after an operation, whatever its outcome. *)
Definition sink_after {A : Type} (m : M A) (env : Env) (s : Sys)
    : GraphiteServer :=
  graphite (m env s).2.

(** [m] keeps the property [P] of the sink, whether it returns or raises. *)
Definition keeps {A : Type} (P : GraphiteServer -> Prop) (m : M A) : Prop :=
  forall env s, P (graphite s) -> P (sink_after m env s).

(** The sink has the prefix [p], and every name of its batch starts with
    [p] and a dot. *)
Definition named_under (p : string) (g : GraphiteServer) : Prop :=
  prefix g = p /\
  forall name, is_Some (data g !! name) -> String.prefix (p +:+ ".") name = true.

(** The uses a caller can make of the sink. *)
Inductive SinkOp : Type :=
  | Append (key : string) (value : PyValue)
  | Send.

Definition run_op (op : SinkOp) : M unit :=
  match op with
  | Append key value => add_data key value
  | Send => send;; mret tt
  end.

(** The lines of a payload, one after the other. *)
Definition concat_lines (ls : list string) : string :=
  foldr String.append EmptyString ls.

(** ** Sample worlds *)

(** A clock that starts at the instant 1700000000 and advances by one
    second at every reading. *)
Definition sample_clock (n : nat) : spec_float :=
  float_of_Z (1700000000 + Z.of_nat n).

(** An environment with the given Jenkins answers and the given outcome of
    [connect]; the other socket calls return normally. *)
Definition sample_env
    (answers : nat -> string -> option (PyValue * PyValue) -> HttpOutcome)
    (connect_outcome : option PyExc) : Env :=
  mkEnv answers sample_clock None (fun _ _ => connect_outcome)
        (fun _ _ _ => None) None.

Definition no_jenkins : nat -> string -> option (PyValue * PyValue)
    -> HttpOutcome :=
  fun _ _ _ => TransportError ConnectionError.

Definition fresh_world : World := mkWorld 0 0 [].

(** A fresh sink with the default prefix. *)
Definition sample_sink : GraphiteServer :=
  mkGraphiteServer "graphite.example.com" 2003 "jenkins" ∅.

Definition sample_sys : Sys := mkSys sample_sink fresh_world.

Definition sample_jenkins : JenkinsServer :=
  JenkinsServer_init "http://jenkins.example.com" PyNone PyNone.

(** The state after one more reading of the clock. *)
Definition tick (s : Sys) : Sys :=
  mkSys (graphite s)
        (mkWorld (http_calls (world s)) (S (clock_calls (world s)))
                 (wire (world s))).

(** An environment whose clock reads [t] first. *)
Definition env_at (t : spec_float) : Env :=
  mkEnv no_jenkins (fun _ => t) None (fun _ _ => None) (fun _ _ _ => None) None.

(** A Jenkins server that answers every request with status 200 and a body
    that is not a Python literal. *)
Definition garbled_jenkins : nat -> string -> option (PyValue * PyValue)
    -> HttpOutcome :=
  fun _ _ _ => Answer (mkResponse 200 (NotLiteral SyntaxError)).

(** A Jenkins server that answers every request with the given status and
    body. *)
Definition constant_jenkins (status : Z) (body : PyValue)
    : nat -> string -> option (PyValue * PyValue) -> HttpOutcome :=
  fun _ _ _ => Answer (mkResponse status (Literal body)).

(** The value the batch of [g] holds for the metric [key], if any. *)
Definition emitted (g : GraphiteServer) (key : string) : option PyValue :=
  data g !! metric g key.

(** The sink has the prefix [p] and its batch holds [v] for the metric
    [k]. *)
Definition has_entry (p k : string) (v : PyValue) (g : GraphiteServer) : Prop :=
  prefix g = p /\ data g !! (p +:+ "." +:+ k) = Some v.

(** The entry of a key in a dictionary, if it has one. *)
Fixpoint dict_find (d : list (string * PyValue)) (key : string)
    : option PyValue :=
  match d with
  | [] => None
  | (k, v) :: d' => if String.eqb k key then Some v else dict_find d' key
  end.

(** A computer entry that [j.get('offline')] takes as offline. *)
Definition node_offline (j : PyValue) : bool :=
  match j with
  | PyDict d => py_bool (dict_get d "offline" PyNone)
  | _ => false
  end.

(** A computer entry whose [offline] field is present and true. *)
Definition offline_flag_set (j : PyValue) : bool :=
  match j with
  | PyDict d =>
      match dict_find d "offline" with
      | Some v => py_bool v
      | None => false
      end
  | _ => false
  end.

(** The colour of a job: its [color] field, 0 when it has none. *)
Definition job_color (j : PyValue) : PyValue :=
  match j with
  | PyDict d => dict_get d "color" (PyInt 0)
  | _ => PyInt 0
  end.

Definition color_is (colour : string) (j : PyValue) : bool :=
  py_eq_str (job_color j) colour.

(** The number of elements of [l] that satisfy [f], as an integer. *)
Definition count (f : PyValue -> bool) (l : list PyValue) : Z :=
  Z.of_nat (length (List.filter f l)).

(** The records of the end-to-end scenario. *)
Definition scenario_executors : list (string * PyValue) :=
  [("totalExecutors", PyInt 5); ("busyExecutors", PyInt 2);
   ("computer", PyList [PyDict [("offline", PyBool false)];
                        PyDict [("offline", PyBool true)]])].

Definition scenario_queue (a b : PyValue) : PyValue :=
  PyDict [("items", PyList [a; b])].

Definition scenario_events : PyValue := PyDict [("events", PyList [])].

(** A Jenkins server that answers the scenario's records: the executor
    record at [computer], the queue record at [queue], and the empty event
    record everywhere else. *)
Definition scenario_jenkins (executors : list (string * PyValue))
    : nat -> string -> option (PyValue * PyValue) -> HttpOutcome :=
  fun _ url _ =>
    Answer (mkResponse 200 (Literal
      (if String.eqb url "http://jenkins.example.com/computer/api/python"
       then PyDict executors
       else if String.eqb url "http://jenkins.example.com/queue/api/python"
       then scenario_queue (PyStr "a") (PyStr "b")
       else scenario_events))).

(** Options with no label and no job view. *)
Definition no_options : list (string * PyValue) :=
  [("--labels", PyList []); ("--jobs", PyNone)].

(** A job whose colour is one of the three recognised ones. *)
Definition recognised (j : PyValue) : Prop :=
  job_color j = PyStr "blue" \/ job_color j = PyStr "red"
  \/ job_color j = PyStr "yellow".

(** A view with one job of each recognised colour, a disabled job and a
    job without colour. *)
Definition sample_view : list (string * PyValue) :=
  [("jobs", PyList [PyDict [("color", PyStr "blue")];
                    PyDict [("color", PyStr "red")];
                    PyDict [("color", PyStr "yellow")];
                    PyDict [("color", PyStr "disabled")];
                    PyDict [("name", PyStr "fresh")]])].

Definition jobs_options : list (string * PyValue) :=
  [("--labels", PyNone); ("--jobs", PyStr "All")].

(** The nine counters of the end-to-end scenario. *)
Definition scenario_counters : list (string * Z) :=
  [("queue.size", 2);
   ("builds.started_builds_last_minute", 0);
   ("builds.started_builds_last_hour", 0);
   ("executors.total", 5);
   ("executors.busy", 2);
   ("executors.free", 3);
   ("nodes.total", 2);
   ("nodes.offline", 1);
   ("nodes.online", 1)].

(** A counter as an entry of the batch of a sink. *)
Definition entry_of (g : GraphiteServer) (kv : string * Z) : string * PyValue :=
  (metric g kv.1, PyInt kv.2).

(** ** Vocabulary of the further properties *)

(** [m] keeps the property [Q] of the whole state, whether it returns or
    raises. *)
Definition preserves {A : Type} (Q : Sys -> Prop) (m : M A) : Prop :=
  forall env s, Q s -> Q (m env s).2.

(** The state after one more request. *)
Definition asked (s : Sys) : Sys :=
  mkSys (graphite s)
        (mkWorld (S (http_calls (world s))) (clock_calls (world s))
                 (wire (world s))).

(** The state with [value] written for [key]. *)
Definition wrote (key : string) (value : PyValue) (s : Sys) : Sys :=
  mkSys (put key value (graphite s)) (world s).

(** The state after the packet [pkt] went out. *)
Definition delivered (pkt : string * Z * string) (s : Sys) : Sys :=
  mkSys (graphite s)
        (mkWorld (http_calls (world s)) (clock_calls (world s))
                 (wire (world s) ++ [pkt])).

(** The payload of the batch of [g] stamped with the reading [t]. *)
Definition payload (g : GraphiteServer) (t : spec_float) : string :=
  concat_lines (map (fun kv => line kv.1 kv.2 t) (items g)).

(** A run of [n] dots. *)
Fixpoint dots (n : nat) : string :=
  match n with
  | O => EmptyString
  | S n' => String "." (dots n')
  end.

(** The text ends with a dot. *)
Fixpoint ends_with_dot (s : string) : bool :=
  match s with
  | EmptyString => false
  | String c EmptyString => Ascii.eqb c "."
  | String _ s' => ends_with_dot s'
  end.

(** An outcome that satisfies [Q] when it is an exception and [R] when it
    is a normal return. *)
Definition raised_or {A : Type} (Q R : Sys -> Prop) (p : result A * Sys)
    : Prop :=
  match p.1 with
  | Raise _ => Q p.2
  | Ok _ => R p.2
  end.

(** The socket calls that come before the end of the write all return
    normally. *)
Definition write_succeeds (env : Env) (g : GraphiteServer) (msg : string)
    : Prop :=
  socket_socket env = None
  /\ socket_connect env (server g) (port g) = None
  /\ socket_sendall env (server g) (port g) msg = None.

(** The labels the pass goes through: the elements of [opts['--labels']]
    when it is present and true, none otherwise. *)
Definition configured_labels (opts : list (string * PyValue)) : list PyValue :=
  match py_getitem opts "--labels" with
  | Ok labels =>
      if py_bool labels then
        match py_iter labels with
        | Ok ls => ls
        | Raise _ => []
        end
      else []
  | Raise _ => []
  end.

(** A job view is configured: [opts['--jobs']] is present and true. *)
Definition jobs_configured (opts : list (string * PyValue)) : bool :=
  match py_getitem opts "--jobs" with
  | Ok jobs => py_bool jobs
  | Raise _ => false
  end.

(** The nine server-wide counters derived from the item, event and
    computer sequences and the two executor counters. *)
Definition derived_counters (items evm evh : list PyValue) (t b : Z)
    (ns : list PyValue) : list (string * Z) :=
  [("queue.size", Z.of_nat (length items));
   ("builds.started_builds_last_minute", Z.of_nat (length evm));
   ("builds.started_builds_last_hour", Z.of_nat (length evh));
   ("executors.total", t);
   ("executors.busy", b);
   ("executors.free", t - b);
   ("nodes.total", Z.of_nat (length ns));
   ("nodes.offline", count node_offline ns);
   ("nodes.online", Z.of_nat (length ns) - count node_offline ns)].

(** The sink of [g] after the counters [l] were written, the first of the
    list first. *)
Definition written (l : list (string * Z)) (g : GraphiteServer)
    : GraphiteServer :=
  foldl (fun g' kv => put kv.1 (PyInt kv.2) g') g l.

(** The names of the nine server-wide counters. *)
Definition server_counter_keys : list string :=
  ["queue.size";
   "builds.started_builds_last_minute";
   "builds.started_builds_last_hour";
   "executors.total"; "executors.busy"; "executors.free";
   "nodes.total"; "nodes.offline"; "nodes.online"].

(** The key of a counter of a label: ['labels.%s<suffix>' % label]. *)
Definition label_key (label : PyValue) (suffix : string) : string :=
  "labels." +:+ py_str label +:+ suffix.

(** The five counters of a label, by the suffix of their key. *)
Definition label_counters (nt nn t b : Z) : list (string * Z) :=
  [(".jobs.tiedJobs", nt);
   (".nodes.total", nn);
   (".executors.total", t);
   (".executors.busy", b);
   (".executors.free", t - b)].

(** The batch of [g] holds the five counters of [label]. *)
Definition holds_label (label : PyValue) (nt nn t b : Z) (g : GraphiteServer)
    : Prop :=
  Forall (fun sv => emitted g (label_key label sv.1) = Some (PyInt sv.2))
         (label_counters nt nn t b).

(** The address that [get_data] asks for the record of a label. *)
Definition label_url (jenkins : JenkinsServer) (label : PyValue) : string :=
  base_url jenkins +:+ "/" +:+ ("label/" +:+ py_str label) +:+ "/api/python".

(** The characters of a text. *)
Fixpoint letters (s : string) : list ascii :=
  match s with
  | EmptyString => []
  | String c s' => c :: letters s'
  end.

(** The suffixes of the five keys of a label. *)
Definition label_suffixes : list string :=
  [".jobs.tiedJobs"; ".nodes.total"; ".executors.total"; ".executors.busy";
   ".executors.free"].

(** * Properties *)

(** ** Strings and metric names *)

#[local] Arguments String.append !s1 s2 : simpl nomatch.

Lemma prefix_append (p s : string) : String.prefix p (p +:+ s) = true.
Proof.
  induction p as [|c p IH]; simpl.
  - by destruct s.
  - destruct (ascii_dec c c); [exact IH | congruence].
Qed.

Lemma append_inj (p a b : string) : p +:+ a = p +:+ b -> a = b.
Proof.
  induction p as [|c p IH]; simpl; intros H; [done|].
  injection H as H. by apply IH.
Qed.

Lemma append_assoc (a b c : string) : (a +:+ b) +:+ c = a +:+ (b +:+ c).
Proof. induction a as [|x a IH]; simpl; [done | by rewrite IH]. Qed.


Lemma metric_inj (g : GraphiteServer) (k1 k2 : string) :
  metric g k1 = metric g k2 -> k1 = k2.
Proof.
  unfold metric. intros H. apply append_inj in H. simpl in H. by injection H.
Qed.

Lemma metric_prefixed (g : GraphiteServer) (key : string) :
  String.prefix (prefix g +:+ ".") (metric g key) = true.
Proof.
  unfold metric. rewrite <- append_assoc. apply prefix_append.
Qed.

(** ** Running the script's operations *)


Lemma bind_Ok {A B : Type} (m : M A) (f : A -> M B) env s a s' :
  m env s = (Ok a, s') -> (m ≫= f) env s = f a env s'.
Proof. intros H. unfold mbind, M_bind, bind. by rewrite H. Qed.

Lemma bind_Raise {A B : Type} (m : M A) (f : A -> M B) env s e s' :
  m env s = (Raise e, s') -> (m ≫= f) env s = (Raise e, s').
Proof. intros H. unfold mbind, M_bind, bind. by rewrite H. Qed.

Lemma add_data_run (key : string) (value : PyValue) env s :
  add_data key value env s =
    (Ok tt, mkSys (put key value (graphite s)) (world s)).
Proof. reflexivity. Qed.

(** ** The batch has one entry per name *)

Lemma filter_key_absent (l : list (string * PyValue)) (k : string) :
  k ∉ l.*1 -> filter (fun kv => kv.1 = k) l = [].
Proof.
  induction l as [|[k' v'] l IH]; intros H; [done|].
  rewrite fmap_cons in H. apply not_elem_of_cons in H as [H1 H2].
  rewrite filter_cons_False; [by apply IH | simpl in *; intros ->; by apply H1].
Qed.

Lemma filter_key_unique (l : list (string * PyValue)) (k : string)
    (v : PyValue) :
  NoDup l.*1 -> (k, v) ∈ l ->
  filter (fun kv => kv.1 = k) l = [(k, v)].
Proof.
  induction l as [|[k' v'] l IH]; intros Hnd Hin.
  - by apply elem_of_nil in Hin.
  - apply NoDup_cons in Hnd as [Hk' Hnd]. simpl in Hk'.
    apply elem_of_cons in Hin as [Heq | Hin].
    + injection Heq as <- <-. rewrite filter_cons_True by done.
      f_equal. by apply filter_key_absent.
    + assert (k' <> k).
      { intros ->. apply Hk'. apply list_elem_of_fmap. by exists (k, v). }
      rewrite filter_cons_False by done. by apply IH.
Qed.

Lemma items_entry (g : GraphiteServer) (k : string) (v : PyValue) :
  data g !! k = Some v -> filter (fun kv => kv.1 = k) (items g) = [(k, v)].
Proof.
  intros H. apply filter_key_unique.
  - apply NoDup_fst_map_to_list.
  - by apply elem_of_map_to_list.
Qed.

(** C7. [add_data] overwrites: after [add_data("x.y", 1)] and then
    [add_data("x.y", 2)] on any sink, both calls return normally, the batch
    maps the qualified name [prefix.x.y] to 2, the entries of the batch
    hold that name exactly once (with the value 2), no name occurs twice
    among the entries, and every other name keeps what it had. *)
Theorem add_data_last_write_wins (env : Env) (s : Sys) :
  let name := prefix (graphite s) +:+ ".x.y" in
  let s1 := (add_data "x.y" (PyInt 1) env s).2 in
  let s2 := (add_data "x.y" (PyInt 2) env s1).2 in
  (add_data "x.y" (PyInt 1) env s).1 = Ok tt
  /\ (add_data "x.y" (PyInt 2) env s1).1 = Ok tt
  /\ data (graphite s2) !! name = Some (PyInt 2)
  /\ filter (fun kv => kv.1 = name) (items (graphite s2)) = [(name, PyInt 2)]
  /\ NoDup (items (graphite s2)).*1
  /\ data (graphite s2) = <[name := PyInt 2]> (data (graphite s)).
Proof.
  intros name s1 s2. subst s1 s2. rewrite !add_data_run. simpl.
  change (metric (graphite s) "x.y") with name.
  assert (Hl : <[name:=PyInt 2]> (<[name:=PyInt 1]> (data (graphite s)))
                 !! name = Some (PyInt 2)) by apply lookup_insert_eq.
  repeat split; try done.
  - by apply items_entry.
  - apply NoDup_fst_map_to_list.
  - apply insert_insert_eq.
Qed.

(** ** What an operation does to the sink *)


Section Keeps.
Context (P : GraphiteServer -> Prop).

Lemma keeps_ret {A : Type} (a : A) : keeps P (mret a).
Proof. by intros env s H. Qed.

Lemma keeps_raise {A : Type} (e : PyExc) : keeps P (@raise A e).
Proof. by intros env s H. Qed.

Lemma keeps_lift {A : Type} (r : result A) : keeps P (lift r).
Proof. by intros env s H. Qed.

Lemma keeps_bind {A B : Type} (m : M A) (f : A -> M B) :
  keeps P m -> (forall a, keeps P (f a)) -> keeps P (m ≫= f).
Proof.
  intros Hm Hf env s H. specialize (Hm env s H).
  unfold sink_after, mbind, M_bind, bind in *.
  destruct (m env s) as [[a|e] s']; simpl in *; [by apply Hf | done].
Qed.

Lemma keeps_try_except {A : Type} (m : M A) (h : PyExc -> M A) :
  keeps P m -> (forall e, keeps P (h e)) -> keeps P (try_except m h).
Proof.
  intros Hm Hh env s H. specialize (Hm env s H).
  unfold sink_after, try_except in *.
  destruct (m env s) as [[a|e] s']; simpl in *; [done | by apply Hh].
Qed.

Lemma keeps_if {A : Type} (b : bool) (m1 m2 : M A) :
  keeps P m1 -> keeps P m2 -> keeps P (if b then m1 else m2).
Proof. by destruct b. Qed.

Lemma keeps_for_each {A : Type} (l : list A) (body : A -> M unit) :
  (forall x, keeps P (body x)) -> keeps P (for_each l body).
Proof.
  intros Hb. induction l as [|x l IH]; simpl.
  - apply (keeps_ret tt).
  - apply keeps_bind; [apply Hb | by intros _].
Qed.

Lemma keeps_call (o : option PyExc) : keeps P (call o).
Proof. destruct o; [apply keeps_raise | apply (keeps_ret tt)]. Qed.

Lemma keeps_now : keeps P now.
Proof. by intros env s H. Qed.

Lemma keeps_self_graphite : keeps P self_graphite.
Proof. by intros env s H. Qed.

Lemma keeps_http_get url args : keeps P (http_get url args).
Proof.
  intros env s H. unfold sink_after, http_get.
  by destruct (requests_get env _ url args).
Qed.

Lemma keeps_new_socket : keeps P new_socket.
Proof. intros env s H. unfold sink_after, new_socket. by destruct (socket_socket env). Qed.

Lemma keeps_connect host p : keeps P (connect host p).
Proof. intros env s H. unfold sink_after, connect. by destruct (socket_connect env host p). Qed.

Lemma keeps_close : keeps P close.
Proof. intros env s H. unfold sink_after, close. by destruct (socket_close env). Qed.

Lemma keeps_sendall host p payload : keeps P (sendall host p payload).
Proof.
  intros env s H. unfold sink_after, sendall.
  by destruct (socket_sendall env host p payload).
Qed.

Lemma keeps_data_as_msg : keeps P _data_as_msg.
Proof.
  apply keeps_bind; [apply keeps_self_graphite | intros g].
  apply keeps_bind; [apply keeps_now | intros t]. apply keeps_ret.
Qed.

Lemma keeps_send : keeps P send.
Proof.
  apply keeps_try_except; [| intros e; apply (keeps_ret false)].
  apply keeps_bind; [apply keeps_data_as_msg | intros msg].
  apply keeps_bind; [apply keeps_self_graphite | intros g].
  apply keeps_bind; [apply keeps_new_socket | intros _].
  apply keeps_bind; [apply keeps_connect | intros _].
  apply keeps_bind; [apply keeps_sendall | intros _].
  apply keeps_bind; [apply keeps_close | intros _].
  apply (keeps_ret true).
Qed.

Lemma keeps_get_raw_data self url : keeps P (get_raw_data self url).
Proof.
  apply keeps_bind; [apply keeps_http_get | intros r].
  apply keeps_if; [apply (keeps_ret (PyDict [])) | apply keeps_lift].
Qed.

Lemma keeps_get_data self url : keeps P (get_data self url).
Proof. apply keeps_get_raw_data. Qed.

Lemma keeps_timeline_url window : keeps P (timeline_url window).
Proof.
  apply keeps_bind; [apply keeps_now | intros t1].
  apply keeps_bind; [apply keeps_now | intros t2].
  apply keeps_bind; [apply keeps_lift | intros lo].
  apply keeps_bind; [apply keeps_lift | intros hi]. apply keeps_ret.
Qed.

Lemma keeps_build_info_min self : keeps P (build_info_min self).
Proof.
  apply keeps_bind; [apply keeps_timeline_url | intros url].
  apply keeps_get_raw_data.
Qed.

Lemma keeps_build_info_hour self : keeps P (build_info_hour self).
Proof.
  apply keeps_bind; [apply keeps_timeline_url | intros url].
  apply keeps_get_raw_data.
Qed.
End Keeps.

(** The sink is the same object after [send] and after every fetch. *)
Lemma send_sink env s : sink_after send env s = graphite s.
Proof. by apply (keeps_send (fun g => g = graphite s)). Qed.

Lemma get_raw_data_sink self url env s :
  sink_after (get_raw_data self url) env s = graphite s.
Proof. by apply (keeps_get_raw_data (fun g => g = graphite s)). Qed.

Lemma build_info_min_sink self env s :
  sink_after (build_info_min self) env s = graphite s.
Proof. by apply (keeps_build_info_min (fun g => g = graphite s)). Qed.

Lemma build_info_hour_sink self env s :
  sink_after (build_info_hour self) env s = graphite s.
Proof. by apply (keeps_build_info_hour (fun g => g = graphite s)). Qed.

(** ** Every name of the batch carries the prefix *)


Section KeepsStats.
(** A property [P] of the sink that [add_data] keeps for the keys in [K]
    is kept by every step of the pass that writes such keys only. *)
Context (P : GraphiteServer -> Prop) (K : string -> Prop).
Context (HP : forall key value, K key -> keeps P (add_data key value)).

Lemma keeps_stats_queue info : K "queue.size" -> keeps P (stats_queue info).
Proof.
  intros HK. apply keeps_bind; [apply keeps_lift | intros n]. by apply HP.
Qed.

Lemma keeps_stats_builds i1 i2 :
  K "builds.started_builds_last_minute" ->
  K "builds.started_builds_last_hour" ->
  keeps P (stats_builds i1 i2).
Proof.
  intros HK1 HK2.
  apply keeps_bind; [apply keeps_lift | intros n].
  apply keeps_bind; [by apply HP | intros _].
  apply keeps_bind; [apply keeps_lift | intros n'].
  by apply HP.
Qed.

Lemma keeps_stats_executors key info :
  (forall k, K (key k)) -> keeps P (stats_executors key info).
Proof.
  intros HK.
  apply keeps_bind; [apply keeps_lift | intros total].
  apply keeps_bind; [by apply HP | intros _].
  apply keeps_bind; [apply keeps_lift | intros busy].
  apply keeps_bind; [by apply HP | intros _].
  apply keeps_bind; [apply keeps_lift | intros free].
  by apply HP.
Qed.

Lemma keeps_stats_nodes info :
  K "nodes.total" -> K "nodes.offline" -> K "nodes.online" ->
  keeps P (stats_nodes info).
Proof.
  intros HK1 HK2 HK3.
  apply keeps_bind; [apply keeps_lift | intros nodes_total].
  apply keeps_bind; [apply keeps_lift | intros nodes_offline].
  apply keeps_bind; [apply keeps_lift | intros n].
  apply keeps_bind; [by apply HP | intros _].
  apply keeps_bind; [by apply HP | intros _].
  apply keeps_bind; [apply keeps_lift | intros n'].
  by apply HP.
Qed.

Lemma keeps_stats_label jenkins label :
  (forall k, K ("labels." +:+ k)) -> keeps P (stats_label jenkins label).
Proof.
  intros HK.
  apply keeps_bind; [apply keeps_get_data | intros info].
  apply keeps_bind; [apply keeps_lift | intros n].
  apply keeps_bind; [by apply HP | intros _].
  apply keeps_bind; [apply keeps_lift | intros n'].
  apply keeps_bind; [by apply HP | intros _].
  apply keeps_stats_executors. intros k. apply HK.
Qed.

Lemma keeps_stats_labels opts jenkins :
  (forall k, K ("labels." +:+ k)) -> keeps P (stats_labels opts jenkins).
Proof.
  intros HK.
  apply keeps_bind; [apply keeps_lift | intros labels].
  apply keeps_if; [| apply (keeps_ret _ tt)].
  apply keeps_bind; [apply keeps_lift | intros ls].
  apply keeps_for_each. intros l. by apply keeps_stats_label.
Qed.

Lemma keeps_stats_view jenkins view :
  (forall k, K ("jobs." +:+ k)) -> keeps P (stats_view jenkins view).
Proof.
  intros HK.
  apply keeps_bind; [apply keeps_get_data | intros info].
  apply keeps_bind; [apply keeps_lift | intros jobs].
  apply keeps_bind; [apply keeps_lift | intros ok].
  apply keeps_bind; [apply keeps_lift | intros fail].
  apply keeps_bind; [apply keeps_lift | intros warn].
  apply keeps_bind; [apply keeps_lift | intros n].
  apply keeps_bind; [apply HP, (HK "total") | intros _].
  apply keeps_bind; [apply HP, (HK "ok") | intros _].
  apply keeps_bind; [apply HP, (HK "fail") | intros _].
  apply HP, (HK "warn").
Qed.

Lemma keeps_stats_jobs opts jenkins :
  (forall k, K ("jobs." +:+ k)) -> keeps P (stats_jobs opts jenkins).
Proof.
  intros HK.
  apply keeps_bind; [apply keeps_lift | intros jobs].
  apply keeps_if; [| apply (keeps_ret _ tt)].
  apply keeps_bind; [apply keeps_lift | intros view].
  by apply keeps_stats_view.
Qed.

(** What follows the node counters in the pass. *)
Lemma keeps_labels_jobs_send opts jenkins :
  (forall k, K ("labels." +:+ k)) -> (forall k, K ("jobs." +:+ k)) ->
  keeps P (stats_labels opts jenkins;; stats_jobs opts jenkins;; send;; mret tt).
Proof.
  intros HK1 HK2.
  apply keeps_bind; [by apply keeps_stats_labels | intros _].
  apply keeps_bind; [by apply keeps_stats_jobs | intros _].
  apply keeps_bind; [apply keeps_send | intros _].
  apply (keeps_ret _ tt).
Qed.

Lemma keeps_gather_and_send_stats opts jenkins :
  (forall k, K k) -> keeps P (gather_and_send_stats opts jenkins).
Proof.
  intros HK.
  apply keeps_bind; [apply keeps_get_data | intros executor_info].
  apply keeps_bind; [apply keeps_get_data | intros queue_info].
  apply keeps_bind; [apply keeps_build_info_min | intros bmin].
  apply keeps_bind; [apply keeps_build_info_hour | intros bhour].
  apply keeps_bind; [by apply keeps_stats_queue | intros _].
  apply keeps_bind; [by apply keeps_stats_builds | intros _].
  apply keeps_bind; [by apply keeps_stats_executors | intros _].
  apply keeps_bind; [by apply keeps_stats_nodes | intros _].
  by apply keeps_labels_jobs_send.
Qed.
End KeepsStats.

Lemma keeps_named_under_add_data p key value :
  keeps (named_under p) (add_data key value).
Proof.
  intros env s [Hp Hn]. unfold sink_after. rewrite add_data_run. simpl.
  split; [done|]. intros name [v Hv]. simpl in Hv.
  destruct (decide (name = metric (graphite s) key)) as [-> | Hne].
  - rewrite <- Hp. apply metric_prefixed.
  - rewrite lookup_insert_ne in Hv by done. apply Hn. by exists v.
Qed.


Lemma keeps_run_op p op : keeps (named_under p) (run_op op).
Proof.
  destruct op as [key value|]; simpl.
  - apply keeps_named_under_add_data.
  - apply keeps_bind; [apply keeps_send | intros _]. apply (keeps_ret _ tt).
Qed.

Lemma init_named_under host p pre g :
  GraphiteServer_init host p pre = Ok g -> named_under (rstrip_dot pre) g.
Proof.
  unfold GraphiteServer_init. destruct (py_int p) as [n|e]; simpl; [|done].
  intros [= <-]. split; [done|]. simpl. intros name [v Hv].
  by rewrite lookup_empty in Hv.
Qed.

(** C9 (amended). A sink built by the constructor from the configured
    prefix [pre] holds [pre] without its trailing dots, and at the end of a
    gathering pass (completed or interrupted by an exception), as after any
    sequence of [add_data] and [send] calls, every name of its batch starts
    with that stripped prefix followed by a dot. *)
Theorem batch_names_carry_stripped_prefix
    (host : string) (p : PyValue) (pre : string) (g : GraphiteServer) :
  GraphiteServer_init host p pre = Ok g ->
  prefix g = rstrip_dot pre
  /\ (forall opts jenkins env w name,
        is_Some (data (sink_after (gather_and_send_stats opts jenkins) env
                         (mkSys g w)) !! name) ->
        String.prefix (rstrip_dot pre +:+ ".") name = true)
  /\ (forall ops env w name,
        is_Some (data (sink_after (for_each ops run_op) env (mkSys g w))
                   !! name) ->
        String.prefix (rstrip_dot pre +:+ ".") name = true).
Proof.
  intros Hinit. pose proof (init_named_under _ _ _ _ Hinit) as Hg.
  split; [apply Hg|]. split.
  - intros opts jenkins env w name.
    apply (keeps_gather_and_send_stats (named_under (rstrip_dot pre))
             (fun _ => True)
             (fun key value _ => keeps_named_under_add_data _ key value)
             opts jenkins (fun _ => I) env (mkSys g w)).
    exact Hg.
  - intros ops env w name.
    apply (keeps_for_each _ ops run_op (keeps_run_op _) env (mkSys g w)).
    exact Hg.
Qed.

Lemma batch_names_carry_stripped_prefix_witness :
  GraphiteServer_init "graphite.example.com" (PyStr "2003") "jenkins."
    = Ok sample_sink
  /\ prefix sample_sink = rstrip_dot "jenkins.".
Proof.
  split; [reflexivity|].
  apply (batch_names_carry_stripped_prefix
           "graphite.example.com" (PyStr "2003") "jenkins." sample_sink).
  reflexivity.
Defined.

(** C9 as stated fails for a configured prefix that ends with a dot: the
    constructor strips the dot, so with the prefix [jenkins.] the name
    written by [add_data("queue.size", 3)] is [jenkins.queue.size], which
    does not start with [jenkins.] followed by a dot. *)
Lemma configured_prefix_with_dot_counterexample :
  ~ (forall host p pre g key value env w name,
       GraphiteServer_init host p pre = Ok g ->
       is_Some (data (sink_after (add_data key value) env (mkSys g w)) !! name) ->
       String.prefix (pre +:+ ".") name = true).
Proof.
  intros H.
  specialize (H "graphite.example.com" (PyStr "2003") "jenkins." sample_sink
                "queue.size" (PyInt 3) (sample_env no_jenkins None)
                fresh_world "jenkins.queue.size" eq_refl).
  assert (Hin : is_Some
            (data (sink_after (add_data "queue.size" (PyInt 3))
                     (sample_env no_jenkins None) (mkSys sample_sink fresh_world))
               !! "jenkins.queue.size")).
  { exists (PyInt 3). unfold sink_after. rewrite add_data_run. simpl.
    apply lookup_insert_eq. }
  specialize (H Hin). vm_compute in H. discriminate H.
Qed.

(** ** The payload *)

Lemma append_empty_r (s : string) : s +:+ EmptyString = s.
Proof. induction s as [|c s IH]; simpl; [done | by rewrite IH]. Qed.

Lemma foldl_lines {A : Type} (f : A -> string) (l : list A) (acc : string) :
  foldl (fun msg x => msg +:+ f x) acc l = acc +:+ concat_lines (map f l).
Proof.
  revert acc. induction l as [|x l IH]; intros acc; simpl.
  - by rewrite append_empty_r.
  - rewrite IH. apply append_assoc.
Qed.

Lemma data_as_msg_run env s :
  _data_as_msg env s =
    (Ok (foldl (fun msg kv =>
                  msg +:+ line kv.1 kv.2 (time_time env (clock_calls (world s))))
               EmptyString (items (graphite s))),
     tick s).
Proof. reflexivity. Qed.

(** C3 (amended). [_data_as_msg] reads the clock once, and its payload is
    made of one line [<name> <str(value)> <str(now)>\n] per entry of the
    batch, all with that one reading, a float; so for the prefix [jenkins],
    the single entry [queue.size = 3] and the clock at the instant
    1700000000, the payload is [jenkins.queue.size 3 1700000000.0\n]. *)
Theorem data_as_msg_one_float_timestamp (env : Env) (s : Sys) :
  let t := time_time env (clock_calls (world s)) in
  _data_as_msg env s =
    (Ok (concat_lines
           (map (fun kv => kv.1 +:+ " " +:+ py_str kv.2 +:+ " "
                             +:+ float_str t +:+ newline)
                (items (graphite s)))),
     tick s)
  /\ (prefix (graphite s) = "jenkins" ->
      data (graphite s) = ∅ ->
      t = float_of_Z 1700000000 ->
      (_data_as_msg env (add_data "queue.size" (PyInt 3) env s).2).1
        = Ok ("jenkins.queue.size 3 1700000000.0" +:+ newline)).
Proof.
  intros t. split.
  - rewrite data_as_msg_run. f_equal. f_equal.
    rewrite (foldl_lines (fun kv => line kv.1 kv.2 t)). reflexivity.
  - intros Hp Hd Ht. rewrite data_as_msg_run, add_data_run. simpl.
    unfold items, metric. simpl. rewrite Hp, Hd. fold t. rewrite Ht.
    rewrite insert_empty, map_to_list_singleton. reflexivity.
Qed.

Lemma data_as_msg_one_float_timestamp_witness :
  prefix (graphite sample_sys) = "jenkins"
  /\ data (graphite sample_sys) = ∅
  /\ time_time (env_at (float_of_Z 1700000000)) (clock_calls (world sample_sys))
       = float_of_Z 1700000000
  /\ (_data_as_msg (env_at (float_of_Z 1700000000))
        (add_data "queue.size" (PyInt 3) (env_at (float_of_Z 1700000000))
           sample_sys).2).1
       = Ok ("jenkins.queue.size 3 1700000000.0" +:+ newline).
Proof.
  split; [reflexivity|]. split; [reflexivity|]. split; [reflexivity|].
  apply (data_as_msg_one_float_timestamp
           (env_at (float_of_Z 1700000000)) sample_sys); reflexivity.
Defined.

(** C3 as stated fails: the timestamp is the float that [time.time()]
    returns, and [%s] renders the instant 1700000000 as [1700000000.0]. *)
Lemma integer_timestamp_counterexample :
  ~ (forall env s,
       prefix (graphite s) = "jenkins" ->
       data (graphite s) = {[ "jenkins.queue.size" := PyInt 3 ]} ->
       time_time env (clock_calls (world s)) = float_of_Z 1700000000 ->
       (_data_as_msg env s).1
         = Ok ("jenkins.queue.size 3 1700000000" +:+ newline)).
Proof.
  intros H.
  specialize (H (env_at (float_of_Z 1700000000))
                (add_data "queue.size" (PyInt 3)
                   (env_at (float_of_Z 1700000000)) sample_sys).2
                eq_refl eq_refl eq_refl).
  vm_compute in H. discriminate H.
Qed.

(** ** Sending *)

(** C6. When [connect] or the write raises, [send] returns [False] (it
    does not raise), and the sink, with its batch, is what it was before
    the call. *)
Theorem send_failure_returns_false_and_keeps_batch
    (env : Env) (s : Sys) (msg : string) (s1 : Sys) :
  _data_as_msg env s = (Ok msg, s1) ->
  is_Some (socket_connect env (server (graphite s)) (port (graphite s)))
  \/ is_Some (socket_sendall env (server (graphite s)) (port (graphite s)) msg) ->
  (send env s).1 = Ok false
  /\ sink_after send env s = graphite s
  /\ data (sink_after send env s) = data (graphite s).
Proof.
  intros Hmsg Hfail.
  assert (Hsink : sink_after send env s = graphite s) by apply send_sink.
  split; [| by rewrite Hsink].
  pose proof (data_as_msg_run env s) as Hrun. rewrite Hmsg in Hrun.
  injection Hrun as Hm Hs.
  unfold send, try_except, mbind, M_bind, bind. rewrite Hmsg. subst s1.
  unfold self_graphite, new_socket, connect, close, sendall, call. simpl.
  destruct (socket_socket env); [done|]. simpl.
  destruct (socket_connect env _ _) as [e|] eqn:Hc; [done|]. simpl.
  destruct (socket_sendall env _ _ msg) as [e|] eqn:Hw; [done|].
  destruct Hfail as [[e He] | [e He]]; congruence.
Qed.

Lemma send_failure_returns_false_and_keeps_batch_witness :
  (send (sample_env no_jenkins (Some SocketError)) sample_sys).1 = Ok false
  /\ sink_after send (sample_env no_jenkins (Some SocketError)) sample_sys
       = graphite sample_sys
  /\ data (sink_after send (sample_env no_jenkins (Some SocketError)) sample_sys)
       = data (graphite sample_sys).
Proof.
  apply (send_failure_returns_false_and_keeps_batch
           (sample_env no_jenkins (Some SocketError)) sample_sys
           EmptyString (tick sample_sys)).
  - reflexivity.
  - left. simpl. by exists SocketError.
Defined.

(** ** Fetching *)

(** C2 (amended). A fetch whose answer has a status other than 200
    returns the empty record; with status 200 and a well-formed literal it
    returns the value of the literal; an exception raised by the transport,
    and the one the literal parser raises on a body that is not a
    well-formed literal, reach the caller. *)
Theorem get_raw_data_outcomes
    (self : JenkinsServer) (url : string) (env : Env) (s : Sys) :
  let outcome :=
    requests_get env (http_calls (world s)) (base_url self +:+ "/" +:+ url)
      (_request_args self) in
  (forall r, outcome = Answer r -> status_code r <> 200 ->
     (get_raw_data self url env s).1 = Ok (PyDict []))
  /\ (forall r v, outcome = Answer r -> status_code r = 200 ->
        text r = Literal v -> (get_raw_data self url env s).1 = Ok v)
  /\ (forall e, outcome = TransportError e ->
        (get_raw_data self url env s).1 = Raise e)
  /\ (forall r e, outcome = Answer r -> status_code r = 200 ->
        text r = NotLiteral e -> (get_raw_data self url env s).1 = Raise e).
Proof.
  intros outcome.
  unfold get_raw_data, mbind, M_bind, bind, http_get. fold outcome.
  repeat split.
  - intros r -> Hst. simpl. apply Z.eqb_neq in Hst. by rewrite Hst.
  - intros r v -> Hst Ht. simpl. rewrite Hst. simpl. unfold lift. by rewrite Ht.
  - by intros e ->.
  - intros r e -> Hst Ht. simpl. rewrite Hst. simpl. unfold lift. by rewrite Ht.
Qed.

Lemma get_raw_data_outcomes_witness :
  (get_raw_data sample_jenkins "queue/api/python"
     (sample_env (constant_jenkins 503 PyNone) None) sample_sys).1
    = Ok (PyDict [])
  /\ (get_raw_data sample_jenkins "queue/api/python"
        (sample_env (constant_jenkins 200 (PyDict [("items", PyList [])])) None)
        sample_sys).1
       = Ok (PyDict [("items", PyList [])]).
Proof.
  split.
  - apply (proj1 (get_raw_data_outcomes sample_jenkins "queue/api/python"
                    (sample_env (constant_jenkins 503 PyNone) None) sample_sys))
      with (r := mkResponse 503 (Literal PyNone)); [reflexivity | done].
  - apply (proj1 (proj2 (get_raw_data_outcomes sample_jenkins "queue/api/python"
                    (sample_env
                       (constant_jenkins 200 (PyDict [("items", PyList [])]))
                       None) sample_sys)))
      with (r := mkResponse 200 (Literal (PyDict [("items", PyList [])])));
      reflexivity.
Defined.

(** C2 as stated fails: when the transport raises, and when the body is
    not a well-formed literal, the fetch raises instead of returning the
    empty record. *)
Lemma fetch_failures_raise_counterexample :
  ~ (forall self url env s,
       (exists e, requests_get env (http_calls (world s))
                    (base_url self +:+ "/" +:+ url) (_request_args self)
                  = TransportError e)
       \/ (exists r, requests_get env (http_calls (world s))
                       (base_url self +:+ "/" +:+ url) (_request_args self)
                     = Answer r
                     /\ (status_code r <> 200
                         \/ exists e, text r = NotLiteral e)) ->
       (get_raw_data self url env s).1 = Ok (PyDict []))
  /\ (get_raw_data sample_jenkins "queue/api/python"
        (sample_env no_jenkins None) sample_sys).1 = Raise ConnectionError
  /\ (get_raw_data sample_jenkins "queue/api/python"
        (sample_env garbled_jenkins None) sample_sys).1 = Raise SyntaxError.
Proof.
  split; [| split; reflexivity].
  intros H.
  specialize (H sample_jenkins "queue/api/python"
                (sample_env no_jenkins None) sample_sys).
  assert (Hraise : (get_raw_data sample_jenkins "queue/api/python"
                      (sample_env no_jenkins None) sample_sys).1
                   = Raise ConnectionError) by reflexivity.
  rewrite H in Hraise; [discriminate Hraise|].
  left. by exists ConnectionError.
Qed.

(** ** The derived counters *)

Lemma bind_inv_Ok {A B : Type} (m : M A) (f : A -> M B) env s b s' :
  (m ≫= f) env s = (Ok b, s') ->
  exists a s1, m env s = (Ok a, s1) /\ f a env s1 = (Ok b, s').
Proof.
  unfold mbind, M_bind, bind. destruct (m env s) as [[a|e] s1]; [|done].
  intros H. by exists a, s1.
Qed.

Lemma emitted_put_eq g k v : emitted (put k v g) k = Some v.
Proof. unfold emitted, metric, put. simpl. apply lookup_insert_eq. Qed.

Lemma emitted_put_ne g k k' v :
  k <> k' -> emitted (put k v g) k' = emitted g k'.
Proof.
  intros Hne. unfold emitted, metric, put. simpl. apply lookup_insert_ne.
  intros H. apply append_inj in H. simpl in H. by injection H.
Qed.

Lemma has_entry_emitted p k v g :
  has_entry p k v g -> emitted g k = Some v.
Proof. intros [Hp Hd]. unfold emitted, metric. by rewrite Hp. Qed.

Lemma emitted_has_entry k v g :
  emitted g k = Some v -> has_entry (prefix g) k v g.
Proof. by split. Qed.

(** An entry written under one family of names survives the writes under
    the other families. *)
Lemma keeps_entry_add_data (family p k : string) (v : PyValue) key value :
  String.prefix family k = true -> String.prefix family key = false ->
  keeps (has_entry p k v) (add_data key value).
Proof.
  intros Hk Hkey env s [Hp Hd]. unfold sink_after. rewrite add_data_run.
  split; [done|]. simpl. rewrite Hp. rewrite lookup_insert_ne; [done|].
  intros H. apply append_inj in H. simpl in H. injection H as H.
  subst key. congruence.
Qed.

Lemma py_filter_total (cond : PyValue -> result bool) (f : PyValue -> bool)
    (l : list PyValue) :
  Forall (fun j => cond j = Ok (f j)) l ->
  py_filter cond l = Ok (List.filter f l).
Proof.
  induction 1 as [|j l Hj _ IH]; simpl; [done|].
  rewrite Hj. simpl. rewrite IH. simpl. by destruct (f j).
Qed.

Lemma is_offline_dict (l : list PyValue) :
  Forall (fun j => is_dict j = true) l ->
  Forall (fun j => is_offline j = Ok (node_offline j)) l.
Proof. intros H. eapply Forall_impl; [exact H|]. by intros [] ?. Qed.

Lemma has_color_dict (colour : string) (l : list PyValue) :
  Forall (fun j => is_dict j = true) l ->
  Forall (fun j => has_color colour j = Ok (color_is colour j)) l.
Proof. intros H. eapply Forall_impl; [exact H|]. by intros [] ?. Qed.

Lemma dict_get_find d key default :
  dict_get d key default = match dict_find d key with Some v => v | None => default end.
Proof.
  induction d as [|[k v] d IH]; simpl; [done|]. by destruct (String.eqb k key).
Qed.

Lemma node_offline_flag (j : PyValue) : node_offline j = offline_flag_set j.
Proof.
  destruct j as [| | | | |d]; simpl; try done.
  rewrite dict_get_find. by destruct (dict_find d "offline").
Qed.

Lemma length_chars (s : string) : length (chars s) = String.length s.
Proof. induction s as [|c s IH]; simpl; [done | by rewrite IH]. Qed.

Lemma py_iter_len (v : PyValue) (l : list PyValue) :
  py_iter v = Ok l -> py_len v = Ok (Z.of_nat (length l)).
Proof.
  destruct v as [| | |s|l'|d]; simpl; try discriminate; intros [= <-].
  - by rewrite length_chars.
  - done.
  - by rewrite length_fmap.
Qed.

Lemma py_filter_inv (cond : PyValue -> result bool) (f : PyValue -> bool)
    (l r : list PyValue) :
  (forall j b, cond j = Ok b -> is_dict j = true /\ b = f j) ->
  py_filter cond l = Ok r ->
  Forall (fun j => is_dict j = true) l /\ r = List.filter f l.
Proof.
  intros Hcond. revert r. induction l as [|j l IH]; simpl; intros r.
  - intros [= <-]. by split.
  - destruct (cond j) as [b|e] eqn:Hj; simpl; [|discriminate].
    destruct (py_filter cond l) as [r'|e] eqn:Hl; simpl; [|discriminate].
    intros [= <-]. destruct (Hcond j b Hj) as [Hd ->].
    destruct (IH r' eq_refl) as [Hall ->]. split; [by constructor | done].
Qed.

Lemma is_offline_inv j b :
  is_offline j = Ok b -> is_dict j = true /\ b = node_offline j.
Proof. destruct j; simpl; try discriminate. by intros [= <-]. Qed.

Lemma has_color_inv colour j b :
  has_color colour j = Ok b -> is_dict j = true /\ b = color_is colour j.
Proof. destruct j; simpl; try discriminate. by intros [= <-]. Qed.

(** A completed executor step has written a total, a busy count and their
    difference. *)
Lemma stats_executors_completed key info env s s' :
  stats_executors key info env s = (Ok tt, s') ->
  exists vt vb vf,
    py_get info "totalExecutors" (PyInt 0) = Ok vt
    /\ py_get info "busyExecutors" (PyInt 0) = Ok vb
    /\ py_sub vt vb = Ok vf
    /\ s' = mkSys (put (key "free") vf (put (key "busy") vb
                    (put (key "total") vt (graphite s)))) (world s).
Proof.
  unfold stats_executors, mbind, M_bind, bind, lift.
  destruct info as [| | | | |d]; simpl; try discriminate.
  destruct (py_sub _ _) as [vf|e] eqn:Hsub; simpl; [|discriminate].
  intros [= <-]. eauto 10.
Qed.

(** A completed node step has gone through a sequence of dictionaries. *)
Lemma stats_nodes_completed info env s s' :
  stats_nodes info env s = (Ok tt, s') ->
  exists ns,
    (py_get info "computer" (PyList []) ≫= py_iter) = Ok ns
    /\ Forall (fun j => is_dict j = true) ns
    /\ s' = mkSys (put "nodes.online"
                     (PyInt (Z.of_nat (length ns) - count node_offline ns))
                  (put "nodes.offline" (PyInt (count node_offline ns))
                  (put "nodes.total" (PyInt (Z.of_nat (length ns)))
                     (graphite s)))) (world s).
Proof.
  unfold stats_nodes, mbind, M_bind, bind, lift.
  destruct info as [| | | | |d]; simpl; try discriminate.
  destruct (py_iter _) as [ns|e] eqn:Hit; simpl; [|discriminate].
  destruct (py_filter is_offline ns) as [off|e] eqn:Hf; simpl; [|discriminate].
  rewrite (py_iter_len _ _ Hit).
  destruct (py_filter_inv _ _ _ _ is_offline_inv Hf) as [Hall ->].
  intros [= <-]. by exists ns.
Qed.

(** The three executor counters, for a record with integer counters. *)
Lemma stats_executors_run key d t b env s :
  dict_get d "totalExecutors" (PyInt 0) = PyInt t ->
  dict_get d "busyExecutors" (PyInt 0) = PyInt b ->
  stats_executors key (PyDict d) env s =
    (Ok tt,
     mkSys (put (key "free") (PyInt (t - b))
              (put (key "busy") (PyInt b)
                 (put (key "total") (PyInt t) (graphite s))))
           (world s)).
Proof.
  intros Ht Hb. unfold stats_executors, mbind, M_bind, bind, lift. simpl.
  by rewrite Ht, Hb.
Qed.

(** The three node counters, for a record whose computers are
    dictionaries. *)
Lemma stats_nodes_run d ns env s :
  dict_get d "computer" (PyList []) = PyList ns ->
  Forall (fun j => is_dict j = true) ns ->
  stats_nodes (PyDict d) env s =
    (Ok tt,
     mkSys (put "nodes.online"
                (PyInt (Z.of_nat (length ns) - count node_offline ns))
              (put "nodes.offline" (PyInt (count node_offline ns))
                 (put "nodes.total" (PyInt (Z.of_nat (length ns)))
                    (graphite s))))
           (world s)).
Proof.
  intros Hc Hns. unfold stats_nodes, mbind, M_bind, bind, lift. simpl.
  rewrite Hc. simpl.
  by rewrite (py_filter_total _ _ _ (is_offline_dict _ Hns)).
Qed.

(** The shape of a completed pass. *)
Lemma pass_completed opts jenkins env s s' :
  gather_and_send_stats opts jenkins env s = (Ok tt, s') ->
  exists executor_info s1 s6 s7 s8,
    get_data jenkins "computer" env s = (Ok executor_info, s1)
    /\ stats_executors (fun k => "executors." +:+ k) executor_info env s6
         = (Ok tt, s7)
    /\ stats_nodes executor_info env s7 = (Ok tt, s8)
    /\ (stats_labels opts jenkins;; stats_jobs opts jenkins;; send;; mret tt)
         env s8 = (Ok tt, s').
Proof.
  unfold gather_and_send_stats. intros H.
  apply bind_inv_Ok in H as (executor_info & s1 & H1 & H).
  apply bind_inv_Ok in H as (queue_info & s2 & H2 & H).
  apply bind_inv_Ok in H as (bmin & s3 & H3 & H).
  apply bind_inv_Ok in H as (bhour & s4 & H4 & H).
  apply bind_inv_Ok in H as ([] & s5 & H5 & H).
  apply bind_inv_Ok in H as ([] & s6 & H6 & H).
  apply bind_inv_Ok in H as ([] & s7 & H7 & H).
  apply bind_inv_Ok in H as ([] & s8 & H8 & H).
  by exists executor_info, s1, s6, s7, s8.
Qed.

Lemma after_nodes_keeps family p k v opts jenkins env s r s' :
  String.prefix family k = true ->
  (forall x, String.prefix family ("labels." +:+ x) = false) ->
  (forall x, String.prefix family ("jobs." +:+ x) = false) ->
  (stats_labels opts jenkins;; stats_jobs opts jenkins;; send;; mret tt) env s
    = (r, s') ->
  has_entry p k v (graphite s) -> has_entry p k v (graphite s').
Proof.
  intros Hk Hl Hj Hrun Hs.
  pose proof (keeps_labels_jobs_send (has_entry p k v)
                (fun key => String.prefix family key = false)
                (fun key value => keeps_entry_add_data family p k v key value Hk)
                opts jenkins Hl Hj env s Hs) as H.
  unfold sink_after in H. by rewrite Hrun in H.
Qed.

Lemma after_executors_keeps p k v info opts jenkins env s s8 r s' :
  String.prefix "executors." k = true ->
  stats_nodes info env s = (Ok tt, s8) ->
  (stats_labels opts jenkins;; stats_jobs opts jenkins;; send;; mret tt) env s8
    = (r, s') ->
  has_entry p k v (graphite s) -> has_entry p k v (graphite s').
Proof.
  intros Hk Hn Hrun Hs.
  apply (after_nodes_keeps "executors." p k v opts jenkins env s8 r s');
    try done.
  pose proof (keeps_stats_nodes (has_entry p k v)
                (fun key => String.prefix "executors." key = false)
                (fun key value =>
                   keeps_entry_add_data "executors." p k v key value Hk)
                info eq_refl eq_refl eq_refl env s Hs) as H.
  unfold sink_after in H. by rewrite Hn in H.
Qed.

(** C5. For an executor record whose [totalExecutors] and [busyExecutors]
    (0 when absent) are the integers [t] and [b], the executor step returns
    normally and writes [executors.total = t], [executors.busy = b] and
    [executors.free = t - b], negative when [b] exceeds [t]; in every
    completed pass whose [computer] fetch returned that record, the batch
    at the end holds these three values; and whatever the record, an
    executor step that completes has written, as [executors.free], the
    difference [total - busy] of the two counters it has written. *)
Theorem executors_free_is_total_minus_busy
    (d : list (string * PyValue)) (t b : Z) :
  dict_get d "totalExecutors" (PyInt 0) = PyInt t ->
  dict_get d "busyExecutors" (PyInt 0) = PyInt b ->
  (forall env s, exists g',
      stats_executors (fun k => "executors." +:+ k) (PyDict d) env s
        = (Ok tt, mkSys g' (world s))
      /\ emitted g' "executors.total" = Some (PyInt t)
      /\ emitted g' "executors.busy" = Some (PyInt b)
      /\ emitted g' "executors.free" = Some (PyInt (t - b)))
  /\ (forall opts jenkins env s s1 s',
        get_data jenkins "computer" env s = (Ok (PyDict d), s1) ->
        gather_and_send_stats opts jenkins env s = (Ok tt, s') ->
        emitted (graphite s') "executors.total" = Some (PyInt t)
        /\ emitted (graphite s') "executors.busy" = Some (PyInt b)
        /\ emitted (graphite s') "executors.free" = Some (PyInt (t - b)))
  /\ (forall info env s s',
        stats_executors (fun k => "executors." +:+ k) info env s = (Ok tt, s') ->
        exists vt vb vf,
          emitted (graphite s') "executors.total" = Some vt
          /\ emitted (graphite s') "executors.busy" = Some vb
          /\ emitted (graphite s') "executors.free" = Some vf
          /\ py_sub vt vb = Ok vf).
Proof.
  intros Ht Hb.
  assert (Hany : forall info env s s',
        stats_executors (fun k => "executors." +:+ k) info env s = (Ok tt, s') ->
        exists vt vb vf,
          emitted (graphite s') "executors.total" = Some vt
          /\ emitted (graphite s') "executors.busy" = Some vb
          /\ emitted (graphite s') "executors.free" = Some vf
          /\ py_sub vt vb = Ok vf).
  { intros info env s s' Hrun.
    apply stats_executors_completed in Hrun
      as (vt & vb & vf & _ & _ & Hsub & ->).
    exists vt, vb, vf. simpl. repeat split; [ | | | exact Hsub].
    - rewrite !emitted_put_ne by done. apply emitted_put_eq.
    - rewrite emitted_put_ne by done. apply emitted_put_eq.
    - apply emitted_put_eq. }
  cut ((forall env s, exists g',
      stats_executors (fun k => "executors." +:+ k) (PyDict d) env s
        = (Ok tt, mkSys g' (world s))
      /\ emitted g' "executors.total" = Some (PyInt t)
      /\ emitted g' "executors.busy" = Some (PyInt b)
      /\ emitted g' "executors.free" = Some (PyInt (t - b)))
  /\ (forall opts jenkins env s s1 s',
        get_data jenkins "computer" env s = (Ok (PyDict d), s1) ->
        gather_and_send_stats opts jenkins env s = (Ok tt, s') ->
        emitted (graphite s') "executors.total" = Some (PyInt t)
        /\ emitted (graphite s') "executors.busy" = Some (PyInt b)
        /\ emitted (graphite s') "executors.free" = Some (PyInt (t - b)))).
  { intros [HA HB]. split; [exact HA | split; [exact HB | exact Hany]]. }
  assert (Hblock : forall env s, exists g',
      stats_executors (fun k => "executors." +:+ k) (PyDict d) env s
        = (Ok tt, mkSys g' (world s))
      /\ emitted g' "executors.total" = Some (PyInt t)
      /\ emitted g' "executors.busy" = Some (PyInt b)
      /\ emitted g' "executors.free" = Some (PyInt (t - b))).
  { intros env s. eexists. split; [by apply stats_executors_run|].
    repeat split.
    - rewrite !emitted_put_ne by done. apply emitted_put_eq.
    - rewrite emitted_put_ne by done. apply emitted_put_eq.
    - apply emitted_put_eq. }
  split; [exact Hblock|].
  intros opts jenkins env s s1 s' H1 Hrun.
  apply pass_completed in Hrun
    as (info & s1' & s6 & s7 & s8 & H1' & H7 & H8 & Hrest).
  rewrite H1 in H1'. injection H1' as <- <-.
  destruct (Hblock env s6) as (g' & Hg' & Htot & Hbusy & Hfree).
  rewrite Hg' in H7. injection H7 as <-.
  assert (Hkept : forall k v, String.prefix "executors." k = true ->
            emitted g' k = Some v -> emitted (graphite s') k = Some v).
  { intros k v Hk Hv. eapply has_entry_emitted.
    eapply (after_executors_keeps _ k v _ _ _ _ _ _ _ _ Hk H8 Hrest).
    by apply emitted_has_entry. }
  repeat split; by apply Hkept.
Qed.

Lemma executors_free_is_total_minus_busy_witness :
  (gather_and_send_stats no_options sample_jenkins
     (sample_env (scenario_jenkins
                    [("totalExecutors", PyInt 2); ("busyExecutors", PyInt 5)])
                 None) sample_sys).1 = Ok tt
  /\ emitted (graphite (gather_and_send_stats no_options sample_jenkins
       (sample_env (scenario_jenkins
                      [("totalExecutors", PyInt 2); ("busyExecutors", PyInt 5)])
                   None) sample_sys).2) "executors.free" = Some (PyInt (-3)).
Proof.
  split; [by vm_compute|].
  apply (proj1 (proj2 (executors_free_is_total_minus_busy
                  [("totalExecutors", PyInt 2); ("busyExecutors", PyInt 5)]
                  2 5 eq_refl eq_refl))
           no_options sample_jenkins
           (sample_env (scenario_jenkins
                          [("totalExecutors", PyInt 2);
                           ("busyExecutors", PyInt 5)]) None)
           sample_sys (mkSys sample_sink (mkWorld 1 0 []))
           (gather_and_send_stats no_options sample_jenkins
              (sample_env (scenario_jenkins
                             [("totalExecutors", PyInt 2);
                              ("busyExecutors", PyInt 5)]) None)
              sample_sys).2).
  - reflexivity.
  - by vm_compute.
Defined.

(** *** Nodes *)

Lemma count_cons (f : PyValue -> bool) (j : PyValue) (l : list PyValue) :
  count f (j :: l) = (if f j then 1 else 0) + count f l.
Proof. unfold count. simpl. destruct (f j); simpl; lia. Qed.

Lemma count_bounds (f : PyValue -> bool) (l : list PyValue) :
  0 <= count f l <= Z.of_nat (length l).
Proof.
  induction l as [|j l IH]; [by unfold count; simpl|].
  rewrite count_cons. simpl length. destruct (f j); lia.
Qed.

Lemma count_ext (f g : PyValue -> bool) (l : list PyValue) :
  (forall j, f j = g j) -> count f l = count g l.
Proof.
  intros H. induction l as [|j l IH]; [done|].
  by rewrite !count_cons, IH, H.
Qed.

Lemma stats_nodes_emits d ns env s :
  dict_get d "computer" (PyList []) = PyList ns ->
  Forall (fun j => is_dict j = true) ns ->
  exists g',
    stats_nodes (PyDict d) env s = (Ok tt, mkSys g' (world s))
    /\ emitted g' "nodes.total" = Some (PyInt (Z.of_nat (length ns)))
    /\ emitted g' "nodes.offline" = Some (PyInt (count node_offline ns))
    /\ emitted g' "nodes.online"
         = Some (PyInt (Z.of_nat (length ns) - count node_offline ns)).
Proof.
  intros Hc Hns. eexists. split; [by apply stats_nodes_run|].
  repeat split.
  - rewrite !emitted_put_ne by done. apply emitted_put_eq.
  - rewrite emitted_put_ne by done. apply emitted_put_eq.
  - apply emitted_put_eq.
Qed.

Lemma pass_nodes d ns opts jenkins env s s1 s' :
  dict_get d "computer" (PyList []) = PyList ns ->
  Forall (fun j => is_dict j = true) ns ->
  get_data jenkins "computer" env s = (Ok (PyDict d), s1) ->
  gather_and_send_stats opts jenkins env s = (Ok tt, s') ->
  emitted (graphite s') "nodes.total" = Some (PyInt (Z.of_nat (length ns)))
  /\ emitted (graphite s') "nodes.offline" = Some (PyInt (count node_offline ns))
  /\ emitted (graphite s') "nodes.online"
       = Some (PyInt (Z.of_nat (length ns) - count node_offline ns)).
Proof.
  intros Hc Hns H1 Hrun.
  apply pass_completed in Hrun
    as (info & s1' & s6 & s7 & s8 & H1' & H7 & H8 & Hrest).
  rewrite H1 in H1'. injection H1' as <- <-.
  destruct (stats_nodes_emits d ns env s7 Hc Hns)
    as (g' & Hg' & Htot & Hoff & Hon).
  rewrite Hg' in H8. injection H8 as <-.
  assert (Hkept : forall k v, String.prefix "nodes." k = true ->
            emitted g' k = Some v -> emitted (graphite s') k = Some v).
  { intros k v Hk Hv. eapply has_entry_emitted.
    eapply (after_nodes_keeps "nodes." _ k v _ _ _ _ _ _ Hk _ _ Hrest).
    by apply emitted_has_entry. }
  repeat split; by apply Hkept.
  Unshelve. all: done.
Qed.

(** C8. For an executor record whose [computer] field (the empty list
    when absent) is a list of dictionaries, the node step returns normally
    and writes [nodes.total], the length of the list, [nodes.offline], the
    number of entries whose [offline] field is true, and [nodes.online],
    their difference, so that [nodes.online + nodes.offline = nodes.total];
    in every completed pass whose [computer] fetch returned that record,
    the batch at the end holds these three values; and whatever the
    record, the three counters written by a node step that completes add
    up in this way. *)
Theorem nodes_online_plus_offline_is_total
    (d : list (string * PyValue)) (ns : list PyValue) :
  dict_get d "computer" (PyList []) = PyList ns ->
  Forall (fun j => is_dict j = true) ns ->
  exists total offline online : Z,
    total = Z.of_nat (length ns)
    /\ offline = count node_offline ns
    /\ online = total - offline
    /\ online + offline = total
    /\ (forall env s, exists g',
          stats_nodes (PyDict d) env s = (Ok tt, mkSys g' (world s))
          /\ emitted g' "nodes.total" = Some (PyInt total)
          /\ emitted g' "nodes.offline" = Some (PyInt offline)
          /\ emitted g' "nodes.online" = Some (PyInt online))
    /\ (forall opts jenkins env s s1 s',
          get_data jenkins "computer" env s = (Ok (PyDict d), s1) ->
          gather_and_send_stats opts jenkins env s = (Ok tt, s') ->
          emitted (graphite s') "nodes.total" = Some (PyInt total)
          /\ emitted (graphite s') "nodes.offline" = Some (PyInt offline)
          /\ emitted (graphite s') "nodes.online" = Some (PyInt online))
    /\ (forall info env s s',
          stats_nodes info env s = (Ok tt, s') ->
          exists t o n : Z,
            emitted (graphite s') "nodes.total" = Some (PyInt t)
            /\ emitted (graphite s') "nodes.offline" = Some (PyInt o)
            /\ emitted (graphite s') "nodes.online" = Some (PyInt n)
            /\ n + o = t).
Proof.
  intros Hc Hns.
  exists (Z.of_nat (length ns)), (count node_offline ns),
         (Z.of_nat (length ns) - count node_offline ns).
  do 3 (split; [done|]). split; [lia|].
  split; [| split].
  - intros env s. by apply stats_nodes_emits.
  - intros opts jenkins env s s1 s' H1 Hrun. by eapply pass_nodes.
  - intros info env s s' Hrun.
    apply stats_nodes_completed in Hrun as (ms & _ & _ & ->).
    exists (Z.of_nat (length ms)), (count node_offline ms),
           (Z.of_nat (length ms) - count node_offline ms).
    simpl. repeat split; [ | | | lia].
    + rewrite !emitted_put_ne by done. apply emitted_put_eq.
    + rewrite emitted_put_ne by done. apply emitted_put_eq.
    + apply emitted_put_eq.
Qed.

Lemma nodes_online_plus_offline_is_total_witness :
  exists total offline online : Z,
    total = 2 /\ offline = 1 /\ online = 1 /\ online + offline = total
    /\ emitted (graphite (gather_and_send_stats no_options sample_jenkins
                  (sample_env (scenario_jenkins scenario_executors) None)
                  sample_sys).2) "nodes.online" = Some (PyInt online).
Proof.
  destruct (nodes_online_plus_offline_is_total scenario_executors
              [PyDict [("offline", PyBool false)];
               PyDict [("offline", PyBool true)]])
    as (total & offline & online & Ht & Ho & Hon & Hsum & _ & Hpass & _).
  - reflexivity.
  - by repeat constructor.
  - exists total, offline, online.
    split; [by rewrite Ht|]. split; [by rewrite Ho|].
    split; [by rewrite Hon, Ht, Ho|]. split; [exact Hsum|].
    apply (Hpass no_options sample_jenkins
             (sample_env (scenario_jenkins scenario_executors) None)
             sample_sys (mkSys sample_sink (mkWorld 1 0 []))
             (gather_and_send_stats no_options sample_jenkins
                (sample_env (scenario_jenkins scenario_executors) None)
                sample_sys).2).
    + reflexivity.
    + by vm_compute.
Defined.

(** C10. A computer entry counts as offline exactly when its [offline]
    field is present with a true value; an entry without the field, or with
    a false one, counts as online.  For a record whose [computer] field is
    a list of dictionaries, [nodes.offline] is the number of entries with
    the field present and true and [nodes.online] the number of the others,
    in the node step and at the end of every completed pass; the record
    [{computer: [{}]}] gives [nodes.total = 1], [nodes.offline = 0] and
    [nodes.online = 1]. *)
Theorem absent_offline_field_counts_as_online
    (d : list (string * PyValue)) (ns : list PyValue) :
  dict_get d "computer" (PyList []) = PyList ns ->
  Forall (fun j => is_dict j = true) ns ->
  (forall dj, offline_flag_set (PyDict dj) = true <->
              exists v, dict_find dj "offline" = Some v /\ py_bool v = true)
  /\ (forall env s, exists g',
        stats_nodes (PyDict d) env s = (Ok tt, mkSys g' (world s))
        /\ emitted g' "nodes.total" = Some (PyInt (Z.of_nat (length ns)))
        /\ emitted g' "nodes.offline" = Some (PyInt (count offline_flag_set ns))
        /\ emitted g' "nodes.online"
             = Some (PyInt (count (fun j => negb (offline_flag_set j)) ns)))
  /\ (forall opts jenkins env s s1 s',
        get_data jenkins "computer" env s = (Ok (PyDict d), s1) ->
        gather_and_send_stats opts jenkins env s = (Ok tt, s') ->
        emitted (graphite s') "nodes.offline"
          = Some (PyInt (count offline_flag_set ns))
        /\ emitted (graphite s') "nodes.online"
             = Some (PyInt (count (fun j => negb (offline_flag_set j)) ns)))
  /\ (forall env s, exists g',
        stats_nodes (PyDict [("computer", PyList [PyDict []])]) env s
          = (Ok tt, mkSys g' (world s))
        /\ emitted g' "nodes.total" = Some (PyInt 1)
        /\ emitted g' "nodes.offline" = Some (PyInt 0)
        /\ emitted g' "nodes.online" = Some (PyInt 1)).
Proof.
  intros Hc Hns.
  assert (Hoff : count node_offline ns = count offline_flag_set ns)
    by apply count_ext, node_offline_flag.
  assert (Hon : Z.of_nat (length ns) - count offline_flag_set ns
                = count (fun j => negb (offline_flag_set j)) ns).
  { clear. induction ns as [|j l IH]; [done|].
    rewrite !count_cons. simpl length. destruct (offline_flag_set j); simpl; lia. }
  split; [| split; [| split]].
  - intros dj. simpl. destruct (dict_find dj "offline") as [v|].
    + split; [by exists v | by intros (v' & [= <-] & Hv)].
    + split; [done | by intros (v' & [=] & _)].
  - intros env s.
    destruct (stats_nodes_emits d ns env s Hc Hns) as (g' & Hg' & H1 & H2 & H3).
    exists g'. by rewrite <- Hon, <- Hoff.
  - intros opts jenkins env s s1 s' H1 Hrun.
    destruct (pass_nodes d ns opts jenkins env s s1 s' Hc Hns H1 Hrun)
      as (_ & H2 & H3).
    by rewrite <- Hon, <- Hoff.
  - intros env s.
    by apply (stats_nodes_emits [("computer", PyList [PyDict []])] [PyDict []]);
      repeat constructor.
Qed.

Lemma absent_offline_field_counts_as_online_witness :
  emitted (graphite (gather_and_send_stats no_options sample_jenkins
             (sample_env (scenario_jenkins [("computer", PyList [PyDict []])])
                None) sample_sys).2) "nodes.offline" = Some (PyInt 0)
  /\ emitted (graphite (gather_and_send_stats no_options sample_jenkins
                (sample_env (scenario_jenkins [("computer", PyList [PyDict []])])
                   None) sample_sys).2) "nodes.online" = Some (PyInt 1).
Proof.
  apply (proj1 (proj2 (proj2
           (absent_offline_field_counts_as_online
              [("computer", PyList [PyDict []])] [PyDict []]
              eq_refl ltac:(by repeat constructor))))
           no_options sample_jenkins
           (sample_env (scenario_jenkins [("computer", PyList [PyDict []])])
              None)
           sample_sys (mkSys sample_sink (mkWorld 1 0 []))
           (gather_and_send_stats no_options sample_jenkins
              (sample_env (scenario_jenkins [("computer", PyList [PyDict []])])
                 None) sample_sys).2).
  - reflexivity.
  - by vm_compute.
Defined.

(** *** Jobs *)

Lemma color_is_spec (colour : string) (j : PyValue) :
  color_is colour j = true <-> job_color j = PyStr colour.
Proof.
  unfold color_is, py_eq_str. destruct (job_color j) as [| | |s| |]; try done.
  destruct (String.eqb_spec s colour) as [-> | Hne]; [done|].
  split; [done | by intros [= ->]].
Qed.

(** The three buckets are disjoint, and a job is in one of them exactly
    when its colour is recognised. *)
Lemma bucket_of_job (j : PyValue) :
  let n := (if color_is "blue" j then 1 else 0)
           + (if color_is "red" j then 1 else 0)
           + (if color_is "yellow" j then 1 else 0) in
  (n = 1 /\ recognised j) \/ (n = 0 /\ ~ recognised j).
Proof.
  pose proof (color_is_spec "blue" j) as Hb.
  pose proof (color_is_spec "red" j) as Hr.
  pose proof (color_is_spec "yellow" j) as Hy.
  unfold recognised.
  destruct (color_is "blue" j), (color_is "red" j), (color_is "yellow" j);
    simpl.
  all: try (assert (job_color j = PyStr "blue") as Eb by (by apply Hb));
       try (assert (job_color j = PyStr "red") as Er by (by apply Hr));
       try (assert (job_color j = PyStr "yellow") as Ey by (by apply Hy));
       try congruence.
  - left. split; [done | by left].
  - left. split; [done | by right; left].
  - left. split; [done | by right; right].
  - right. split; [done|]. intros [H | [H | H]].
    + apply Hb in H. discriminate H.
    + apply Hr in H. discriminate H.
    + apply Hy in H. discriminate H.
Qed.

Lemma jobs_partition (js : list PyValue) :
  count (color_is "blue") js + count (color_is "red") js
    + count (color_is "yellow") js <= Z.of_nat (length js)
  /\ (count (color_is "blue") js + count (color_is "red") js
        + count (color_is "yellow") js = Z.of_nat (length js)
      <-> Forall recognised js).
Proof.
  induction js as [|j js [IHle IHeq]].
  - split; [done | split; [by constructor | done]].
  - rewrite !count_cons. simpl length.
    destruct (bucket_of_job j) as [[Hn Hrec] | [Hn Hrec]]; simpl in Hn.
    + split; [lia|]. split.
      * intros H. constructor; [done|]. apply IHeq. lia.
      * intros H. apply Forall_cons in H as [_ H]. apply IHeq in H. lia.
    + split; [lia|]. split.
      * intros H. lia.
      * intros H. by apply Forall_cons in H as [H _].
Qed.

Lemma stats_view_run jenkins view d js env s s1 :
  get_data jenkins ("/view/" +:+ py_str view) env s = (Ok (PyDict d), s1) ->
  dict_get d "jobs" (PyList []) = PyList js ->
  Forall (fun j => is_dict j = true) js ->
  stats_view jenkins view env s =
    (Ok tt,
     mkSys (put "jobs.warn" (PyInt (count (color_is "yellow") js))
              (put "jobs.fail" (PyInt (count (color_is "red") js))
                 (put "jobs.ok" (PyInt (count (color_is "blue") js))
                    (put "jobs.total" (PyInt (Z.of_nat (length js)))
                       (graphite s1)))))
           (world s1)).
Proof.
  intros Hf Hj Hjs. unfold stats_view. rewrite (bind_Ok _ _ _ _ _ _ Hf).
  unfold mbind, M_bind, bind, lift. simpl. rewrite Hj. simpl.
  by rewrite !(py_filter_total _ _ _ (has_color_dict _ _ Hjs)).
Qed.

(** A completed job step has gone through a sequence of dictionaries. *)
Lemma stats_view_completed jenkins view env s s' :
  stats_view jenkins view env s = (Ok tt, s') ->
  exists s1 js,
    Forall (fun j => is_dict j = true) js
    /\ s' = mkSys (put "jobs.warn" (PyInt (count (color_is "yellow") js))
                  (put "jobs.fail" (PyInt (count (color_is "red") js))
                  (put "jobs.ok" (PyInt (count (color_is "blue") js))
                  (put "jobs.total" (PyInt (Z.of_nat (length js)))
                     (graphite s1))))) (world s1).
Proof.
  unfold stats_view. intros H.
  apply bind_inv_Ok in H as (info & s1 & _ & H). revert H.
  unfold mbind, M_bind, bind, lift.
  destruct info as [| | | | |d]; simpl; try discriminate.
  destruct (py_iter _) as [js|e] eqn:Hit; simpl; [|discriminate].
  destruct (py_filter (has_color "blue") js) as [ok|e] eqn:Hok; simpl;
    [|discriminate].
  destruct (py_filter (has_color "red") js) as [fail|e] eqn:Hfail; simpl;
    [|discriminate].
  destruct (py_filter (has_color "yellow") js) as [warn|e] eqn:Hwarn; simpl;
    [|discriminate].
  rewrite (py_iter_len _ _ Hit).
  destruct (py_filter_inv _ _ _ _ (has_color_inv "blue") Hok) as [Hall ->].
  destruct (py_filter_inv _ _ _ _ (has_color_inv "red") Hfail) as [_ ->].
  destruct (py_filter_inv _ _ _ _ (has_color_inv "yellow") Hwarn) as [_ ->].
  intros [= <-]. by exists s1, js.
Qed.

(** C4. When a job view is configured and its fetch returns a record
    whose [jobs] field is a list of dictionaries, the job step returns
    normally and writes [jobs.total], the length of the list, and
    [jobs.ok], [jobs.fail] and [jobs.warn], the numbers of jobs whose
    colour is [blue], [red] and [yellow]; the [send] that follows leaves
    the batch as it is.  So [jobs.ok + jobs.fail + jobs.warn <= jobs.total],
    with equality exactly when every job has one of the three colours; and
    whatever the answer of the fetch, the four counters written by a job
    step that completes satisfy that inequality. *)
Theorem jobs_partition_by_color
    (opts : list (string * PyValue)) (jenkins : JenkinsServer)
    (view : PyValue) (d : list (string * PyValue)) (js : list PyValue)
    (env : Env) (s s1 : Sys) :
  py_getitem opts "--jobs" = Ok view ->
  py_bool view = true ->
  get_data jenkins ("/view/" +:+ py_str view) env s = (Ok (PyDict d), s1) ->
  dict_get d "jobs" (PyList []) = PyList js ->
  Forall (fun j => is_dict j = true) js ->
  exists total ok fail warn : Z,
    total = Z.of_nat (length js)
    /\ ok = Z.of_nat (length (List.filter (color_is "blue") js))
    /\ fail = Z.of_nat (length (List.filter (color_is "red") js))
    /\ warn = Z.of_nat (length (List.filter (color_is "yellow") js))
    /\ (forall colour j, color_is colour j = true <-> job_color j = PyStr colour)
    /\ (exists g',
          stats_jobs opts jenkins env s = (Ok tt, mkSys g' (world s1))
          /\ emitted g' "jobs.total" = Some (PyInt total)
          /\ emitted g' "jobs.ok" = Some (PyInt ok)
          /\ emitted g' "jobs.fail" = Some (PyInt fail)
          /\ emitted g' "jobs.warn" = Some (PyInt warn)
          /\ sink_after (send;; mret tt) env (mkSys g' (world s1)) = g')
    /\ ok + fail + warn <= total
    /\ (ok + fail + warn = total <-> Forall recognised js)
    /\ (forall jenkins' view' env' s0 s',
          stats_view jenkins' view' env' s0 = (Ok tt, s') ->
          exists t o f w : Z,
            emitted (graphite s') "jobs.total" = Some (PyInt t)
            /\ emitted (graphite s') "jobs.ok" = Some (PyInt o)
            /\ emitted (graphite s') "jobs.fail" = Some (PyInt f)
            /\ emitted (graphite s') "jobs.warn" = Some (PyInt w)
            /\ o + f + w <= t).
Proof.
  intros Hopt Hview Hf Hj Hjs.
  exists (Z.of_nat (length js)), (count (color_is "blue") js),
         (count (color_is "red") js), (count (color_is "yellow") js).
  do 4 (split; [done|]). split; [apply color_is_spec|].
  split; [| split; [apply jobs_partition | split; [apply jobs_partition|]]];
    cycle 1.
  { intros jenkins' view' env' s0 s' Hrun.
    apply stats_view_completed in Hrun as (s1' & ms & _ & ->).
    exists (Z.of_nat (length ms)), (count (color_is "blue") ms),
           (count (color_is "red") ms), (count (color_is "yellow") ms).
    simpl. repeat split; [ | | | | apply jobs_partition].
    - rewrite !emitted_put_ne by done. apply emitted_put_eq.
    - rewrite !emitted_put_ne by done. apply emitted_put_eq.
    - rewrite emitted_put_ne by done. apply emitted_put_eq.
    - apply emitted_put_eq. }
  eexists. split.
  - unfold stats_jobs, mbind, M_bind, bind, lift. rewrite Hopt, Hview.
    by apply (stats_view_run jenkins view d js).
  - repeat split.
    + rewrite !emitted_put_ne by done. apply emitted_put_eq.
    + rewrite !emitted_put_ne by done. apply emitted_put_eq.
    + rewrite emitted_put_ne by done. apply emitted_put_eq.
    + apply emitted_put_eq.
    + match goal with |- sink_after _ _ (mkSys ?g ?w) = _ =>
        apply (keeps_bind (fun g0 => g0 = g) send (fun _ => mret tt)
                 (keeps_send _) (fun _ => keeps_ret _ tt) env (mkSys g w))
      end.
      reflexivity.
Qed.

Lemma jobs_partition_by_color_witness :
  exists total ok fail warn : Z,
    total = 5 /\ ok = 1 /\ fail = 1 /\ warn = 1
    /\ ok + fail + warn <= total
    /\ exists g',
         (stats_jobs jobs_options sample_jenkins
            (sample_env (constant_jenkins 200 (PyDict sample_view)) None)
            sample_sys).1 = Ok tt
         /\ graphite (stats_jobs jobs_options sample_jenkins
              (sample_env (constant_jenkins 200 (PyDict sample_view)) None)
              sample_sys).2 = g'
         /\ emitted g' "jobs.ok" = Some (PyInt ok).
Proof.
  destruct (jobs_partition_by_color jobs_options sample_jenkins (PyStr "All")
              sample_view
              [PyDict [("color", PyStr "blue")];
               PyDict [("color", PyStr "red")];
               PyDict [("color", PyStr "yellow")];
               PyDict [("color", PyStr "disabled")];
               PyDict [("name", PyStr "fresh")]]
              (sample_env (constant_jenkins 200 (PyDict sample_view)) None)
              sample_sys (mkSys sample_sink (mkWorld 1 0 [])))
    as (total & ok & fail & warn & Ht & Hok & Hfail & Hwarn & _
        & (g' & Hrun & _ & Hemit & _) & Hle & _ & _).
  - reflexivity.
  - reflexivity.
  - reflexivity.
  - reflexivity.
  - by repeat constructor.
  - exists total, ok, fail, warn.
    split; [by rewrite Ht|]. split; [by rewrite Hok|].
    split; [by rewrite Hfail|]. split; [by rewrite Hwarn|].
    split; [exact Hle|]. exists g'. rewrite Hrun. by repeat split.
Defined.

(** ** The end-to-end scenario *)

Lemma send_returns env s : exists b s', send env s = (Ok b, s').
Proof.
  unfold send, try_except.
  match goal with
  | |- exists b s', match ?x with _ => _ end = _ =>
      destruct x as [[b|e] s']; [by exists b, s' | by exists false, s']
  end.
Qed.

Lemma run_sink {A : Type} (m : M A) env s r s' :
  m env s = (r, s') -> sink_after m env s = graphite s'.
Proof. intros H. unfold sink_after. by rewrite H. Qed.

Lemma scenario_names_distinct (g : GraphiteServer) :
  NoDup (entry_of g <$> scenario_counters).*1.
Proof.
  rewrite <- list_fmap_compose.
  change (NoDup (metric g <$> scenario_counters.*1)).
  apply NoDup_fmap_2; [intros k1 k2; apply metric_inj|].
  apply (bool_decide_unpack _). by vm_compute.
Qed.

(** C1. With no label and no job view configured, a fresh batch, and the
    four fetches returning the queue record [{items: [a, b]}], the executor
    record of the scenario and two event records [{events: []}], the pass
    completes and the batch holds exactly the nine entries of the scenario,
    each under the prefix of the sink, and no other. *)
Theorem end_to_end_scenario
    (opts : list (string * PyValue)) (jenkins : JenkinsServer) (env : Env)
    (s s1 s2 s3 s4 : Sys) (a b labels jobs : PyValue) :
  data (graphite s) = ∅ ->
  py_getitem opts "--labels" = Ok labels -> py_bool labels = false ->
  py_getitem opts "--jobs" = Ok jobs -> py_bool jobs = false ->
  get_data jenkins "computer" env s = (Ok (PyDict scenario_executors), s1) ->
  get_data jenkins "queue" env s1 = (Ok (scenario_queue a b), s2) ->
  build_info_min jenkins env s2 = (Ok scenario_events, s3) ->
  build_info_hour jenkins env s3 = (Ok scenario_events, s4) ->
  exists s',
    gather_and_send_stats opts jenkins env s = (Ok tt, s')
    /\ map_to_list (data (graphite s'))
         ≡ₚ entry_of (graphite s) <$> scenario_counters
    /\ size (data (graphite s')) = 9%nat.
Proof.
  intros Hd Hl Hlf Hj Hjf H1 H2 H3 H4.
  assert (Hg : graphite s4 = graphite s).
  { rewrite <- (run_sink _ _ _ _ _ H4), build_info_hour_sink.
    rewrite <- (run_sink _ _ _ _ _ H3), build_info_min_sink.
    rewrite <- (run_sink _ _ _ _ _ H2). unfold get_data.
    rewrite get_raw_data_sink.
    rewrite <- (run_sink _ _ _ _ _ H1). unfold get_data.
    by rewrite get_raw_data_sink. }
  unfold gather_and_send_stats.
  rewrite (bind_Ok _ _ _ _ _ _ H1), (bind_Ok _ _ _ _ _ _ H2),
          (bind_Ok _ _ _ _ _ _ H3), (bind_Ok _ _ _ _ _ _ H4).
  unfold stats_queue, stats_builds, stats_executors, stats_nodes,
         stats_labels, stats_jobs, mbind, M_bind, bind, lift.
  simpl. rewrite Hl, Hlf, Hj, Hjf. simpl.
  match goal with |- context [send env ?s8] =>
    destruct (send_returns env s8) as (r & s' & Hsend);
    pose proof (run_sink _ _ _ _ _ Hsend) as Hsink;
    rewrite send_sink in Hsink; simpl in Hsink;
    rewrite Hsend
  end.
  exists s'. split; [done|]. rewrite <- Hsink, Hg.
  pose proof (scenario_names_distinct (graphite s)) as Hnd.
  match goal with |- context [data ?g] =>
    assert (Hdata : data g = list_to_map
                      (reverse (entry_of (graphite s) <$> scenario_counters)))
      by (simpl; rewrite Hd; reflexivity);
    rewrite !Hdata
  end.
  assert (Hnd' : NoDup (reverse (entry_of (graphite s) <$> scenario_counters)).*1).
  { by rewrite fmap_reverse, reverse_Permutation. }
  split.
  - rewrite (map_to_list_to_map _ Hnd'). apply reverse_Permutation.
  - rewrite <- length_map_to_list, (map_to_list_to_map _ Hnd').
    by rewrite length_reverse.
Qed.

Lemma end_to_end_scenario_witness :
  exists s',
    gather_and_send_stats no_options sample_jenkins
      (sample_env (scenario_jenkins scenario_executors) None) sample_sys
      = (Ok tt, s')
    /\ map_to_list (data (graphite s'))
         ≡ₚ entry_of (graphite sample_sys) <$> scenario_counters
    /\ size (data (graphite s')) = 9%nat.
Proof.
  apply (end_to_end_scenario no_options sample_jenkins
           (sample_env (scenario_jenkins scenario_executors) None)
           sample_sys
           (mkSys sample_sink (mkWorld 1 0 []))
           (mkSys sample_sink (mkWorld 2 0 []))
           (mkSys sample_sink (mkWorld 3 2 []))
           (mkSys sample_sink (mkWorld 4 4 []))
           (PyStr "a") (PyStr "b") (PyList []) PyNone).
  - reflexivity.
  - reflexivity.
  - reflexivity.
  - reflexivity.
  - reflexivity.
  - reflexivity.
  - reflexivity.
  - by vm_compute.
  - by vm_compute.
Defined.

(** * Further properties of the script *)

(** ** What a step does to the state *)

Section Preserves.
Context (Q : Sys -> Prop).

Lemma preserves_ret {A : Type} (a : A) : preserves Q (mret a).
Proof. by intros env s H. Qed.

Lemma preserves_lift {A : Type} (r : result A) : preserves Q (lift r).
Proof. by intros env s H. Qed.

Lemma preserves_bind {A B : Type} (m : M A) (f : A -> M B) :
  preserves Q m -> (forall a, preserves Q (f a)) -> preserves Q (m ≫= f).
Proof.
  intros Hm Hf env s H. specialize (Hm env s H).
  unfold mbind, M_bind, bind in *.
  destruct (m env s) as [[a|e] s']; simpl in *; [by apply Hf | done].
Qed.

Lemma preserves_if {A : Type} (b : bool) (m1 m2 : M A) :
  preserves Q m1 -> preserves Q m2 -> preserves Q (if b then m1 else m2).
Proof. by destruct b. Qed.

Lemma preserves_for_each {A : Type} (l : list A) (body : A -> M unit) :
  (forall x, preserves Q (body x)) -> preserves Q (for_each l body).
Proof.
  intros Hb. induction l as [|x l IH]; simpl.
  - apply (preserves_ret tt).
  - apply preserves_bind; [apply Hb | by intros _].
Qed.

Context (Hwrote : forall s key value, Q s -> Q (wrote key value s)).
Context (Hasked : forall s, Q s -> Q (asked s)).
Context (Htick : forall s, Q s -> Q (tick s)).

Lemma preserves_add_data key value : preserves Q (add_data key value).
Proof. intros env s H. by apply Hwrote. Qed.

Lemma preserves_now : preserves Q now.
Proof. intros env s H. by apply Htick. Qed.

Lemma preserves_http_get url args : preserves Q (http_get url args).
Proof.
  intros env s H. unfold http_get.
  destruct (requests_get env _ url args); by apply Hasked.
Qed.

Lemma preserves_get_raw_data self url : preserves Q (get_raw_data self url).
Proof.
  apply preserves_bind; [apply preserves_http_get | intros r].
  apply preserves_if; [apply (preserves_ret (PyDict [])) | apply preserves_lift].
Qed.

Lemma preserves_timeline_url window : preserves Q (timeline_url window).
Proof.
  apply preserves_bind; [apply preserves_now | intros t1].
  apply preserves_bind; [apply preserves_now | intros t2].
  apply preserves_bind; [apply preserves_lift | intros lo].
  apply preserves_bind; [apply preserves_lift | intros hi].
  apply preserves_ret.
Qed.

Lemma preserves_build_info_min self : preserves Q (build_info_min self).
Proof.
  apply preserves_bind; [apply preserves_timeline_url | intros url].
  apply preserves_get_raw_data.
Qed.

Lemma preserves_build_info_hour self : preserves Q (build_info_hour self).
Proof.
  apply preserves_bind; [apply preserves_timeline_url | intros url].
  apply preserves_get_raw_data.
Qed.

Lemma preserves_stats_queue info : preserves Q (stats_queue info).
Proof.
  apply preserves_bind; [apply preserves_lift | intros n].
  apply preserves_add_data.
Qed.

Lemma preserves_stats_builds i1 i2 : preserves Q (stats_builds i1 i2).
Proof.
  apply preserves_bind; [apply preserves_lift | intros n].
  apply preserves_bind; [apply preserves_add_data | intros _].
  apply preserves_bind; [apply preserves_lift | intros n'].
  apply preserves_add_data.
Qed.

Lemma preserves_stats_executors key info :
  preserves Q (stats_executors key info).
Proof.
  apply preserves_bind; [apply preserves_lift | intros total].
  apply preserves_bind; [apply preserves_add_data | intros _].
  apply preserves_bind; [apply preserves_lift | intros busy].
  apply preserves_bind; [apply preserves_add_data | intros _].
  apply preserves_bind; [apply preserves_lift | intros free].
  apply preserves_add_data.
Qed.

Lemma preserves_stats_nodes info : preserves Q (stats_nodes info).
Proof.
  apply preserves_bind; [apply preserves_lift | intros nodes_total].
  apply preserves_bind; [apply preserves_lift | intros nodes_offline].
  apply preserves_bind; [apply preserves_lift | intros n].
  apply preserves_bind; [apply preserves_add_data | intros _].
  apply preserves_bind; [apply preserves_add_data | intros _].
  apply preserves_bind; [apply preserves_lift | intros n'].
  apply preserves_add_data.
Qed.

Lemma preserves_stats_label jenkins label :
  preserves Q (stats_label jenkins label).
Proof.
  apply preserves_bind; [apply preserves_get_raw_data | intros info].
  apply preserves_bind; [apply preserves_lift | intros n].
  apply preserves_bind; [apply preserves_add_data | intros _].
  apply preserves_bind; [apply preserves_lift | intros n'].
  apply preserves_bind; [apply preserves_add_data | intros _].
  apply preserves_stats_executors.
Qed.

Lemma preserves_stats_labels opts jenkins :
  preserves Q (stats_labels opts jenkins).
Proof.
  apply preserves_bind; [apply preserves_lift | intros labels].
  apply preserves_if; [| apply (preserves_ret tt)].
  apply preserves_bind; [apply preserves_lift | intros ls].
  apply preserves_for_each. intros l. apply preserves_stats_label.
Qed.

Lemma preserves_stats_view jenkins view :
  preserves Q (stats_view jenkins view).
Proof.
  apply preserves_bind; [apply preserves_get_raw_data | intros info].
  apply preserves_bind; [apply preserves_lift | intros jobs].
  apply preserves_bind; [apply preserves_lift | intros ok].
  apply preserves_bind; [apply preserves_lift | intros fail].
  apply preserves_bind; [apply preserves_lift | intros warn].
  apply preserves_bind; [apply preserves_lift | intros n].
  apply preserves_bind; [apply preserves_add_data | intros _].
  apply preserves_bind; [apply preserves_add_data | intros _].
  apply preserves_bind; [apply preserves_add_data | intros _].
  apply preserves_add_data.
Qed.

Lemma preserves_stats_jobs opts jenkins :
  preserves Q (stats_jobs opts jenkins).
Proof.
  apply preserves_bind; [apply preserves_lift | intros jobs].
  apply preserves_if; [| apply (preserves_ret tt)].
  apply preserves_bind; [apply preserves_lift | intros view].
  apply preserves_stats_view.
Qed.
End Preserves.

Lemma raised_or_bind {A B : Type} (Q R : Sys -> Prop) (m : M A)
    (f : A -> M B) env s :
  preserves Q m ->
  (forall a s1, Q s1 -> raised_or Q R (f a env s1)) ->
  Q s -> raised_or Q R ((m ≫= f) env s).
Proof.
  intros Hm Hf H. specialize (Hm env s H).
  unfold mbind, M_bind, bind.
  destruct (m env s) as [[a|e] s1]; simpl in *; [by apply Hf | done].
Qed.

(** ** Sending *)

Lemma payload_run env s :
  _data_as_msg env s
    = (Ok (payload (graphite s) (time_time env (clock_calls (world s)))),
       tick s).
Proof.
  rewrite data_as_msg_run. f_equal. f_equal. unfold payload.
  by rewrite (foldl_lines
                (fun kv => line kv.1 kv.2 (time_time env (clock_calls (world s))))).
Qed.

Lemma send_cases (env : Env) (s : Sys) :
  let g := graphite s in
  let msg := payload g (time_time env (clock_calls (world s))) in
  exists (b : bool) (s' : Sys),
    send env s = (Ok b, s')
    /\ graphite s' = g
    /\ http_calls (world s') = http_calls (world s)
    /\ clock_calls (world s') = S (clock_calls (world s))
    /\ (b = true <-> write_succeeds env g msg /\ socket_close env = None)
    /\ (write_succeeds env g msg ->
        wire (world s') = (wire (world s) ++ [(server g, port g, msg)])%list)
    /\ (~ write_succeeds env g msg -> wire (world s') = wire (world s)).
Proof.
  intros g msg. unfold write_succeeds.
  unfold send, try_except, mbind, M_bind, bind. rewrite payload_run.
  fold g msg. unfold self_graphite, new_socket, connect, close, sendall, call.
  simpl. fold g.
  destruct (socket_socket env) as [e1|] eqn:E1; simpl.
  { exists false, (tick s). repeat split; try done; intuition congruence. }
  destruct (socket_connect env (server g) (port g)) as [e2|] eqn:E2; simpl.
  { exists false, (tick s). repeat split; try done; intuition congruence. }
  destruct (socket_sendall env (server g) (port g) msg) as [e3|] eqn:E3; simpl.
  { exists false, (tick s). repeat split; try done; intuition congruence. }
  destruct (socket_close env) as [e4|] eqn:E4; simpl.
  - eexists false, _. repeat split; try done; intuition congruence.
  - eexists true, _. repeat split; try done; intuition congruence.
Qed.

(** X1. [send] never raises.  It reads the clock once, makes no request
    and leaves the sink as it is; it answers [True] exactly when the four
    socket calls return normally; and the payload, the rendering of the
    whole batch with that one reading, goes out exactly when the socket
    is created and [connect] and [sendall] return normally, also when
    [close] then raises and the answer is [False]. *)
Theorem send_outcomes (env : Env) (s : Sys) :
  let g := graphite s in
  let msg := payload g (time_time env (clock_calls (world s))) in
  exists (b : bool) (s' : Sys),
    send env s = (Ok b, s')
    /\ graphite s' = g
    /\ http_calls (world s') = http_calls (world s)
    /\ clock_calls (world s') = S (clock_calls (world s))
    /\ (b = true <-> write_succeeds env g msg /\ socket_close env = None)
    /\ (write_succeeds env g msg ->
        wire (world s') = (wire (world s) ++ [(server g, port g, msg)])%list)
    /\ (~ write_succeeds env g msg -> wire (world s') = wire (world s)).
Proof. apply send_cases. Qed.

(** ** The pass and the collector *)

Section PassOutcome.
Context (Q : Sys -> Prop).
Context (Hwrote : forall s key value, Q s -> Q (wrote key value s)).
Context (Hasked : forall s, Q s -> Q (asked s)).
Context (Htick : forall s, Q s -> Q (tick s)).

(** A property that writes, requests and clock readings keep holds when
    the pass raises, and holds just before the [send] of a pass that
    completes. *)
Lemma pass_raised_or opts jenkins env s :
  Q s ->
  raised_or Q (fun s' => exists s10 b, Q s10 /\ send env s10 = (Ok b, s'))
    (gather_and_send_stats opts jenkins env s).
Proof.
  unfold gather_and_send_stats. intros H.
  apply raised_or_bind; [by apply preserves_get_raw_data | intros info s1 H1 | done].
  apply raised_or_bind; [by apply preserves_get_raw_data | intros qi s2 H2 | done].
  apply raised_or_bind; [by apply preserves_build_info_min | intros bm s3 H3 | done].
  apply raised_or_bind; [by apply preserves_build_info_hour | intros bh s4 H4 | done].
  apply raised_or_bind; [by apply preserves_stats_queue | intros [] s5 H5 | done].
  apply raised_or_bind; [by apply preserves_stats_builds | intros [] s6 H6 | done].
  apply raised_or_bind; [by apply preserves_stats_executors | intros [] s7 H7 | done].
  apply raised_or_bind; [by apply preserves_stats_nodes | intros [] s8 H8 | done].
  apply raised_or_bind; [by apply preserves_stats_labels | intros [] s9 H9 | done].
  apply raised_or_bind; [by apply preserves_stats_jobs | intros [] s10 H10 | done].
  destruct (send_cases env s10) as (b & s' & Hs & _).
  unfold raised_or, mbind, M_bind, bind. rewrite Hs. simpl. by exists s10, b.
Qed.
End PassOutcome.

Lemma wire_kept_before_send opts jenkins env s :
  raised_or (fun t => wire (world t) = wire (world s))
    (fun s' => exists s10 b,
       wire (world s10) = wire (world s) /\ send env s10 = (Ok b, s'))
    (gather_and_send_stats opts jenkins env s).
Proof.
  by apply (pass_raised_or (fun t => wire (world t) = wire (world s))).
Qed.

(** X2. A pass that raises has sent nothing: whatever the step that
    failed, no packet has gone to the collector. *)
Theorem failed_pass_sends_nothing
    (opts : list (string * PyValue)) (jenkins : JenkinsServer) (env : Env)
    (s s' : Sys) (e : PyExc) :
  gather_and_send_stats opts jenkins env s = (Raise e, s') ->
  wire (world s') = wire (world s).
Proof.
  intros Hrun. pose proof (wire_kept_before_send opts jenkins env s) as H.
  unfold raised_or in H. by rewrite Hrun in H.
Qed.

Lemma failed_pass_sends_nothing_witness :
  gather_and_send_stats no_options sample_jenkins
    (sample_env no_jenkins None) sample_sys
    = (Raise ConnectionError, asked sample_sys)
  /\ wire (world (asked sample_sys)) = wire (world sample_sys).
Proof.
  split; [reflexivity|].
  apply (failed_pass_sends_nothing no_options sample_jenkins
           (sample_env no_jenkins None) sample_sys (asked sample_sys)
           ConnectionError).
  reflexivity.
Defined.

(** X3. A pass that completes has made one attempt to send, at its end,
    and completes whether or not the attempt succeeded: when the socket is
    created and [connect] and [sendall] return normally, exactly one packet
    has gone out, to the configured server and port, and it is the
    rendering of the whole final batch with the last clock reading;
    otherwise nothing has gone out. *)
Theorem completed_pass_sends_final_batch_once
    (opts : list (string * PyValue)) (jenkins : JenkinsServer) (env : Env)
    (s s' : Sys) :
  gather_and_send_stats opts jenkins env s = (Ok tt, s') ->
  let g' := graphite s' in
  let msg := payload g' (time_time env (Nat.pred (clock_calls (world s')))) in
  (write_succeeds env g' msg ->
     wire (world s') = (wire (world s) ++ [(server g', port g', msg)])%list)
  /\ (~ write_succeeds env g' msg -> wire (world s') = wire (world s)).
Proof.
  intros Hrun g' msg.
  pose proof (wire_kept_before_send opts jenkins env s) as H.
  unfold raised_or in H. rewrite Hrun in H. simpl in H.
  destruct H as (s10 & b & Hw & Hsend).
  destruct (send_cases env s10)
    as (b' & s'' & Hsend' & Hg & _ & Hc & _ & Hyes & Hno).
  rewrite Hsend in Hsend'. injection Hsend' as <- <-.
  subst g' msg. rewrite Hc. simpl. rewrite Hg, <- Hw. by split.
Qed.

Lemma completed_pass_sends_final_batch_once_witness :
  exists s' msg,
    gather_and_send_stats no_options sample_jenkins
      (sample_env (scenario_jenkins scenario_executors) None) sample_sys
      = (Ok tt, s')
    /\ wire (world s') = [("graphite.example.com", 2003, msg)].
Proof.
  eexists _, _. split; [by vm_compute|].
  apply (completed_pass_sends_final_batch_once no_options sample_jenkins
           (sample_env (scenario_jenkins scenario_executors) None) sample_sys).
  - by vm_compute.
  - by vm_compute.
Defined.

(** ** Requests and clock readings *)

Lemma pass_steps opts jenkins env s s' :
  gather_and_send_stats opts jenkins env s = (Ok tt, s') ->
  exists info qi bm bh s1 s2 s3 s4 s5 s6 s7 s8 s9 s10 b,
    get_data jenkins "computer" env s = (Ok info, s1)
    /\ get_data jenkins "queue" env s1 = (Ok qi, s2)
    /\ build_info_min jenkins env s2 = (Ok bm, s3)
    /\ build_info_hour jenkins env s3 = (Ok bh, s4)
    /\ stats_queue qi env s4 = (Ok tt, s5)
    /\ stats_builds bm bh env s5 = (Ok tt, s6)
    /\ stats_executors (fun k => "executors." +:+ k) info env s6 = (Ok tt, s7)
    /\ stats_nodes info env s7 = (Ok tt, s8)
    /\ stats_labels opts jenkins env s8 = (Ok tt, s9)
    /\ stats_jobs opts jenkins env s9 = (Ok tt, s10)
    /\ send env s10 = (Ok b, s').
Proof.
  unfold gather_and_send_stats. intros H.
  apply bind_inv_Ok in H as (info & s1 & H1 & H).
  apply bind_inv_Ok in H as (qi & s2 & H2 & H).
  apply bind_inv_Ok in H as (bm & s3 & H3 & H).
  apply bind_inv_Ok in H as (bh & s4 & H4 & H).
  apply bind_inv_Ok in H as ([] & s5 & H5 & H).
  apply bind_inv_Ok in H as ([] & s6 & H6 & H).
  apply bind_inv_Ok in H as ([] & s7 & H7 & H).
  apply bind_inv_Ok in H as ([] & s8 & H8 & H).
  apply bind_inv_Ok in H as ([] & s9 & H9 & H).
  apply bind_inv_Ok in H as ([] & s10 & H10 & H).
  apply bind_inv_Ok in H as (b & s11 & H11 & H).
  injection H as <-.
  exists info, qi, bm, bh, s1, s2, s3, s4, s5, s6, s7, s8, s9, s10, b.
  by repeat split.
Qed.

Lemma get_raw_data_state self url env s :
  (get_raw_data self url env s).2 = asked s.
Proof.
  unfold get_raw_data, mbind, M_bind, bind, http_get.
  destruct (requests_get env _ _ _) as [e|r]; [done|].
  by destruct (negb _); [|unfold lift].
Qed.

Lemma timeline_url_state window env s :
  (timeline_url window env s).2 = tick (tick s).
Proof.
  unfold timeline_url, mbind, M_bind, bind, now, lift. simpl.
  destruct (format_d _) as [lo|e]; [|done].
  by destruct (format_d _) as [hi|e].
Qed.

Lemma build_info_state window self env s r s' :
  (url ← timeline_url window; get_raw_data self url) env s = (r, s') ->
  wire (world s') = wire (world s)
  /\ graphite s' = graphite s
  /\ clock_calls (world s') = S (S (clock_calls (world s)))
  /\ (http_calls (world s') <= S (http_calls (world s)))%nat
  /\ (forall v, r = Ok v -> http_calls (world s') = S (http_calls (world s))).
Proof.
  unfold mbind, M_bind, bind.
  pose proof (timeline_url_state window env s) as Ht.
  destruct (timeline_url window env s) as [[url|e] s1]; simpl in Ht; subst s1.
  - pose proof (get_raw_data_state self url env (tick (tick s))) as Hg.
    destruct (get_raw_data self url env (tick (tick s))) as [r' s2].
    simpl in Hg. subst s2. intros [= <- <-]. simpl. repeat split; lia.
  - intros [= <- <-]. simpl. repeat split; [lia | done].
Qed.

(** The steps that only compute and write leave the world as it is. *)
Lemma stats_world {A : Type} (m : M A) env s :
  preserves (fun t => world t = world s) m -> world (m env s).2 = world s.
Proof. intros H. by apply H. Qed.

Lemma stats_queue_world info env s :
  world (stats_queue info env s).2 = world s.
Proof. apply stats_world, preserves_stats_queue. by intros. Qed.

Lemma stats_builds_world i1 i2 env s :
  world (stats_builds i1 i2 env s).2 = world s.
Proof. apply stats_world, preserves_stats_builds. by intros. Qed.

Lemma stats_executors_world key info env s :
  world (stats_executors key info env s).2 = world s.
Proof. apply stats_world, preserves_stats_executors. by intros. Qed.

Lemma stats_nodes_world info env s :
  world (stats_nodes info env s).2 = world s.
Proof. apply stats_world, preserves_stats_nodes. by intros. Qed.

Lemma after_fetch_world {A : Type} self url (f : PyValue -> M A) env s :
  (forall v, preserves (fun t => world t = world (asked s)) (f v)) ->
  world ((get_data self url ≫= f) env s).2 = world (asked s).
Proof.
  intros Hf. unfold mbind, M_bind, bind, get_data.
  pose proof (get_raw_data_state self (url +:+ "/api/python") env s) as Hg.
  destruct (get_raw_data _ _ env s) as [[v|e] s1]; simpl in Hg; subst s1.
  - by apply Hf.
  - done.
Qed.

Lemma stats_label_world jenkins label env s :
  world (stats_label jenkins label env s).2 = world (asked s).
Proof.
  unfold stats_label. apply after_fetch_world. intros info.
  apply preserves_bind; [apply preserves_lift | intros n].
  apply preserves_bind; [by apply preserves_add_data | intros _].
  apply preserves_bind; [apply preserves_lift | intros n'].
  apply preserves_bind; [by apply preserves_add_data | intros _].
  by apply preserves_stats_executors.
Qed.

Lemma stats_view_world jenkins view env s :
  world (stats_view jenkins view env s).2 = world (asked s).
Proof.
  unfold stats_view. apply after_fetch_world. intros info.
  apply preserves_bind; [apply preserves_lift | intros jobs].
  apply preserves_bind; [apply preserves_lift | intros ok].
  apply preserves_bind; [apply preserves_lift | intros fail].
  apply preserves_bind; [apply preserves_lift | intros warn].
  apply preserves_bind; [apply preserves_lift | intros n].
  apply preserves_bind; [by apply preserves_add_data | intros _].
  apply preserves_bind; [by apply preserves_add_data | intros _].
  apply preserves_bind; [by apply preserves_add_data | intros _].
  by apply preserves_add_data.
Qed.

Lemma for_each_label_world jenkins ls env s s' :
  for_each ls (stats_label jenkins) env s = (Ok tt, s') ->
  http_calls (world s') = (http_calls (world s) + length ls)%nat
  /\ clock_calls (world s') = clock_calls (world s)
  /\ wire (world s') = wire (world s).
Proof.
  revert s. induction ls as [|l ls IH]; simpl; intros s H.
  - injection H as <-. repeat split; lia.
  - apply bind_inv_Ok in H as ([] & s1 & H1 & H).
    pose proof (stats_label_world jenkins l env s) as Hw.
    rewrite H1 in Hw. simpl in Hw.
    destruct (IH s1 H) as (Hh & Hc & Hwi). rewrite Hh, Hc, Hwi, Hw. simpl.
    repeat split; lia.
Qed.

Lemma stats_labels_world opts jenkins env s s' :
  stats_labels opts jenkins env s = (Ok tt, s') ->
  http_calls (world s')
    = (http_calls (world s) + length (configured_labels opts))%nat
  /\ clock_calls (world s') = clock_calls (world s).
Proof.
  unfold stats_labels, configured_labels, mbind, M_bind, bind, lift.
  destruct (py_getitem opts "--labels") as [labels|e]; simpl; [|done].
  destruct (py_bool labels).
  - destruct (py_iter labels) as [ls|e]; simpl; [|done].
    intros H. apply for_each_label_world in H as (Hh & Hc & _). by split.
  - intros [= <-]. simpl. split; [lia | done].
Qed.

Lemma stats_jobs_world opts jenkins env s s' :
  stats_jobs opts jenkins env s = (Ok tt, s') ->
  http_calls (world s')
    = (http_calls (world s) + (if jobs_configured opts then 1 else 0))%nat
  /\ clock_calls (world s') = clock_calls (world s).
Proof.
  unfold stats_jobs, jobs_configured, mbind, M_bind, bind, lift.
  destruct (py_getitem opts "--jobs") as [jobs|e]; simpl; [|done].
  destruct (py_bool jobs).
  - intros H. pose proof (stats_view_world jenkins jobs env s) as Hw.
    rewrite H in Hw. simpl in Hw. rewrite Hw. simpl. split; lia.
  - intros [= <-]. simpl. split; [lia | done].
Qed.

(** X4. A pass that completes has made four requests, one more for each
    configured label and one more when a job view is configured, and has
    read the clock five times: twice for each of the two timeline
    addresses and once for the timestamp of the payload. *)
Theorem completed_pass_requests_and_clock_readings
    (opts : list (string * PyValue)) (jenkins : JenkinsServer) (env : Env)
    (s s' : Sys) :
  gather_and_send_stats opts jenkins env s = (Ok tt, s') ->
  http_calls (world s')
    = (http_calls (world s) + 4 + length (configured_labels opts)
       + (if jobs_configured opts then 1 else 0))%nat
  /\ clock_calls (world s') = (clock_calls (world s) + 5)%nat.
Proof.
  intros H.
  apply pass_steps in H
    as (info & qi & bm & bh & s1 & s2 & s3 & s4 & s5 & s6 & s7 & s8 & s9 & s10
        & b & H1 & H2 & H3 & H4 & H5 & H6 & H7 & H8 & H9 & H10 & H11).
  pose proof (get_raw_data_state jenkins ("computer" +:+ "/api/python") env s)
    as E1. unfold get_data in H1. rewrite H1 in E1. simpl in E1.
  pose proof (get_raw_data_state jenkins ("queue" +:+ "/api/python") env s1)
    as E2. unfold get_data in H2. rewrite H2 in E2. simpl in E2.
  destruct (build_info_state 60 jenkins env s2 _ _ H3) as (_ & _ & C3 & _ & E3).
  destruct (build_info_state 3600 jenkins env s3 _ _ H4) as (_ & _ & C4 & _ & E4).
  specialize (E3 bm eq_refl). specialize (E4 bh eq_refl).
  pose proof (stats_queue_world qi env s4) as E5. rewrite H5 in E5.
  pose proof (stats_builds_world bm bh env s5) as E6. rewrite H6 in E6.
  pose proof (stats_executors_world (fun k => "executors." +:+ k) info env s6)
    as E7. rewrite H7 in E7.
  pose proof (stats_nodes_world info env s7) as E8. rewrite H8 in E8.
  simpl in E5, E6, E7, E8.
  destruct (stats_labels_world _ _ _ _ _ H9) as (E9 & C9).
  destruct (stats_jobs_world _ _ _ _ _ H10) as (E10 & C10).
  destruct (send_cases env s10) as (b' & s'' & Hs & _ & E11 & C11 & _).
  rewrite H11 in Hs. injection Hs as <- <-.
  rewrite E11, E10, E9, C11, C10, C9, E8, E7, E6, E5, E4, C4, E3, C3, E2, E1.
  simpl. split; lia.
Qed.

Lemma completed_pass_requests_and_clock_readings_witness :
  http_calls (world (gather_and_send_stats jobs_options sample_jenkins
      (sample_env (scenario_jenkins scenario_executors) None) sample_sys).2)
    = 5%nat
  /\ clock_calls (world (gather_and_send_stats jobs_options sample_jenkins
        (sample_env (scenario_jenkins scenario_executors) None) sample_sys).2)
      = 5%nat.
Proof.
  apply (completed_pass_requests_and_clock_readings jobs_options sample_jenkins
           (sample_env (scenario_jenkins scenario_executors) None) sample_sys).
  by vm_compute.
Defined.

(** ** The options of the pass *)

Lemma py_getitem_find (d : list (string * PyValue)) (key : string) :
  py_getitem d key
    = match dict_find d key with Some v => Ok v | None => Raise KeyError end.
Proof.
  induction d as [|[k v] d IH]; simpl; [done|]. by destruct (String.eqb k key).
Qed.

(** X5. The pass reads both [opts['--labels']] and [opts['--jobs']] by
    subscript, so with an options dictionary that lacks one of the two keys
    it never completes, and it sends nothing. *)
Theorem pass_needs_both_option_keys
    (opts : list (string * PyValue)) (jenkins : JenkinsServer) (env : Env)
    (s : Sys) :
  dict_find opts "--labels" = None \/ dict_find opts "--jobs" = None ->
  exists e s',
    gather_and_send_stats opts jenkins env s = (Raise e, s')
    /\ wire (world s') = wire (world s).
Proof.
  intros Hmiss.
  pose proof (wire_kept_before_send opts jenkins env s) as Hw.
  destruct (gather_and_send_stats opts jenkins env s) as [[[]|e] s'] eqn:Hrun.
  - exfalso.
    apply pass_steps in Hrun
      as (info & qi & bm & bh & s1 & s2 & s3 & s4 & s5 & s6 & s7 & s8 & s9
          & s10 & b & _ & _ & _ & _ & _ & _ & _ & _ & H9 & H10 & _).
    unfold stats_labels, stats_jobs, mbind, M_bind, bind, lift in H9, H10.
    rewrite py_getitem_find in H9. rewrite py_getitem_find in H10.
    destruct Hmiss as [Hm | Hm]; rewrite Hm in *; discriminate.
  - by exists e, s'.
Qed.

Lemma pass_needs_both_option_keys_witness :
  exists e s',
    gather_and_send_stats [("--label", PyList []); ("--jobs", PyNone)]
      sample_jenkins
      (sample_env (scenario_jenkins scenario_executors) None) sample_sys
      = (Raise e, s')
    /\ wire (world s') = wire (world sample_sys).
Proof.
  apply (pass_needs_both_option_keys
           [("--label", PyList []); ("--jobs", PyNone)] sample_jenkins
           (sample_env (scenario_jenkins scenario_executors) None) sample_sys).
  left. reflexivity.
Defined.

(** ** The server-wide counters *)

Lemma fetches_keep_sink jenkins env s s1 s2 s3 s4 v1 v2 v3 v4 :
  get_data jenkins "computer" env s = (Ok v1, s1) ->
  get_data jenkins "queue" env s1 = (Ok v2, s2) ->
  build_info_min jenkins env s2 = (Ok v3, s3) ->
  build_info_hour jenkins env s3 = (Ok v4, s4) ->
  graphite s4 = graphite s /\ wire (world s4) = wire (world s).
Proof.
  intros H1 H2 H3 H4.
  pose proof (get_raw_data_state jenkins ("computer" +:+ "/api/python") env s)
    as E1. unfold get_data in H1. rewrite H1 in E1. simpl in E1.
  pose proof (get_raw_data_state jenkins ("queue" +:+ "/api/python") env s1)
    as E2. unfold get_data in H2. rewrite H2 in E2. simpl in E2.
  destruct (build_info_state 60 jenkins env s2 _ _ H3) as (W3 & G3 & _).
  destruct (build_info_state 3600 jenkins env s3 _ _ H4) as (W4 & G4 & _).
  rewrite G4, G3, W4, W3, E2, E1. by split.
Qed.

Lemma written_metric l g key :
  metric (written l g) key = metric g key.
Proof.
  revert g. induction l as [|kv l IH]; intros g; simpl; [done|].
  by rewrite IH.
Qed.

Lemma written_other l g name :
  name ∉ (metric g <$> l.*1) ->
  data (written l g) !! name = data g !! name.
Proof.
  revert g. induction l as [|[k z] l IH]; intros g Hn; simpl; [done|].
  simpl in Hn. apply not_elem_of_cons in Hn as [Hne Hn].
  rewrite IH; [by apply lookup_insert_ne|]. exact Hn.
Qed.

(** With no label and no job view, records with plain fields take the
    pass to its end, and the sink holds the nine counters on top of what it
    had. *)
Lemma pass_plain_records
    opts jenkins env s s1 s2 s3 s4 de dq dm dh items evm evh t b ns labels jobs :
  py_getitem opts "--labels" = Ok labels -> py_bool labels = false ->
  py_getitem opts "--jobs" = Ok jobs -> py_bool jobs = false ->
  get_data jenkins "computer" env s = (Ok (PyDict de), s1) ->
  get_data jenkins "queue" env s1 = (Ok (PyDict dq), s2) ->
  build_info_min jenkins env s2 = (Ok (PyDict dm), s3) ->
  build_info_hour jenkins env s3 = (Ok (PyDict dh), s4) ->
  dict_get dq "items" (PyList []) = PyList items ->
  dict_get dm "events" (PyList []) = PyList evm ->
  dict_get dh "events" (PyList []) = PyList evh ->
  dict_get de "totalExecutors" (PyInt 0) = PyInt t ->
  dict_get de "busyExecutors" (PyInt 0) = PyInt b ->
  dict_get de "computer" (PyList []) = PyList ns ->
  Forall (fun j => is_dict j = true) ns ->
  exists s',
    gather_and_send_stats opts jenkins env s = (Ok tt, s')
    /\ graphite s'
         = written (derived_counters items evm evh t b ns) (graphite s).
Proof.
  intros Hl Hlf Hj Hjf H1 H2 H3 H4 Hi Hm Hh Ht Hb Hc Hns.
  destruct (fetches_keep_sink _ _ _ _ _ _ _ _ _ _ _ H1 H2 H3 H4) as [Hg _].
  unfold gather_and_send_stats.
  rewrite (bind_Ok _ _ _ _ _ _ H1), (bind_Ok _ _ _ _ _ _ H2),
          (bind_Ok _ _ _ _ _ _ H3), (bind_Ok _ _ _ _ _ _ H4).
  unfold stats_queue, stats_builds, stats_labels, stats_jobs.
  unfold mbind at 1 2 3 4 5 6, M_bind at 1 2 3 4 5 6,
         bind at 1 2 3 4 5 6, result_bind, lift. simpl.
  rewrite Hi, Hm, Hh. simpl.
  rewrite (stats_executors_run _ de t b _ _ Ht Hb).
  rewrite (stats_nodes_run de ns _ _ Hc Hns).
  unfold mbind, M_bind, bind, lift. rewrite Hl, Hlf, Hj, Hjf. simpl.
  match goal with |- context [send env ?s8] =>
    destruct (send_cases env s8) as (r & s' & Hsend & Hsink & _);
    rewrite Hsend
  end.
  exists s'. split; [done|]. rewrite Hsink. simpl. by rewrite Hg.
Qed.

Lemma written_emitted_other l g k :
  k ∉ l.*1 -> emitted (written l g) k = emitted g k.
Proof.
  intros Hk. unfold emitted. rewrite written_metric. apply written_other.
  intros Hin. apply Hk. apply list_elem_of_fmap in Hin as (k' & Heq & Hin).
  apply metric_inj in Heq. by subst k'.
Qed.

Lemma written_emitted l g k z :
  NoDup l.*1 -> (k, z) ∈ l -> emitted (written l g) k = Some (PyInt z).
Proof.
  revert g. induction l as [|[k0 z0] l IH]; intros g Hnd Hin.
  - by apply elem_of_nil in Hin.
  - simpl in Hnd. apply NoDup_cons in Hnd as [Hk0 Hnd].
    apply elem_of_cons in Hin as [[= -> ->] | Hin]; simpl.
    + rewrite written_emitted_other by done. apply emitted_put_eq.
    + by apply IH.
Qed.

Lemma derived_counters_keys items evm evh t b ns :
  (derived_counters items evm evh t b ns).*1 = server_counter_keys.
Proof. reflexivity. Qed.

Lemma server_counter_keys_distinct : NoDup server_counter_keys.
Proof. apply (bool_decide_unpack _). by vm_compute. Qed.

(** X6. With no label and no job view configured, and the four fetches
    returning dictionaries whose [items], [events] and [computer] fields
    (empty when absent) are lists, the computers being dictionaries, and
    whose executor counters (0 when absent) are integers, the pass
    completes; the batch then holds the nine server-wide counters: the
    three lengths, the two executor counters and their difference, the
    number of computers, of offline ones and their difference; and every
    other name of the batch has the value it had before. *)
Theorem plain_records_give_the_nine_counters
    (opts : list (string * PyValue)) (jenkins : JenkinsServer) (env : Env)
    (s s1 s2 s3 s4 : Sys) (de dq dm dh : list (string * PyValue))
    (items evm evh ns : list PyValue) (t b : Z) (labels jobs : PyValue) :
  py_getitem opts "--labels" = Ok labels -> py_bool labels = false ->
  py_getitem opts "--jobs" = Ok jobs -> py_bool jobs = false ->
  get_data jenkins "computer" env s = (Ok (PyDict de), s1) ->
  get_data jenkins "queue" env s1 = (Ok (PyDict dq), s2) ->
  build_info_min jenkins env s2 = (Ok (PyDict dm), s3) ->
  build_info_hour jenkins env s3 = (Ok (PyDict dh), s4) ->
  dict_get dq "items" (PyList []) = PyList items ->
  dict_get dm "events" (PyList []) = PyList evm ->
  dict_get dh "events" (PyList []) = PyList evh ->
  dict_get de "totalExecutors" (PyInt 0) = PyInt t ->
  dict_get de "busyExecutors" (PyInt 0) = PyInt b ->
  dict_get de "computer" (PyList []) = PyList ns ->
  Forall (fun j => is_dict j = true) ns ->
  exists s',
    gather_and_send_stats opts jenkins env s = (Ok tt, s')
    /\ Forall (fun kv => emitted (graphite s') kv.1 = Some (PyInt kv.2))
         (derived_counters items evm evh t b ns)
    /\ (forall name,
          name ∉ (metric (graphite s) <$> server_counter_keys) ->
          data (graphite s') !! name = data (graphite s) !! name).
Proof.
  intros Hl Hlf Hj Hjf H1 H2 H3 H4 Hi Hm Hh Ht Hb Hc Hns.
  destruct (pass_plain_records opts jenkins env s s1 s2 s3 s4 de dq dm dh
              items evm evh t b ns labels jobs)
    as (s' & Hrun & Hg); try done.
  exists s'. split; [done|]. rewrite Hg. split.
  - apply Forall_forall. intros [k z] Hin.
    apply (written_emitted (derived_counters items evm evh t b ns) _ k z);
      [|done].
    rewrite derived_counters_keys. apply server_counter_keys_distinct.
  - intros name Hn. apply written_other. by rewrite derived_counters_keys.
Qed.

Lemma plain_records_give_the_nine_counters_witness :
  exists s',
    gather_and_send_stats no_options sample_jenkins
      (sample_env (scenario_jenkins scenario_executors) None) sample_sys
      = (Ok tt, s')
    /\ emitted (graphite s') "executors.free" = Some (PyInt 3).
Proof.
  destruct (plain_records_give_the_nine_counters no_options sample_jenkins
              (sample_env (scenario_jenkins scenario_executors) None)
              sample_sys
              (mkSys sample_sink (mkWorld 1 0 []))
              (mkSys sample_sink (mkWorld 2 0 []))
              (mkSys sample_sink (mkWorld 3 2 []))
              (mkSys sample_sink (mkWorld 4 4 []))
              scenario_executors
              [("items", PyList [PyStr "a"; PyStr "b"])]
              [("events", PyList [])] [("events", PyList [])]
              [PyStr "a"; PyStr "b"] [] []
              [PyDict [("offline", PyBool false)];
               PyDict [("offline", PyBool true)]]
              5 2 (PyList []) PyNone)
    as (s' & Hrun & Hall & _).
  - reflexivity.
  - reflexivity.
  - reflexivity.
  - reflexivity.
  - reflexivity.
  - reflexivity.
  - by vm_compute.
  - by vm_compute.
  - reflexivity.
  - reflexivity.
  - reflexivity.
  - reflexivity.
  - reflexivity.
  - reflexivity.
  - by repeat constructor.
  - exists s'. split; [exact Hrun|].
    apply Forall_forall with (x := ("executors.free", 3)) in Hall; [exact Hall|].
    by repeat constructor.
Defined.

(** X7. Missing fields count as zero: with no label and no job view
    configured, when the four fetches return dictionaries that have none
    of the fields read (as the empty record of an answer with a status
    other than 200), the pass completes and each of the nine server-wide
    counters is 0. *)
Theorem missing_fields_count_as_zero
    (opts : list (string * PyValue)) (jenkins : JenkinsServer) (env : Env)
    (s s1 s2 s3 s4 : Sys) (de dq dm dh : list (string * PyValue))
    (labels jobs : PyValue) :
  py_getitem opts "--labels" = Ok labels -> py_bool labels = false ->
  py_getitem opts "--jobs" = Ok jobs -> py_bool jobs = false ->
  get_data jenkins "computer" env s = (Ok (PyDict de), s1) ->
  get_data jenkins "queue" env s1 = (Ok (PyDict dq), s2) ->
  build_info_min jenkins env s2 = (Ok (PyDict dm), s3) ->
  build_info_hour jenkins env s3 = (Ok (PyDict dh), s4) ->
  dict_find dq "items" = None ->
  dict_find dm "events" = None ->
  dict_find dh "events" = None ->
  dict_find de "totalExecutors" = None ->
  dict_find de "busyExecutors" = None ->
  dict_find de "computer" = None ->
  exists s',
    gather_and_send_stats opts jenkins env s = (Ok tt, s')
    /\ Forall (fun key => emitted (graphite s') key = Some (PyInt 0))
         server_counter_keys.
Proof.
  intros Hl Hlf Hj Hjf H1 H2 H3 H4 Hi Hm Hh Ht Hb Hc.
  destruct (pass_plain_records opts jenkins env s s1 s2 s3 s4 de dq dm dh
              [] [] [] 0 0 [] labels jobs)
    as (s' & Hrun & Hg); try done;
    try (rewrite dict_get_find;
         first [by rewrite Hi | by rewrite Hm | by rewrite Hh
               | by rewrite Ht | by rewrite Hb | by rewrite Hc]).
  exists s'. split; [done|]. rewrite Hg.
  apply Forall_forall. intros key Hin.
  apply (written_emitted (derived_counters [] [] [] 0 0 [])).
  - rewrite derived_counters_keys. apply server_counter_keys_distinct.
  - unfold server_counter_keys in Hin. unfold derived_counters.
    repeat (apply elem_of_cons in Hin as [-> | Hin];
            [by repeat constructor |]).
    by apply elem_of_nil in Hin.
Qed.

Lemma missing_fields_count_as_zero_witness :
  exists s',
    gather_and_send_stats no_options sample_jenkins
      (sample_env (constant_jenkins 503 PyNone) None) sample_sys
      = (Ok tt, s')
    /\ Forall (fun key => emitted (graphite s') key = Some (PyInt 0))
         server_counter_keys.
Proof.
  apply (missing_fields_count_as_zero no_options sample_jenkins
           (sample_env (constant_jenkins 503 PyNone) None) sample_sys
           (mkSys sample_sink (mkWorld 1 0 []))
           (mkSys sample_sink (mkWorld 2 0 []))
           (mkSys sample_sink (mkWorld 3 2 []))
           (mkSys sample_sink (mkWorld 4 4 []))
           [] [] [] [] (PyList []) PyNone).
  - reflexivity.
  - reflexivity.
  - reflexivity.
  - reflexivity.
  - reflexivity.
  - reflexivity.
  - by vm_compute.
  - by vm_compute.
  - reflexivity.
  - reflexivity.
  - reflexivity.
  - reflexivity.
  - reflexivity.
  - reflexivity.
Defined.

(** ** Queue and build counters in a pass with labels and jobs *)

Lemma step_keeps {A : Type} (P : GraphiteServer -> Prop) (m : M A) env s r s' :
  keeps P m -> m env s = (r, s') -> P (graphite s) -> P (graphite s').
Proof.
  intros Hk Hrun Hs. specialize (Hk env s Hs). unfold sink_after in Hk.
  by rewrite Hrun in Hk.
Qed.

(** An entry outside the executor, node, label and job families is still
    in the batch at the end of a pass that has passed the build counters. *)
Lemma kept_after_builds family p k v opts jenkins env info
    s6 s7 s8 s9 s10 s' (b : bool) :
  String.prefix family k = true ->
  (forall x, String.prefix family ("executors." +:+ x) = false) ->
  (forall x, String.prefix family ("nodes." +:+ x) = false) ->
  (forall x, String.prefix family ("labels." +:+ x) = false) ->
  (forall x, String.prefix family ("jobs." +:+ x) = false) ->
  stats_executors (fun x => "executors." +:+ x) info env s6 = (Ok tt, s7) ->
  stats_nodes info env s7 = (Ok tt, s8) ->
  stats_labels opts jenkins env s8 = (Ok tt, s9) ->
  stats_jobs opts jenkins env s9 = (Ok tt, s10) ->
  send env s10 = (Ok b, s') ->
  has_entry p k v (graphite s6) -> has_entry p k v (graphite s').
Proof.
  intros Hk He Hn Hl Hj H7 H8 H9 H10 H11 H.
  set (K := fun key => String.prefix family key = false).
  assert (HP : forall key value, K key ->
            keeps (has_entry p k v) (add_data key value))
    by (intros key value HK; by apply (keeps_entry_add_data family)).
  apply (step_keeps _ _ _ _ _ _
           (keeps_stats_executors _ K HP _ info He) H7) in H.
  apply (step_keeps _ _ _ _ _ _
           (keeps_stats_nodes _ K HP info (Hn "total") (Hn "offline")
              (Hn "online")) H8) in H.
  apply (step_keeps _ _ _ _ _ _
           (keeps_stats_labels _ K HP opts jenkins Hl) H9) in H.
  apply (step_keeps _ _ _ _ _ _
           (keeps_stats_jobs _ K HP opts jenkins Hj) H10) in H.
  by apply (step_keeps _ _ _ _ _ _ (keeps_send _) H11) in H.
Qed.

Lemma stats_queue_run d n env s :
  py_len (dict_get d "items" (PyList [])) = Ok n ->
  stats_queue (PyDict d) env s = (Ok tt, wrote "queue.size" (PyInt n) s).
Proof.
  intros H. unfold stats_queue, mbind, M_bind, bind, lift. simpl.
  by rewrite H.
Qed.

Lemma stats_builds_run dm dh n1 n2 env s :
  py_len (dict_get dm "events" (PyList [])) = Ok n1 ->
  py_len (dict_get dh "events" (PyList [])) = Ok n2 ->
  stats_builds (PyDict dm) (PyDict dh) env s
    = (Ok tt, wrote "builds.started_builds_last_hour" (PyInt n2)
                (wrote "builds.started_builds_last_minute" (PyInt n1) s)).
Proof.
  intros H1 H2. unfold stats_builds, mbind, M_bind, bind, lift. simpl.
  by rewrite H1, H2.
Qed.

(** X8. In every completed pass, with or without labels and job view,
    whose queue and timeline fetches returned dictionaries, [queue.size] is
    the length of the [items] field of the queue record and the two build
    counters are the lengths of the [events] fields of the two timeline
    records, each field counting as empty when absent. *)
Theorem queue_and_build_counters_are_lengths
    (opts : list (string * PyValue)) (jenkins : JenkinsServer) (env : Env)
    (s s1 s2 s3 s4 s' : Sys) (info : PyValue)
    (dq dm dh : list (string * PyValue)) (n nm nh : Z) :
  get_data jenkins "computer" env s = (Ok info, s1) ->
  get_data jenkins "queue" env s1 = (Ok (PyDict dq), s2) ->
  build_info_min jenkins env s2 = (Ok (PyDict dm), s3) ->
  build_info_hour jenkins env s3 = (Ok (PyDict dh), s4) ->
  py_len (dict_get dq "items" (PyList [])) = Ok n ->
  py_len (dict_get dm "events" (PyList [])) = Ok nm ->
  py_len (dict_get dh "events" (PyList [])) = Ok nh ->
  gather_and_send_stats opts jenkins env s = (Ok tt, s') ->
  emitted (graphite s') "queue.size" = Some (PyInt n)
  /\ emitted (graphite s') "builds.started_builds_last_minute"
       = Some (PyInt nm)
  /\ emitted (graphite s') "builds.started_builds_last_hour"
       = Some (PyInt nh)
  /\ (dict_find dq "items" = None -> n = 0)
  /\ (forall l, dict_find dq "items" = Some (PyList l) ->
                n = Z.of_nat (length l)).
Proof.
  intros H1 H2 H3 H4 Hn Hnm Hnh Hrun.
  apply pass_steps in Hrun
    as (info' & qi & bm & bh & t1 & t2 & t3 & t4 & s5 & s6 & s7 & s8 & s9
        & s10 & b & G1 & G2 & G3 & G4 & G5 & G6 & G7 & G8 & G9 & G10 & G11).
  rewrite H1 in G1. injection G1 as <- <-.
  rewrite H2 in G2. injection G2 as <- <-.
  rewrite H3 in G3. injection G3 as <- <-.
  rewrite H4 in G4. injection G4 as <- <-.
  rewrite (stats_queue_run dq n env s4 Hn) in G5. injection G5 as <-.
  rewrite (stats_builds_run dm dh nm nh env _ Hnm Hnh) in G6.
  injection G6 as <-.
  assert (Hend : forall family k v,
            String.prefix family k = true ->
            (forall x, String.prefix family ("executors." +:+ x) = false) ->
            (forall x, String.prefix family ("nodes." +:+ x) = false) ->
            (forall x, String.prefix family ("labels." +:+ x) = false) ->
            (forall x, String.prefix family ("jobs." +:+ x) = false) ->
            emitted (graphite
                       (wrote "builds.started_builds_last_hour" (PyInt nh)
                          (wrote "builds.started_builds_last_minute" (PyInt nm)
                             (wrote "queue.size" (PyInt n) s4)))) k = Some v ->
            emitted (graphite s') k = Some v).
  { intros family k v Hk He Hno Hl Hj Hv. eapply has_entry_emitted.
    eapply (kept_after_builds family _ k v opts jenkins env info
              _ s7 s8 s9 s10 s' b Hk He Hno Hl Hj G7 G8 G9 G10 G11).
    by apply emitted_has_entry. }
  split; [| split; [| split; [| split]]].
  - apply (Hend "queue."); try done. simpl.
    rewrite !emitted_put_ne by done. apply emitted_put_eq.
  - apply (Hend "builds."); try done. simpl.
    rewrite emitted_put_ne by done. apply emitted_put_eq.
  - apply (Hend "builds."); try done. simpl. apply emitted_put_eq.
  - intros Hf. rewrite dict_get_find, Hf in Hn. by injection Hn as <-.
  - intros l Hf. rewrite dict_get_find, Hf in Hn. by injection Hn as <-.
Qed.

Lemma queue_and_build_counters_are_lengths_witness :
  emitted (graphite (gather_and_send_stats jobs_options sample_jenkins
             (sample_env (scenario_jenkins scenario_executors) None)
             sample_sys).2) "queue.size" = Some (PyInt 2).
Proof.
  apply (queue_and_build_counters_are_lengths jobs_options sample_jenkins
           (sample_env (scenario_jenkins scenario_executors) None)
           sample_sys
           (mkSys sample_sink (mkWorld 1 0 []))
           (mkSys sample_sink (mkWorld 2 0 []))
           (mkSys sample_sink (mkWorld 3 2 []))
           (mkSys sample_sink (mkWorld 4 4 []))
           (gather_and_send_stats jobs_options sample_jenkins
              (sample_env (scenario_jenkins scenario_executors) None)
              sample_sys).2
           (PyDict scenario_executors)
           [("items", PyList [PyStr "a"; PyStr "b"])]
           [("events", PyList [])] [("events", PyList [])] 2 0 0).
  - reflexivity.
  - reflexivity.
  - by vm_compute.
  - by vm_compute.
  - reflexivity.
  - reflexivity.
  - reflexivity.
  - by vm_compute.
Defined.

(** ** Answers that are not dictionaries *)

(** X9. A well-formed answer that is not a dictionary stops the pass:
    when the four fetches return and the queue record is not a dictionary,
    the pass raises [AttributeError] at the first counter, with the batch
    as it was and nothing sent. *)
Theorem queue_record_must_be_a_dictionary
    (opts : list (string * PyValue)) (jenkins : JenkinsServer) (env : Env)
    (s s1 s2 s3 s4 : Sys) (info qi bm bh : PyValue) :
  get_data jenkins "computer" env s = (Ok info, s1) ->
  get_data jenkins "queue" env s1 = (Ok qi, s2) ->
  build_info_min jenkins env s2 = (Ok bm, s3) ->
  build_info_hour jenkins env s3 = (Ok bh, s4) ->
  is_dict qi = false ->
  gather_and_send_stats opts jenkins env s = (Raise AttributeError, s4)
  /\ graphite s4 = graphite s
  /\ wire (world s4) = wire (world s).
Proof.
  intros H1 H2 H3 H4 Hq.
  split; [| by apply (fetches_keep_sink jenkins env s s1 s2 s3 s4 info qi bm bh)].
  unfold gather_and_send_stats.
  rewrite (bind_Ok _ _ _ _ _ _ H1), (bind_Ok _ _ _ _ _ _ H2),
          (bind_Ok _ _ _ _ _ _ H3), (bind_Ok _ _ _ _ _ _ H4).
  apply bind_Raise.
  unfold stats_queue, mbind, M_bind, bind, lift.
  by destruct qi.
Qed.

Lemma queue_record_must_be_a_dictionary_witness :
  gather_and_send_stats no_options sample_jenkins
    (sample_env (constant_jenkins 200 (PyList [])) None) sample_sys
    = (Raise AttributeError, mkSys sample_sink (mkWorld 4 4 []))
  /\ graphite (mkSys sample_sink (mkWorld 4 4 [])) = graphite sample_sys
  /\ wire (world (mkSys sample_sink (mkWorld 4 4 []))) = wire (world sample_sys).
Proof.
  apply (queue_record_must_be_a_dictionary no_options sample_jenkins
           (sample_env (constant_jenkins 200 (PyList [])) None) sample_sys
           (mkSys sample_sink (mkWorld 1 0 []))
           (mkSys sample_sink (mkWorld 2 0 []))
           (mkSys sample_sink (mkWorld 3 2 []))
           (mkSys sample_sink (mkWorld 4 4 []))
           (PyList []) (PyList []) (PyList []) (PyList [])).
  - reflexivity.
  - reflexivity.
  - by vm_compute.
  - by vm_compute.
  - reflexivity.
Defined.

(** ** The sink *)

Lemma rstrip_dot_dots (s : string) : exists n, s = rstrip_dot s +:+ dots n.
Proof.
  induction s as [|c s [n IH]]; simpl.
  - by exists O.
  - destruct (rstrip_dot s) as [|c' r] eqn:Hr.
    + destruct (Ascii.eqb_spec c ".") as [-> | Hne].
      * exists (S n). simpl. by rewrite IH at 1.
      * exists n. simpl. by rewrite IH at 1.
    + exists n. simpl. by rewrite IH at 1.
Qed.

Lemma rstrip_dot_no_dot (s : string) : ends_with_dot (rstrip_dot s) = false.
Proof.
  induction s as [|c s IH]; simpl; [done|].
  destruct (rstrip_dot s) as [|c' r] eqn:Hr.
  - destruct (Ascii.eqb_spec c ".") as [-> | Hne]; simpl; [done|].
    by apply Ascii.eqb_neq.
  - exact IH.
Qed.

Lemma rstrip_dot_id (s : string) : ends_with_dot s = false -> rstrip_dot s = s.
Proof.
  induction s as [|c s IH]; simpl; [done|].
  destruct s as [|c' s'].
  - simpl. intros H. by rewrite H.
  - intros H. rewrite (IH H). done.
Qed.

(** X10. The constructor fails exactly when [int(port)] fails.  When it
    returns, the sink has the given server, the port [int(port)], an empty
    batch, and as prefix the configured one without its trailing dots: the
    configured prefix is the stored one followed by dots only, the stored
    one does not end with a dot, and a configured prefix that does not end
    with a dot is stored as it is. *)
Theorem constructor_strips_trailing_dots
    (host : string) (p : PyValue) (pre : string) :
  match GraphiteServer_init host p pre with
  | Raise e => py_int p = Raise e
  | Ok g =>
      server g = host
      /\ py_int p = Ok (port g)
      /\ data g = ∅
      /\ (exists n, pre = prefix g +:+ dots n)
      /\ ends_with_dot (prefix g) = false
      /\ (ends_with_dot pre = false -> prefix g = pre)
  end.
Proof.
  unfold GraphiteServer_init. destruct (py_int p) as [n|e]; simpl; [|done].
  repeat split.
  - apply rstrip_dot_dots.
  - apply rstrip_dot_no_dot.
  - apply rstrip_dot_id.
Qed.

Lemma constructor_strips_trailing_dots_witness :
  ends_with_dot "jenkins" = false /\ rstrip_dot "jenkins" = "jenkins".
Proof.
  split; [reflexivity|].
  exact (proj2 (proj2 (proj2 (proj2 (proj2
           (constructor_strips_trailing_dots
              "graphite.example.com" (PyStr "2003") "jenkins"))))) eq_refl).
Defined.

(** X11. [add_data] always returns, writes the value under the qualified
    name of the key and changes nothing else: every other name of the
    batch, the server, the port, the prefix and the world are as before;
    the batch grows by one entry when the name is new and keeps its size
    when the name was there; and a second write under the same key makes
    the first one void. *)
Theorem add_data_writes_one_entry
    (key : string) (value : PyValue) (env : Env) (s : Sys) :
  let g := graphite s in
  let s' := (add_data key value env s).2 in
  (add_data key value env s).1 = Ok tt
  /\ emitted (graphite s') key = Some value
  /\ (forall name, name <> metric g key ->
        data (graphite s') !! name = data g !! name)
  /\ (forall key', key' <> key ->
        emitted (graphite s') key' = emitted g key')
  /\ server (graphite s') = server g
  /\ port (graphite s') = port g
  /\ prefix (graphite s') = prefix g
  /\ world s' = world s
  /\ size (data (graphite s'))
       = match emitted g key with
         | Some _ => size (data g)
         | None => S (size (data g))
         end
  /\ (forall value',
        (add_data key value' env s').2 = (add_data key value' env s).2).
Proof.
  intros g s'. subst s'. rewrite add_data_run. simpl. fold g.
  repeat split.
  - apply emitted_put_eq.
  - intros name Hne. apply lookup_insert_ne. intros Heq. apply Hne.
    by rewrite <- Heq.
  - intros key' Hne. apply emitted_put_ne. congruence.
  - unfold emitted. rewrite map_size_insert.
    change (prefix g +:+ String "." key) with (metric g key).
    by destruct (data g !! metric g key).
  - intros value'. unfold put. simpl. by rewrite insert_insert_eq.
Qed.

(** X12. Writes under different keys commute: the order of two
    [add_data] calls with different keys does not show in the state. *)
Theorem add_data_commutes
    (k1 k2 : string) (v1 v2 : PyValue) (env : Env) (s : Sys) :
  k1 <> k2 ->
  (add_data k2 v2 env (add_data k1 v1 env s).2).2
    = (add_data k1 v1 env (add_data k2 v2 env s).2).2.
Proof.
  intros Hne. rewrite !add_data_run. simpl. unfold put. simpl.
  f_equal. f_equal. apply insert_insert_ne.
  intros H. apply Hne. by apply (metric_inj (graphite s)).
Qed.

Lemma add_data_commutes_witness :
  (add_data "nodes.total" (PyInt 2) (sample_env no_jenkins None)
     (add_data "queue.size" (PyInt 3) (sample_env no_jenkins None)
        sample_sys).2).2
  = (add_data "queue.size" (PyInt 3) (sample_env no_jenkins None)
       (add_data "nodes.total" (PyInt 2) (sample_env no_jenkins None)
          sample_sys).2).2.
Proof.
  apply (add_data_commutes "queue.size" "nodes.total" (PyInt 3) (PyInt 2)
           (sample_env no_jenkins None) sample_sys).
  discriminate.
Defined.

(** ** The fetch layer *)

(** X13. Every fetch asks Jenkins exactly once, whatever the answer: a
    [get_raw_data] or [get_data] call, whether it returns a record, the
    empty record or raises, has made one request, has read no clock, has
    sent nothing and has left the sink alone.  A timeline fetch
    ([build_info_min], [build_info_hour]) reads the clock twice and makes
    at most one request, exactly one when it returns. *)
Theorem fetch_effects (self : JenkinsServer) (url : string) (env : Env)
    (s : Sys) :
  (get_raw_data self url env s).2 = asked s
  /\ (get_data self url env s).2 = asked s
  /\ (forall r s',
        build_info_min self env s = (r, s')
        \/ build_info_hour self env s = (r, s') ->
        wire (world s') = wire (world s)
        /\ graphite s' = graphite s
        /\ clock_calls (world s') = S (S (clock_calls (world s)))
        /\ (http_calls (world s') <= S (http_calls (world s)))%nat
        /\ (forall v, r = Ok v ->
              http_calls (world s') = S (http_calls (world s)))).
Proof.
  split; [apply get_raw_data_state|]. split; [apply get_raw_data_state|].
  intros r s' [H | H].
  - by apply (build_info_state 60 self env s r s').
  - by apply (build_info_state 3600 self env s r s').
Qed.

Lemma fetch_effects_witness :
  clock_calls (world (build_info_min sample_jenkins
                        (sample_env (constant_jenkins 503 PyNone) None)
                        sample_sys).2) = 2%nat
  /\ http_calls (world (build_info_min sample_jenkins
                          (sample_env (constant_jenkins 503 PyNone) None)
                          sample_sys).2) = 1%nat.
Proof.
  destruct (proj2 (proj2 (fetch_effects sample_jenkins "queue"
                            (sample_env (constant_jenkins 503 PyNone) None)
                            sample_sys))
              (Ok (PyDict []))
              (build_info_min sample_jenkins
                 (sample_env (constant_jenkins 503 PyNone) None) sample_sys).2)
    as (_ & _ & Hc & _ & Hh).
  - left. by vm_compute.
  - split; [exact Hc | exact (Hh (PyDict []) eq_refl)].
Defined.

(** ** What the pass leaves in place *)

Lemma keeps_batch_grows (g0 : GraphiteServer) key value :
  keeps (fun g => server g = server g0 /\ port g = port g0
                  /\ prefix g = prefix g0
                  /\ forall name, is_Some (data g0 !! name) ->
                                  is_Some (data g !! name))
        (add_data key value).
Proof.
  intros env s (Hs & Hp & Hx & Hd). unfold sink_after. rewrite add_data_run.
  simpl. repeat split; try done.
  intros name Hn. specialize (Hd name Hn).
  destruct (decide (name = prefix (graphite s) +:+ "." +:+ key)) as [-> | Hne].
  - rewrite lookup_insert_eq. by eexists.
  - by rewrite lookup_insert_ne.
Qed.

Lemma keeps_untouched_name (p name : string) (o : option PyValue) key value :
  p +:+ "." +:+ key <> name ->
  keeps (fun g => prefix g = p /\ data g !! name = o) (add_data key value).
Proof.
  intros Hne env s [Hp Hd]. unfold sink_after. rewrite add_data_run. simpl.
  split; [done|]. rewrite Hp. by rewrite lookup_insert_ne.
Qed.

(** X14. A pass, completed or not, only adds to the batch or overwrites
    in it: the server, the port and the prefix of the sink are as before,
    and every name that the batch had is still in it (sending does not
    empty the batch).  A name that is not the qualified name of a key of
    one of the six families [queue.], [builds.], [executors.], [nodes.],
    [labels.] and [jobs.] keeps the value it had, or stays absent. *)
Theorem pass_only_adds_to_the_batch
    (opts : list (string * PyValue)) (jenkins : JenkinsServer) (env : Env)
    (s : Sys) :
  let g := graphite s in
  let g' := sink_after (gather_and_send_stats opts jenkins) env s in
  server g' = server g
  /\ port g' = port g
  /\ prefix g' = prefix g
  /\ (forall name, is_Some (data g !! name) -> is_Some (data g' !! name))
  /\ (forall name,
        (forall key, name = metric g key ->
           Forall (fun family => String.prefix family key = false)
             ["queue."; "builds."; "executors."; "nodes."; "labels."; "jobs."]) ->
        data g' !! name = data g !! name).
Proof.
  intros g g'.
  assert (H1 : server g' = server g /\ port g' = port g /\ prefix g' = prefix g
               /\ forall name, is_Some (data g !! name) ->
                               is_Some (data g' !! name)).
  { apply (keeps_gather_and_send_stats _ (fun _ => True)
             (fun key value _ => keeps_batch_grows g key value)
             opts jenkins (fun _ => I) env s).
    by repeat split. }
  destruct H1 as (Hs & Hp & Hx & Hd). do 4 (split; [done|]).
  intros name Hname.
  assert (HK : forall family key,
            family ∈ ["queue."; "builds."; "executors."; "nodes.";
                      "labels."; "jobs."] ->
            String.prefix family key = true ->
            prefix g +:+ "." +:+ key <> name).
  { intros family key Hin Hpre Heq. symmetry in Heq.
    specialize (Hname key Heq). rewrite Forall_forall in Hname.
    specialize (Hname family Hin). congruence. }
  set (K := fun key => prefix g +:+ "." +:+ key <> name).
  set (P := fun g1 => prefix g1 = prefix g /\ data g1 !! name = data g !! name).
  assert (HP : forall key value, K key -> keeps P (add_data key value))
    by (intros key value Hk; by apply keeps_untouched_name).
  assert (Hin : forall family,
            family ∈ ["queue."; "builds."; "executors."; "nodes.";
                      "labels."; "jobs."] ->
            forall x, K (family +:+ x)).
  { intros family Hf x. apply (HK family); [done|]. apply prefix_append. }
  assert (Hpass : keeps P (gather_and_send_stats opts jenkins)).
  { unfold gather_and_send_stats.
    apply keeps_bind; [apply keeps_get_data | intros executor_info].
    apply keeps_bind; [apply keeps_get_data | intros queue_info].
    apply keeps_bind; [apply keeps_build_info_min | intros bmin].
    apply keeps_bind; [apply keeps_build_info_hour | intros bhour].
    apply keeps_bind.
    { apply (keeps_stats_queue P K HP).
      apply (Hin "queue." ltac:(set_solver) "size"). }
    intros _. apply keeps_bind.
    { apply (keeps_stats_builds P K HP).
      - apply (Hin "builds." ltac:(set_solver) "started_builds_last_minute").
      - apply (Hin "builds." ltac:(set_solver) "started_builds_last_hour"). }
    intros _. apply keeps_bind.
    { apply (keeps_stats_executors P K HP). intros k.
      apply (Hin "executors." ltac:(set_solver) k). }
    intros _. apply keeps_bind.
    { apply (keeps_stats_nodes P K HP).
      - apply (Hin "nodes." ltac:(set_solver) "total").
      - apply (Hin "nodes." ltac:(set_solver) "offline").
      - apply (Hin "nodes." ltac:(set_solver) "online"). }
    intros _. apply (keeps_labels_jobs_send P K HP).
    - intros k. apply (Hin "labels." ltac:(set_solver) k).
    - intros k. apply (Hin "jobs." ltac:(set_solver) k). }
  by apply (Hpass env s).
Qed.

Lemma pass_only_adds_to_the_batch_witness :
  data (sink_after (gather_and_send_stats no_options sample_jenkins)
          (sample_env (scenario_jenkins scenario_executors) None)
          (mkSys (put "uptime" (PyInt 7) sample_sink) fresh_world))
    !! "jenkins.uptime" = Some (PyInt 7).
Proof.
  rewrite (proj2 (proj2 (proj2 (proj2
             (pass_only_adds_to_the_batch no_options sample_jenkins
                (sample_env (scenario_jenkins scenario_executors) None)
                (mkSys (put "uptime" (PyInt 7) sample_sink) fresh_world)))))
             "jenkins.uptime").
  - reflexivity.
  - intros key Hkey. apply (append_inj "jenkins.") in Hkey. subst key.
    by repeat constructor.
Defined.

(** ** Labels *)

Lemma label_key_suffix_inj label s1 s2 :
  label_key label s1 = label_key label s2 -> s1 = s2.
Proof.
  unfold label_key. intros H. apply append_inj in H. by apply append_inj in H.
Qed.

Lemma stats_label_run jenkins label d nt nn t b env s s1 :
  get_data jenkins ("label/" +:+ py_str label) env s = (Ok (PyDict d), s1) ->
  py_len (dict_get d "tiedJobs" (PyList [])) = Ok nt ->
  py_len (dict_get d "nodes" (PyList [])) = Ok nn ->
  dict_get d "totalExecutors" (PyInt 0) = PyInt t ->
  dict_get d "busyExecutors" (PyInt 0) = PyInt b ->
  stats_label jenkins label env s =
    (Ok tt,
     mkSys (put (label_key label ".executors.free") (PyInt (t - b))
           (put (label_key label ".executors.busy") (PyInt b)
           (put (label_key label ".executors.total") (PyInt t)
           (put (label_key label ".nodes.total") (PyInt nn)
           (put (label_key label ".jobs.tiedJobs") (PyInt nt)
              (graphite s1))))))
           (world s1)).
Proof.
  intros Hf Hnt Hnn Ht Hb. unfold stats_label.
  rewrite (bind_Ok _ _ _ _ _ _ Hf).
  unfold mbind at 1 2 3 4, M_bind at 1 2 3 4, bind at 1 2 3 4, lift. simpl.
  rewrite Hnt, Hnn. simpl.
  by rewrite (stats_executors_run _ d t b _ _ Ht Hb).
Qed.

Lemma five_puts_hold label nt nn t b g :
  holds_label label nt nn t b
    (put (label_key label ".executors.free") (PyInt (t - b))
    (put (label_key label ".executors.busy") (PyInt b)
    (put (label_key label ".executors.total") (PyInt t)
    (put (label_key label ".nodes.total") (PyInt nn)
    (put (label_key label ".jobs.tiedJobs") (PyInt nt) g))))).
Proof.
  assert (Hne : forall s1 s2, s1 <> s2 ->
            label_key label s1 <> label_key label s2)
    by (intros s1 s2 Hs H; by apply Hs, (label_key_suffix_inj label)).
  unfold holds_label, label_counters. repeat constructor; simpl.
  - rewrite !emitted_put_ne by (by apply Hne). apply emitted_put_eq.
  - rewrite !emitted_put_ne by (by apply Hne). apply emitted_put_eq.
  - rewrite !emitted_put_ne by (by apply Hne). apply emitted_put_eq.
  - rewrite !emitted_put_ne by (by apply Hne). apply emitted_put_eq.
  - apply emitted_put_eq.
Qed.

(** X15. For a label whose fetch returns a dictionary with integer
    executor counters (0 when absent), the label step returns normally and
    writes five counters under [labels.<label>]: the lengths of the
    [tiedJobs] and [nodes] fields (0 when absent), the two executor
    counters and, as [executors.free], their difference, not clamped. *)
Theorem label_step_writes_five_counters
    (jenkins : JenkinsServer) (label : PyValue) (d : list (string * PyValue))
    (nt nn t b : Z) (env : Env) (s s1 : Sys) :
  get_data jenkins ("label/" +:+ py_str label) env s = (Ok (PyDict d), s1) ->
  py_len (dict_get d "tiedJobs" (PyList [])) = Ok nt ->
  py_len (dict_get d "nodes" (PyList [])) = Ok nn ->
  dict_get d "totalExecutors" (PyInt 0) = PyInt t ->
  dict_get d "busyExecutors" (PyInt 0) = PyInt b ->
  exists g',
    stats_label jenkins label env s = (Ok tt, mkSys g' (world s1))
    /\ emitted g' ("labels." +:+ py_str label +:+ ".jobs.tiedJobs")
         = Some (PyInt nt)
    /\ emitted g' ("labels." +:+ py_str label +:+ ".nodes.total")
         = Some (PyInt nn)
    /\ emitted g' ("labels." +:+ py_str label +:+ ".executors.total")
         = Some (PyInt t)
    /\ emitted g' ("labels." +:+ py_str label +:+ ".executors.busy")
         = Some (PyInt b)
    /\ emitted g' ("labels." +:+ py_str label +:+ ".executors.free")
         = Some (PyInt (t - b)).
Proof.
  intros Hf Hnt Hnn Ht Hb. eexists. split.
  - by apply (stats_label_run jenkins label d nt nn t b).
  - pose proof (five_puts_hold label nt nn t b (graphite s1)) as H.
    unfold holds_label, label_counters in H.
    repeat (apply Forall_cons in H as [? H]). by repeat split.
Qed.

Lemma label_step_writes_five_counters_witness :
  exists g',
    stats_label sample_jenkins (PyStr "linux")
      (sample_env (constant_jenkins 200
                     (PyDict [("totalExecutors", PyInt 1);
                              ("busyExecutors", PyInt 4)])) None)
      sample_sys
      = (Ok tt, mkSys g' (world (asked sample_sys)))
    /\ emitted g' "labels.linux.executors.free" = Some (PyInt (-3)).
Proof.
  destruct (label_step_writes_five_counters sample_jenkins (PyStr "linux")
              [("totalExecutors", PyInt 1); ("busyExecutors", PyInt 4)]
              0 0 1 4
              (sample_env (constant_jenkins 200
                             (PyDict [("totalExecutors", PyInt 1);
                                      ("busyExecutors", PyInt 4)])) None)
              sample_sys (asked sample_sys))
    as (g' & Hrun & _ & _ & _ & _ & Hfree); try reflexivity.
  by exists g'.
Defined.

(** *** The keys of different labels do not meet *)

Lemma letters_append (a b : string) :
  letters (a +:+ b) = (letters a ++ letters b)%list.
Proof. induction a as [|c a IH]; simpl; [done | by rewrite IH]. Qed.

Lemma letters_inj (a b : string) : letters a = letters b -> a = b.
Proof.
  revert b. induction a as [|c a IH]; intros [|c' b]; simpl; try done.
  intros [= -> H]. by rewrite (IH b H).
Qed.

Lemma suffixed_inj (a b s1 s2 : string) :
  s1 ∈ label_suffixes -> s2 ∈ label_suffixes ->
  a +:+ s1 = b +:+ s2 -> a = b /\ s1 = s2.
Proof.
  intros H1 H2 H. apply (f_equal letters) in H. rewrite !letters_append in H.
  apply (f_equal (@List.rev ascii)) in H. rewrite !List.rev_app_distr in H.
  unfold label_suffixes in H1, H2.
  repeat (apply elem_of_cons in H1 as [-> | H1]);
    try (by apply elem_of_nil in H1);
    repeat (apply elem_of_cons in H2 as [-> | H2]);
    try (by apply elem_of_nil in H2);
    first
      [ by (simpl in H; congruence)
      | split; [| done]; apply letters_inj; apply app_inv_head in H;
        apply (f_equal (@List.rev ascii)) in H;
        by rewrite !List.rev_involutive in H ].
Qed.

Lemma label_key_inj (l1 l2 : PyValue) (s1 s2 : string) :
  s1 ∈ label_suffixes -> s2 ∈ label_suffixes ->
  label_key l1 s1 = label_key l2 s2 -> py_str l1 = py_str l2 /\ s1 = s2.
Proof.
  intros H1 H2 H. unfold label_key in H. apply append_inj in H.
  by apply suffixed_inj.
Qed.

(** *** The labels of a pass *)

Section KeepsLabel.
Context (P : GraphiteServer -> Prop) (K : string -> Prop).
Context (HP : forall key value, K key -> keeps P (add_data key value)).

Lemma keeps_stats_executors_keys key info :
  K (key "total") -> K (key "busy") -> K (key "free") ->
  keeps P (stats_executors key info).
Proof.
  intros H1 H2 H3.
  apply keeps_bind; [apply keeps_lift | intros total].
  apply keeps_bind; [by apply HP | intros _].
  apply keeps_bind; [apply keeps_lift | intros busy].
  apply keeps_bind; [by apply HP | intros _].
  apply keeps_bind; [apply keeps_lift | intros free].
  by apply HP.
Qed.

Lemma keeps_stats_label_keys jenkins label :
  (forall suffix, suffix ∈ label_suffixes -> K (label_key label suffix)) ->
  keeps P (stats_label jenkins label).
Proof.
  intros HK.
  assert (H1 := HK ".jobs.tiedJobs" ltac:(set_solver)).
  assert (H2 := HK ".nodes.total" ltac:(set_solver)).
  assert (H3 := HK ".executors.total" ltac:(set_solver)).
  assert (H4 := HK ".executors.busy" ltac:(set_solver)).
  assert (H5 := HK ".executors.free" ltac:(set_solver)).
  apply keeps_bind; [apply keeps_get_data | intros info].
  apply keeps_bind; [apply keeps_lift | intros n].
  apply keeps_bind; [by apply HP | intros _].
  apply keeps_bind; [apply keeps_lift | intros n'].
  apply keeps_bind; [by apply HP | intros _].
  by apply keeps_stats_executors_keys.
Qed.
End KeepsLabel.

Lemma keeps_entry_add_data_ne (p k : string) (v : PyValue) key value :
  key <> k -> keeps (has_entry p k v) (add_data key value).
Proof.
  intros Hne env s [Hp Hd]. unfold sink_after. rewrite add_data_run.
  split; [done|]. simpl. rewrite Hp. rewrite lookup_insert_ne; [done|].
  intros H. apply append_inj in H. simpl in H. injection H as H. done.
Qed.

Lemma keeps_prefix_add_data (p : string) key value :
  keeps (fun g => prefix g = p) (add_data key value).
Proof. intros env s H. unfold sink_after. by rewrite add_data_run. Qed.

Section LabelsOfAPass.
Context (jenkins : JenkinsServer) (env : Env) (L : PyValue).
Context (d : list (string * PyValue)) (nt nn t b : Z).
Context (Hstat : forall n,
           requests_get env n (label_url jenkins L) (_request_args jenkins)
             = Answer (mkResponse 200 (Literal (PyDict d)))).
Context (Hnt : py_len (dict_get d "tiedJobs" (PyList [])) = Ok nt).
Context (Hnn : py_len (dict_get d "nodes" (PyList [])) = Ok nn).
Context (Ht : dict_get d "totalExecutors" (PyInt 0) = PyInt t).
Context (Hb : dict_get d "busyExecutors" (PyInt 0) = PyInt b).

Lemma label_fetch_stationary label s :
  py_str label = py_str L ->
  get_data jenkins ("label/" +:+ py_str label) env s = (Ok (PyDict d), asked s).
Proof.
  intros Hl. rewrite Hl. unfold get_data, get_raw_data, mbind, M_bind, bind,
    http_get. fold (label_url jenkins L). by rewrite Hstat.
Qed.

Lemma holds_label_same_name label g :
  py_str label = py_str L ->
  holds_label label nt nn t b g -> holds_label L nt nn t b g.
Proof. unfold holds_label, label_key. by intros ->. Qed.

(** The step of a label with the name of [L] writes the counters of [L]. *)
Lemma label_step_establishes label s s' :
  py_str label = py_str L ->
  stats_label jenkins label env s = (Ok tt, s') ->
  holds_label L nt nn t b (graphite s').
Proof.
  intros Hl Hrun.
  rewrite (stats_label_run jenkins label d nt nn t b env s (asked s)
             (label_fetch_stationary label s Hl) Hnt Hnn Ht Hb) in Hrun.
  injection Hrun as <-. apply (holds_label_same_name label); [done|].
  apply five_puts_hold.
Qed.

(** The step of a label with another name leaves them in place. *)
Lemma label_step_keeps label s r s' :
  py_str label <> py_str L ->
  stats_label jenkins label env s = (r, s') ->
  holds_label L nt nn t b (graphite s) ->
  holds_label L nt nn t b (graphite s').
Proof.
  intros Hl Hrun H.
  assert (Hp : prefix (graphite s') = prefix (graphite s)).
  { apply (step_keeps (fun g => prefix g = prefix (graphite s)) _ _ _ _ _
             (keeps_stats_label _ (fun _ => True)
                (fun key value _ => keeps_prefix_add_data _ key value)
                jenkins label (fun _ => I))
             Hrun eq_refl). }
  unfold holds_label in *. rewrite Forall_forall in H. apply Forall_forall.
  intros [suffix z] Hin. specialize (H _ Hin). simpl in *.
  eapply has_entry_emitted.
  apply (step_keeps _ _ _ _ _ _
           (keeps_stats_label_keys
              (has_entry (prefix (graphite s)) (label_key L suffix) (PyInt z))
              (fun key => key <> label_key L suffix)
              (fun key value Hk =>
                 keeps_entry_add_data_ne _ _ _ key value Hk)
              jenkins label
              ltac:(intros suffix' Hs' Heq;
                    apply label_key_inj in Heq as [Heq _];
                    [done | done |];
                    apply (list_elem_of_fmap_2 fst) in Hin; exact Hin))
           Hrun).
  by apply emitted_has_entry.
Qed.

Lemma labels_loop_keeps ls s s' :
  for_each ls (stats_label jenkins) env s = (Ok tt, s') ->
  holds_label L nt nn t b (graphite s) ->
  holds_label L nt nn t b (graphite s').
Proof.
  revert s. induction ls as [|l ls IH]; simpl; intros s Hrun H.
  - by injection Hrun as <-.
  - apply bind_inv_Ok in Hrun as ([] & s1 & H1 & Hrun).
    apply (IH s1 Hrun).
    destruct (decide (py_str l = py_str L)) as [Hl | Hl].
    + by apply (label_step_establishes l s s1).
    + by apply (label_step_keeps l s (Ok tt) s1).
Qed.

Lemma labels_loop_holds ls s s' :
  L ∈ ls ->
  for_each ls (stats_label jenkins) env s = (Ok tt, s') ->
  holds_label L nt nn t b (graphite s').
Proof.
  revert s. induction ls as [|l ls IH]; intros s Hin Hrun.
  - by apply elem_of_nil in Hin.
  - simpl in Hrun. apply bind_inv_Ok in Hrun as ([] & s1 & H1 & Hrun).
    apply elem_of_cons in Hin as [<- | Hin].
    + apply (labels_loop_keeps ls s1 s' Hrun).
      by apply (label_step_establishes L s s1).
    + by apply (IH s1).
Qed.

Lemma pass_holds_label opts s s' :
  L ∈ configured_labels opts ->
  gather_and_send_stats opts jenkins env s = (Ok tt, s') ->
  holds_label L nt nn t b (graphite s').
Proof.
  intros Hin Hrun.
  apply pass_steps in Hrun
    as (info & qi & bm & bh & s1 & s2 & s3 & s4 & s5 & s6 & s7 & s8 & s9
        & s10 & r & _ & _ & _ & _ & _ & _ & _ & _ & H9 & H10 & H11).
  assert (H : holds_label L nt nn t b (graphite s9)).
  { revert H9 Hin.
    unfold stats_labels, configured_labels, mbind, M_bind, bind, lift.
    destruct (py_getitem opts "--labels") as [labels|e]; simpl; [|done].
    destruct (py_bool labels); [|by intros _ Hin; apply elem_of_nil in Hin].
    destruct (py_iter labels) as [ls|e]; simpl; [|done].
    intros H9 Hin. by apply (labels_loop_holds ls s8 s9). }
  assert (Hp : prefix (graphite s') = prefix (graphite s9)).
  { transitivity (prefix (graphite s10)).
    - apply (step_keeps (fun g => prefix g = prefix (graphite s10)) _ _ _ _ _
               (keeps_send _) H11 eq_refl).
    - apply (step_keeps (fun g => prefix g = prefix (graphite s9)) _ _ _ _ _
               (keeps_stats_jobs _ (fun _ => True)
                  (fun key value _ => keeps_prefix_add_data _ key value)
                  opts jenkins (fun _ => I))
               H10 eq_refl). }
  unfold holds_label in *. rewrite Forall_forall in H. apply Forall_forall.
  intros [suffix z] Hsz. specialize (H _ Hsz). simpl in *.
  eapply has_entry_emitted.
  set (P := has_entry (prefix (graphite s9)) (label_key L suffix) (PyInt z)).
  assert (HP : forall key value, String.prefix "labels." key = false ->
            keeps P (add_data key value)).
  { intros key value Hk.
    apply (keeps_entry_add_data "labels."); [apply prefix_append | done]. }
  apply (step_keeps P _ _ _ _ _ (keeps_send _) H11).
  apply (step_keeps P _ _ _ _ _
           (keeps_stats_jobs P _ HP opts jenkins (fun _ => eq_refl)) H10).
  by apply emitted_has_entry.
Qed.
End LabelsOfAPass.

(** X16. Let [L] be one of the configured labels, and let Jenkins answer
    every request for the record of [L] with status 200 and the same
    dictionary, with integer executor counters (0 when absent).  Then at
    the end of every completed pass the batch holds the five counters of
    [L] computed from that dictionary, whatever the other labels are,
    whether [L] is listed once or several times, and whether a job view
    is configured or not: the steps of the other labels and the job step
    never write a key of [L]. *)
Theorem completed_pass_holds_label_counters
    (opts : list (string * PyValue)) (jenkins : JenkinsServer) (env : Env)
    (L : PyValue) (d : list (string * PyValue)) (nt nn t b : Z)
    (s s' : Sys) :
  (forall n,
     requests_get env n (label_url jenkins L) (_request_args jenkins)
       = Answer (mkResponse 200 (Literal (PyDict d)))) ->
  py_len (dict_get d "tiedJobs" (PyList [])) = Ok nt ->
  py_len (dict_get d "nodes" (PyList [])) = Ok nn ->
  dict_get d "totalExecutors" (PyInt 0) = PyInt t ->
  dict_get d "busyExecutors" (PyInt 0) = PyInt b ->
  L ∈ configured_labels opts ->
  gather_and_send_stats opts jenkins env s = (Ok tt, s') ->
  emitted (graphite s') (label_key L ".jobs.tiedJobs") = Some (PyInt nt)
  /\ emitted (graphite s') (label_key L ".nodes.total") = Some (PyInt nn)
  /\ emitted (graphite s') (label_key L ".executors.total") = Some (PyInt t)
  /\ emitted (graphite s') (label_key L ".executors.busy") = Some (PyInt b)
  /\ emitted (graphite s') (label_key L ".executors.free")
       = Some (PyInt (t - b)).
Proof.
  intros Hstat Hnt Hnn Ht Hb Hin Hrun.
  pose proof (pass_holds_label jenkins env L d nt nn t b Hstat Hnt Hnn Ht Hb
                opts s s' Hin Hrun) as H.
  unfold holds_label, label_counters in H.
  repeat (apply Forall_cons in H as [? H]). by repeat split.
Qed.

Lemma completed_pass_holds_label_counters_witness :
  emitted
    (graphite (gather_and_send_stats
       [("--labels", PyList [PyStr "linux"; PyStr "arm"; PyStr "linux"]);
        ("--jobs", PyStr "main")]
       sample_jenkins
       (sample_env (constant_jenkins 200
                      (PyDict [("totalExecutors", PyInt 1);
                               ("busyExecutors", PyInt 4)])) None)
       sample_sys).2)
    "labels.linux.executors.free" = Some (PyInt (-3)).
Proof.
  apply (completed_pass_holds_label_counters
           [("--labels", PyList [PyStr "linux"; PyStr "arm"; PyStr "linux"]);
            ("--jobs", PyStr "main")]
           sample_jenkins
           (sample_env (constant_jenkins 200
                          (PyDict [("totalExecutors", PyInt 1);
                                   ("busyExecutors", PyInt 4)])) None)
           (PyStr "linux")
           [("totalExecutors", PyInt 1); ("busyExecutors", PyInt 4)]
           0 0 1 4 sample_sys).
  - intros n. reflexivity.
  - reflexivity.
  - reflexivity.
  - reflexivity.
  - reflexivity.
  - unfold configured_labels. simpl. set_solver.
  - by vm_compute.
Defined.

(** ** The credentials of the Jenkins server *)

(** X17. The constructor of the Jenkins server keeps the credentials only
    when the user name is true.  With a user name that is [None] or empty,
    the password is dropped: the server is the one built without
    credentials, so every pass runs as without them.  With a true user
    name, every fetch asks for [base_url/url] with the pair of user name
    and password, whatever the password is, and its outcome is read off
    that one answer. *)
Theorem credentials_need_a_user_name
    (base : string) (username password : PyValue) :
  (py_bool username = false ->
     JenkinsServer_init base username password
       = JenkinsServer_init base PyNone PyNone
     /\ forall opts env s,
          gather_and_send_stats opts
              (JenkinsServer_init base username password) env s
            = gather_and_send_stats opts
                (JenkinsServer_init base PyNone PyNone) env s)
  /\ (py_bool username = true ->
        forall url env s,
          (get_raw_data (JenkinsServer_init base username password)
             url env s).1
            = match requests_get env (http_calls (world s))
                      (base +:+ "/" +:+ url) (Some (username, password)) with
              | TransportError e => Raise e
              | Answer r =>
                  if status_code r =? 200 then literal_eval (text r)
                  else Ok (PyDict [])
              end).
Proof.
  split.
  - intros Hu.
    assert (Heq : JenkinsServer_init base username password
                  = JenkinsServer_init base PyNone PyNone).
    { unfold JenkinsServer_init. by rewrite Hu. }
    split; [done|]. intros opts env s. by rewrite Heq.
  - intros Hu url env s.
    unfold get_raw_data, JenkinsServer_init, mbind, M_bind, bind, http_get,
      ret, lift.
    rewrite Hu. simpl.
    destruct (requests_get env _ _ _) as [e|r]; simpl; [done|].
    destruct (status_code r =? 200); simpl; [|done].
    by destruct (literal_eval (text r)).
Qed.

Lemma credentials_need_a_user_name_witness :
  JenkinsServer_init "http://jenkins.example.com" (PyStr EmptyString)
      (PyStr "secret")
    = sample_jenkins.
Proof.
  apply (proj1 (credentials_need_a_user_name "http://jenkins.example.com"
                  (PyStr EmptyString) (PyStr "secret"))).
  reflexivity.
Defined.
